(** * Windowed file I/O of UPX (src/file.cpp): a shallow embedding

    The handle classes of [file.cpp] (FileBase, InputFile, OutputFile and
    the stream-backed InputStream, OutputStream) are embedded as state
    transformers over the handle's fields and the world the handle talks
    to (errno and either the operating system or a C++ stream).  A thrown
    C++ exception is an [inl] result; the fields and the world keep every
    update made before the throw, as they do in C++. *)

From Stdlib Require Import ZArith List String Bool Lia.
From Stdlib Require Import Init.Byte.
Import ListNotations.
Open Scope string_scope.
Open Scope Z_scope.

(** ** Machine integers

    [upx_off_t] and [upx_int64_t] are 64-bit signed, [int] is 32-bit
    signed, [upx_uint64_t] is 64-bit unsigned.  Values live in [Z]; each
    arithmetic result is reduced to its type. *)

Definition wrap_signed (bits z : Z) : Z :=
  (z + 2 ^ (bits - 1)) mod 2 ^ bits - 2 ^ (bits - 1).

Definition to_off_t (z : Z) : Z := wrap_signed 64 z.
Definition to_int (z : Z) : Z := wrap_signed 32 z.
Definition to_uint64 (z : Z) : Z := z mod 2 ^ 64.

(** The values an [upx_off_t] variable can hold. *)
Definition in_off_t (z : Z) : Prop := - 2 ^ 63 <= z < 2 ^ 63.

(** ** Constants of the C library (<stdio.h>, <errno.h>, <unistd.h>) *)

Definition SEEK_SET : Z := 0.
Definition SEEK_CUR : Z := 1.
Definition SEEK_END : Z := 2.

Definition ENOENT : Z := 2.
Definition EIO : Z := 5.
Definition EEXIST : Z := 17.
Definition EINVAL : Z := 22.

Definition STDIN_FILENO : Z := 0.
Definition STDOUT_FILENO : Z := 1.
Definition STDERR_FILENO : Z := 2.

(** ** Exceptions

    [throwIOException(msg, e)] has the defaults [msg = nullptr], [e = 0];
    a message is a [const char *], hence an optional string.  A failed
    [assert] ends the program: it is the outcome [AssertionFailed]. *)

Inductive exn : Type :=
| IOException (msg : option string) (e : Z)
| FileNotFoundException (msg : option string) (e : Z)
| FileAlreadyExistsException (msg : option string) (e : Z)
| EOFException
| InternalError (msg : string)
| OtherException (msg : string)
| AssertionFailed (cond : string).

(** ** The world and the monad of member functions *)

Record World (K : Type) : Type := mkWorld { errno : Z; backend : K }.
Arguments mkWorld {K} _ _.
Arguments errno {K} _.
Arguments backend {K} _.

(** The global options ([opt]) as far as file.cpp reads them. *)
Record options : Type := mkOptions { to_stdout : bool }.

Definition M (H K A : Type) : Type := H -> World K -> (exn + A) * H * World K.

Definition ret {H K A} (a : A) : M H K A := fun h w => (inr a, h, w).

Definition bind {H K A B} (m : M H K A) (f : A -> M H K B) : M H K B :=
  fun h w =>
    match m h w with
    | (inr a, h', w') => f a h' w'
    | (inl x, h', w') => (inl x, h', w')
    end.

Definition throw {H K A} (x : exn) : M H K A := fun h w => (inl x, h, w).

Definition this {H K} : M H K H := fun h w => (inr h, h, w).
Definition update {H K} (f : H -> H) : M H K unit := fun h w => (inr tt, f h, w).

Definition get_errno {H K} : M H K Z := fun h w => (inr (errno w), h, w).
Definition set_errno {H K} (e : Z) : M H K unit :=
  fun h w => (inr tt, h, mkWorld e (backend w)).

(** A call of a primitive that may change the whole world (errno included). *)
Definition call {H K A} (p : World K -> A * World K) : M H K A :=
  fun h w => let '(a, w') := p w in (inr a, h, w').

(** A call of a stream member function: it changes the stream only. *)
Definition on_stream {H K A} (p : K -> A * K) : M H K A :=
  fun h w => let '(a, k) := p (backend w) in (inr a, h, mkWorld (errno w) k).

Definition do_stream {H K} (p : K -> K) : M H K unit :=
  fun h w => (inr tt, h, mkWorld (errno w) (p (backend w))).

Definition ask_stream {H K A} (p : K -> A) : M H K A :=
  fun h w => (inr (p (backend w)), h, w).

(** A member function of a base class run on a derived object. *)
Definition super {H B K A} (proj : H -> B) (inj : B -> H -> H) (m : M B K A)
  : M H K A :=
  fun h w => let '(r, b, w') := m (proj h) w in (r, inj b h, w').

Definition when {H K} (c : bool) (m : M H K unit) : M H K unit :=
  if c then m else ret tt.

Definition of_result {H K A} (r : exn + A) : M H K A :=
  match r with inl x => throw x | inr a => ret a end.

Declare Scope cpp_scope.
Delimit Scope cpp_scope with cpp.
Notation "x <- m ;; f" := (bind m (fun x => f))
  (at level 61, m at next level, right associativity) : cpp_scope.
Notation "m ;; f" := (bind m (fun _ => f))
  (at level 61, right associativity) : cpp_scope.
Open Scope cpp_scope.

Definition throwIOException {H K A} (msg : option string) (e : Z) : M H K A :=
  throw (IOException msg e).
Definition throwInternalError {H K A} (msg : string) : M H K A :=
  throw (InternalError msg).
Definition throwEOFException {H K A} : M H K A := throw EOFException.
Definition assert {H K} (c : bool) (text : string) : M H K unit :=
  if c then ret tt else throw (AssertionFailed text).

(** ** What the build and the helper units supply

    file.cpp includes conf.h and file.h and calls helpers of other units
    (util.cpp, the span utilities).  The constant behind the size check,
    the exception [mem_size] raises, the pointer check [raw_bytes] and
    the kind of share-mode support of the platform are parameters. *)

Inductive share_mode : Type :=
| ShareDjgpp        (* (ACC_OS_DOS32) && defined(__DJGPP__) *)
| ShareMint         (* ... && defined(__MINT__) *)
| ShareSopen        (* defined(SH_DENYRW) *)
| ShareUnsupported. (* none of them *)

Class Config : Type := {
  UPX_RSIZE_MAX : Z;
  mem_size_error : exn;
  raw_bytes : option (list byte) -> Z -> exn + list byte;
  share_support : share_mode;
  O_SHMODE : Z
}.

(** Modelled from the spec: [mem_size_valid_bytes] is defined in util.cpp,
    which is not among the sources.  It is the sanity check that "rejects
    magnitudes exceeding an address-space-representable byte count"; its
    argument is an unsigned 64-bit byte count. *)
Definition mem_size_valid_bytes `{Config} (bytes : Z) : bool :=
  to_uint64 bytes <=? UPX_RSIZE_MAX.

(** Modelled from the spec: [mem_size] is defined in util.cpp, which is
    not among the sources.  It is the same sanity check applied to
    [element_size * n] bytes; it yields the byte count or raises. *)
Definition mem_size `{Config} (element_size n : Z) : exn + Z :=
  let es := to_uint64 element_size in
  let n := to_uint64 n in
  if (0 <? es) && mem_size_valid_bytes es && mem_size_valid_bytes n
     && mem_size_valid_bytes (es * n)
  then inr (es * n) else inl mem_size_error.

(** ** The operating system, as the descriptor-backed handles use it

    Each primitive takes the world and returns its C return value and the
    world after the call; it reports an error code by setting [errno]. *)

Class Posix (K : Type) : Type := {
  sys_open : option string -> Z -> Z -> World K -> Z * World K;
  sys_sopen : option string -> Z -> Z -> Z -> World K -> Z * World K;
  (* fstat: the return value and the st_size it stores *)
  sys_fstat : Z -> World K -> (Z * Z) * World K;
  sys_close : Z -> World K -> Z * World K;
  sys_lseek : Z -> Z -> Z -> World K -> Z * World K;
  (* acc_safe_hread: the count and the bytes stored into the buffer *)
  acc_safe_hread : Z -> Z -> World K -> (Z * list byte) * World K;
  acc_safe_hwrite : Z -> list byte -> Z -> World K -> Z * World K;
  acc_isatty : Z -> World K -> bool * World K;
  acc_set_binmode : Z -> Z -> World K -> Z * World K
}.

(** ** FileBase *)

Record stat : Type := mkStat { st_size : Z }.

Record FileBase : Type := mkFileBase {
  _fd : Z;
  _flags : Z;
  _shflags : Z;
  _mode : Z;
  _name : option string;
  _offset : Z;
  _length : Z;
  st : stat
}.

(** The state of a default-constructed handle (and of a closed one, see
    [FileBase_close_noexcept]). *)
Definition FileBase_closed : FileBase :=
  mkFileBase (-1) 0 (-1) 0 None 0 0 (mkStat 0).

Definition set_fd (v : Z) (h : FileBase) : FileBase :=
  mkFileBase v (_flags h) (_shflags h) (_mode h) (_name h) (_offset h) (_length h) (st h).
Definition set_flags (v : Z) (h : FileBase) : FileBase :=
  mkFileBase (_fd h) v (_shflags h) (_mode h) (_name h) (_offset h) (_length h) (st h).
Definition set_shflags (v : Z) (h : FileBase) : FileBase :=
  mkFileBase (_fd h) (_flags h) v (_mode h) (_name h) (_offset h) (_length h) (st h).
Definition set_mode (v : Z) (h : FileBase) : FileBase :=
  mkFileBase (_fd h) (_flags h) (_shflags h) v (_name h) (_offset h) (_length h) (st h).
Definition set_name (v : option string) (h : FileBase) : FileBase :=
  mkFileBase (_fd h) (_flags h) (_shflags h) (_mode h) v (_offset h) (_length h) (st h).
Definition set_offset (v : Z) (h : FileBase) : FileBase :=
  mkFileBase (_fd h) (_flags h) (_shflags h) (_mode h) (_name h) v (_length h) (st h).
Definition set_length (v : Z) (h : FileBase) : FileBase :=
  mkFileBase (_fd h) (_flags h) (_shflags h) (_mode h) (_name h) (_offset h) v (st h).
Definition set_st (v : stat) (h : FileBase) : FileBase :=
  mkFileBase (_fd h) (_flags h) (_shflags h) (_mode h) (_name h) (_offset h) (_length h) v.

(** Modelled from the spec: [isOpen] is an inline member of file.h, which
    is not among the sources.  A handle is open when it holds a
    descriptor; the closed state is the "invalid" descriptor [-1]. *)
Definition isOpen (h : FileBase) : bool := 0 <=? _fd h.

(** The argument of the sanity check of the seeks: [off >= 0 ? off : -off]. *)
Definition magnitude (off : Z) : Z := if 0 <=? off then off else to_off_t (- off).

Section Descriptor.
Context `{CFG : Config} {K : Type} `{OS : Posix K}.

Definition FileBase_do_sopen : M FileBase K bool :=
  h <- this ;;
  fd <- (if _shflags h <? 0
         then call (sys_open (_name h) (_flags h) (_mode h))
         else match share_support with
              | ShareDjgpp =>
                  call (sys_open (_name h) (Z.lor (_flags h) (_shflags h)) (_mode h))
              | ShareMint =>
                  call (sys_open (_name h)
                          (Z.lor (_flags h) (Z.land (_shflags h) O_SHMODE)) (_mode h))
              | ShareSopen =>
                  call (sys_sopen (_name h) (_flags h) (_shflags h) (_mode h))
              | ShareUnsupported => throwInternalError "bad usage of do_sopen()"
              end) ;;
  update (set_fd fd) ;;
  if fd <? 0 then ret false
  else
    update (set_st (mkStat 0)) ;;
    r <- call (sys_fstat fd) ;;
    update (set_st (mkStat (snd r))) ;;
    (if negb (fst r =? 0)
     then e <- get_errno ;; throwIOException (_name h) e
     else ret tt) ;;
    update (set_length (snd r)) ;;
    ret true.

Definition FileBase_close_noexcept : M FileBase K bool :=
  h <- this ;;
  ok <- (if isOpen h && negb (_fd h =? STDIN_FILENO) && negb (_fd h =? STDOUT_FILENO)
            && negb (_fd h =? STDERR_FILENO)
         then r <- call (sys_close (_fd h)) ;; ret (negb (r =? -1))
         else ret true) ;;
  update (set_fd (-1)) ;;
  update (set_flags 0) ;;
  update (set_mode 0) ;;
  update (set_name None) ;;
  update (set_offset 0) ;;
  update (set_length 0) ;;
  ret ok.

Definition FileBase_closex : M FileBase K unit :=
  ok <- FileBase_close_noexcept ;;
  if negb ok then e <- get_errno ;; throwIOException (Some "close failed") e
  else ret tt.

Definition FileBase_seek (off whence : Z) : M FileBase K Z :=
  h <- this ;;
  when (negb (isOpen h)) (throwIOException (Some "bad seek 1") 0) ;;
  when (negb (mem_size_valid_bytes (magnitude off)))
       (throwIOException (Some "bad seek") 0) ;;
  target <-
    (if whence =? SEEK_SET then
       if off <? 0 then throwIOException (Some "bad seek 2") 0
       else ret (to_off_t (off + _offset h), whence)
     else if whence =? SEEK_END then
       if 0 <? off then throwIOException (Some "bad seek 3") 0
       else ret (to_off_t (off + to_off_t (_offset h + _length h)), SEEK_SET)
     else if whence =? SEEK_CUR then ret (off, whence)
     else throwInternalError "bad seek: whence") ;;
  r <- call (sys_lseek (_fd h) (fst target) (snd target)) ;;
  let l := to_off_t r in
  if l <? 0 then e <- get_errno ;; throwIOException (Some "seek error") e
  else ret (to_off_t (l - _offset h)).

Definition FileBase_tell : M FileBase K Z :=
  h <- this ;;
  when (negb (isOpen h)) (throwIOException (Some "bad tell") 0) ;;
  r <- call (sys_lseek (_fd h) 0 SEEK_CUR) ;;
  let l := to_off_t r in
  if l <? 0 then e <- get_errno ;; throwIOException (Some "tell error") e
  else ret (to_off_t (l - _offset h)).

Definition FileBase_set_extent (offset length : Z) : M FileBase K unit :=
  update (set_offset offset) ;;
  update (set_length length).

Definition FileBase_st_size : M FileBase K Z :=
  h <- this ;; ret (_length h).

(** ** InputFile *)

Record InputFile : Type := mkInputFile { in_base : FileBase; _length_orig : Z }.

Definition InputFile_closed : InputFile := mkInputFile FileBase_closed 0.

Definition in_super {A} (m : M FileBase K A) : M InputFile K A :=
  super in_base (fun b h => mkInputFile b (_length_orig h)) m.

Definition InputFile_sopen (name : option string) (flags shflags : Z)
  : M InputFile K unit :=
  in_super FileBase_closex ;;
  in_super (update (set_name name)) ;;
  in_super (update (set_flags flags)) ;;
  in_super (update (set_shflags shflags)) ;;
  in_super (update (set_mode 0)) ;;
  in_super (update (set_offset 0)) ;;
  in_super (update (set_length 0)) ;;
  ok <- in_super FileBase_do_sopen ;;
  (if negb ok then
     e <- get_errno ;;
     if e =? ENOENT then throw (FileNotFoundException name e)
     else if e =? EEXIST then throw (FileAlreadyExistsException name e)
     else throwIOException name e
   else ret tt) ;;
  update (fun h => mkInputFile (in_base h) (_length (in_base h))).

(** [read] returns the count; the bytes it stores through [buf] are
    returned next to it. *)
Definition InputFile_read (buf : option (list byte)) (blen : Z)
  : M InputFile K (Z * list byte) :=
  h <- this ;;
  when (negb (isOpen (in_base h)) || (blen <? 0))
       (throwIOException (Some "bad read") 0) ;;
  n <- of_result (mem_size 1 blen) ;;
  let len := to_int n in
  set_errno 0 ;;
  of_result (raw_bytes buf len) ;;
  r <- call (acc_safe_hread (_fd (in_base h)) len) ;;
  e <- get_errno ;;
  when (negb (e =? 0)) (throwIOException (Some "read error") e) ;;
  ret (to_int (fst r), snd r).

Definition InputFile_readx (buf : option (list byte)) (blen : Z)
  : M InputFile K (Z * list byte) :=
  r <- InputFile_read buf blen ;;
  when (negb (fst r =? blen)) throwEOFException ;;
  ret r.

Definition InputFile_seek (off whence : Z) : M InputFile K Z :=
  pos <- in_super (FileBase_seek off whence) ;;
  h <- this ;;
  when (_length (in_base h) <? pos) (throwIOException (Some "bad seek 4") 0) ;;
  ret pos.

Definition InputFile_st_size_orig : M InputFile K Z :=
  h <- this ;; ret (_length_orig h).

(** ** OutputFile *)

Record OutputFile : Type := mkOutputFile { out_base : FileBase; bytes_written : Z }.

Definition OutputFile_closed : OutputFile := mkOutputFile FileBase_closed 0.

Definition out_super {A} (m : M FileBase K A) : M OutputFile K A :=
  super out_base (fun b h => mkOutputFile b (bytes_written h)) m.

Definition set_bytes_written (v : Z) (h : OutputFile) : OutputFile :=
  mkOutputFile (out_base h) v.

Variable opt : options.

Definition OutputFile_sopen (name : option string) (flags shflags mode : Z)
  : M OutputFile K unit :=
  out_super FileBase_closex ;;
  out_super (update (set_name name)) ;;
  out_super (update (set_flags flags)) ;;
  out_super (update (set_shflags shflags)) ;;
  out_super (update (set_mode mode)) ;;
  out_super (update (set_offset 0)) ;;
  out_super (update (set_length 0)) ;;
  ok <- out_super FileBase_do_sopen ;;
  if negb ok then
    e <- get_errno ;;
    (* the ENOENT case is disabled in the source (#if 0) *)
    if e =? EEXIST then throw (FileAlreadyExistsException name e)
    else throwIOException name e
  else ret tt.

Definition OutputFile_openStdout (flags : Z) (force : bool) : M OutputFile K bool :=
  out_super FileBase_closex ;;
  let fd := STDOUT_FILENO in
  tty <- (if force then ret false else call (acc_isatty fd)) ;;
  if negb force && tty then ret false
  else
    out_super (update (set_name (Some "<stdout>"))) ;;
    out_super (update (set_flags flags)) ;;
    out_super (update (set_shflags (-1))) ;;
    out_super (update (set_mode 0)) ;;
    out_super (update (set_offset 0)) ;;
    out_super (update (set_length 0)) ;;
    r <- (if negb (flags =? 0) then call (acc_set_binmode fd 1) else ret 0) ;;
    when (negb (flags =? 0) && (r =? -1))
         (e <- get_errno ;; throwIOException (Some "<stdout>") e) ;;
    out_super (update (set_fd fd)) ;;
    ret true.

Definition OutputFile_write (buf : option (list byte)) (blen : Z)
  : M OutputFile K unit :=
  h <- this ;;
  when (negb (isOpen (out_base h)) || (blen <? 0))
       (throwIOException (Some "bad write") 0) ;;
  (* allow nullptr if blen == 0 *)
  if blen =? 0 then ret tt
  else
    n <- of_result (mem_size 1 blen) ;;
    let len := to_int n in
    set_errno 0 ;;
    data <- of_result (raw_bytes buf len) ;;
    l <- call (acc_safe_hwrite (_fd (out_base h)) data len) ;;
    when (negb (l =? len))
         (e <- get_errno ;; throwIOException (Some "write error") e) ;;
    update (fun h => set_bytes_written (to_off_t (bytes_written h + len)) h).

Definition OutputFile_st_size : M OutputFile K Z :=
  h <- this ;;
  if to_stdout opt then ret (bytes_written h)
  else
    r <- call (sys_fstat (_fd (out_base h))) ;;
    when (negb (fst r =? 0))
         (e <- get_errno ;; throwIOException (_name (out_base h)) e) ;;
    ret (snd r).

Definition OutputFile_rewrite (buf : option (list byte)) (len : Z)
  : M OutputFile K unit :=
  assert (negb (to_stdout opt)) "!opt->to_stdout" ;;
  OutputFile_write buf len ;;
  update (fun h => set_bytes_written (to_off_t (bytes_written h - len)) h).

Definition OutputFile_seek (off whence : Z) : M OutputFile K Z :=
  when (negb (mem_size_valid_bytes (magnitude off)))
       (throwIOException (Some "bad seek") 0) ;;
  assert (negb (to_stdout opt)) "!opt->to_stdout" ;;
  (if whence =? SEEK_SET then
     update (fun h => if bytes_written h <? off then set_bytes_written off h else h) ;;
     update (fun h => mkOutputFile (set_length (bytes_written h) (out_base h))
                                   (bytes_written h))
   else if whence =? SEEK_END then
     update (fun h => mkOutputFile (set_length (bytes_written h) (out_base h))
                                   (bytes_written h))
   else ret tt) ;;
  out_super (FileBase_seek off whence).

Definition OutputFile_set_extent (offset length : Z) : M OutputFile K unit :=
  out_super (FileBase_set_extent offset length) ;;
  update (set_bytes_written 0) ;;
  if (0 =? offset) && (4294967295 =? length) then
    out_super (update (set_st (mkStat 0))) ;;
    h <- this ;;
    r <- call (sys_fstat (_fd (out_base h))) ;;
    out_super (update (set_st (mkStat (snd r)))) ;;
    when (negb (fst r =? 0))
         (e <- get_errno ;; throwIOException (_name (out_base h)) e) ;;
    out_super (update (set_length (to_off_t (snd r - offset))))
  else ret tt.

Definition OutputFile_unset_extent : M OutputFile K Z :=
  h <- this ;;
  r <- call (sys_lseek (_fd (out_base h)) 0 SEEK_END) ;;
  let l := to_off_t r in
  when (l <? 0) (e <- get_errno ;; throwIOException (Some "lseek error") e) ;;
  out_super (update (set_offset 0)) ;;
  out_super (update (set_length l)) ;;
  update (set_bytes_written l) ;;
  ret l.

End Descriptor.

(** ** C++ streams, as the stream-backed handles use them

    The member functions of [std::istream] and [std::ostream] that
    file.cpp calls.  [operator!] and the conversion to [bool] are
    [fail()] and its negation. *)

Inductive seekdir : Type := ios_beg | ios_cur | ios_end.

Class IStream (S : Type) : Type := {
  i_clear : S -> S;
  i_tellg : S -> Z * S;
  i_seekg : Z -> seekdir -> S -> S;
  i_seekg_pos : Z -> S -> S;
  (* read: the bytes stored into the buffer and the stream afterwards *)
  i_read : Z -> S -> list byte * S;
  i_gcount : S -> Z;
  i_eof : S -> bool;
  i_fail : S -> bool;
  i_bad : S -> bool
}.

Class OStream (S : Type) : Type := {
  o_clear : S -> S;
  o_tellp : S -> Z * S;
  o_seekp : Z -> seekdir -> S -> S;
  o_seekp_pos : Z -> S -> S;
  o_write : list byte -> Z -> S -> S;
  o_good : S -> bool;
  o_fail : S -> bool;
  o_bad : S -> bool
}.

(** InputStream and OutputStream are declared in file.h, which is not
    among the sources.  Their member functions use the members of
    InputFile ([_length], [_length_orig]) and of OutputFile ([_offset],
    [_length], [st], [bytes_written], [isOpen]): a stream-backed handle
    carries the same fields, and the stream it refers to is the backend
    of its world. *)
Definition InputStream : Type := InputFile.
Definition OutputStream : Type := OutputFile.

Section InputStreamMethods.
Context `{CFG : Config} {S : Type} `{IS : IStream S}.

Definition InputStream_ctor : M InputStream S unit :=
  do_stream i_clear ;;
  current <- on_stream i_tellg ;;
  when (current =? -1)
       (set_errno EIO ;; throwIOException (Some "tellg failed") EIO) ;;
  do_stream (i_seekg 0 ios_end) ;;
  e <- on_stream i_tellg ;;
  when (e =? -1)
       (set_errno EIO ;; throwIOException (Some "tellg failed at end") EIO) ;;
  update (fun h => mkInputFile (set_length (to_off_t e) (in_base h)) (to_off_t e)) ;;
  do_stream (i_seekg_pos current).

Definition InputStream_read (buf : option (list byte)) (blen : Z)
  : M InputStream S (Z * list byte) :=
  n <- of_result (mem_size 1 blen) ;;
  let len := to_int n in
  set_errno 0 ;;
  of_result (raw_bytes buf len) ;;
  data <- on_stream (i_read len) ;;
  l <- ask_stream i_gcount ;;
  (if l =? 0 then
     eof <- ask_stream i_eof ;;
     fail <- ask_stream i_fail ;;
     bad <- ask_stream i_bad ;;
     if eof then set_errno 0
     else if fail then set_errno EINVAL
     else if bad then set_errno EIO
     else ret tt
   else ret tt) ;;
  e <- get_errno ;;
  when (negb (e =? 0)) (throwIOException (Some "read error") e) ;;
  ret (to_int l, data).

Definition InputStream_readx (buf : option (list byte)) (blen : Z)
  : M InputStream S (Z * list byte) :=
  r <- InputStream_read buf blen ;;
  when (negb (fst r =? blen)) throwEOFException ;;
  ret r.

Definition InputStream_seek (off whence : Z) : M InputStream S Z :=
  dir <- (if whence =? SEEK_SET then ret ios_beg
          else if whence =? SEEK_CUR then ret ios_cur
          else if whence =? SEEK_END then ret ios_end
          else throwIOException (Some "bad seek whence") 0) ;;
  do_stream i_clear ;;
  do_stream (i_seekg off dir) ;;
  failed <- ask_stream i_fail ;;
  when failed (set_errno EIO ;; throwIOException (Some "seek failed") 0) ;;
  pos <- on_stream i_tellg ;;
  when (pos <? 0) (set_errno EIO ;; throwIOException (Some "tellg failed") EIO) ;;
  h <- this ;;
  when ((0 <=? _length (in_base h)) && (_length (in_base h) <? pos))
       (set_errno EINVAL ;;
        throwIOException (Some "seek beyond end of stream") EINVAL) ;;
  ret (to_off_t pos).

Definition InputStream_st_size : M InputStream S Z :=
  do_stream i_clear ;;
  current <- on_stream i_tellg ;;
  when (current =? -1)
       (set_errno EIO ;; throwIOException (Some "tellg failed") EIO) ;;
  do_stream (i_seekg 0 ios_end) ;;
  e <- on_stream i_tellg ;;
  when (e =? -1)
       (set_errno EIO ;; throwIOException (Some "tellg failed at end") EIO) ;;
  do_stream (i_seekg_pos current) ;;
  ret (to_off_t e).

End InputStreamMethods.

Section OutputStreamMethods.
Context `{CFG : Config} {S : Type} `{OS : OStream S}.

Definition set_out_length (v : Z) (h : OutputStream) : OutputStream :=
  mkOutputFile (set_length v (out_base h)) (bytes_written h).

(** The errno that file.cpp derives from the state of a failed stream. *)
Definition stream_errno (s : S) : Z :=
  if o_bad s then EIO else if o_fail s then EINVAL else EIO.

Definition OutputStream_ctor : M OutputStream S unit :=
  do_stream o_clear ;;
  curr <- on_stream o_tellp ;;
  (if negb (curr =? -1) then
     do_stream (o_seekp 0 ios_end) ;;
     failed <- ask_stream o_fail ;;
     if negb failed then
       e <- on_stream o_tellp ;;
       when (negb (e =? -1)) (update (set_out_length (to_off_t e))) ;;
       do_stream (o_seekp_pos curr)
     else ret tt
   else ret tt) ;;
  update (fun h => set_bytes_written (_length (out_base h)) h).

Definition OutputStream_write (buf : option (list byte)) (blen : Z)
  : M OutputStream S unit :=
  h <- this ;;
  good <- ask_stream o_good ;;
  when (negb (isOpen (out_base h)) && negb good)
       (throwIOException (Some "bad write") 0) ;;
  if blen =? 0 then ret tt
  else
    n <- of_result (mem_size 1 blen) ;;
    let len := to_int n in
    set_errno 0 ;;
    data <- of_result (raw_bytes buf len) ;;
    do_stream (o_write data len) ;;
    failed <- ask_stream o_fail ;;
    when failed
         (e <- ask_stream stream_errno ;;
          set_errno e ;; throwIOException (Some "write error") e) ;;
    update (fun h => set_bytes_written (to_off_t (bytes_written h + len)) h) ;;
    update (fun h => if _length (out_base h) <? bytes_written h
                     then set_out_length (bytes_written h) h else h).

Definition OutputStream_st_size : M OutputStream S Z :=
  h <- this ;;
  saved <- on_stream o_tellp ;;
  if saved =? -1 then ret (bytes_written h)
  else
    do_stream (o_seekp 0 ios_end) ;;
    e <- on_stream o_tellp ;;
    if e =? -1 then do_stream (o_seekp_pos saved) ;; ret (bytes_written h)
    else do_stream (o_seekp_pos saved) ;; ret (to_off_t e).

Definition OutputStream_rewrite (buf : option (list byte)) (len : Z)
  : M OutputStream S unit :=
  OutputStream_write buf len ;;
  update (fun h => set_bytes_written (to_off_t (bytes_written h - len)) h).

Definition OutputStream_seek (off whence : Z) : M OutputStream S Z :=
  when (negb (mem_size_valid_bytes (magnitude off)))
       (throwIOException (Some "bad seek") 0) ;;
  dir <- (if whence =? SEEK_SET then ret ios_beg
          else if whence =? SEEK_CUR then ret ios_cur
          else if whence =? SEEK_END then ret ios_end
          else throwIOException (Some "invalid whence") EINVAL) ;;
  do_stream o_clear ;;
  do_stream (o_seekp off dir) ;;
  failed <- ask_stream o_fail ;;
  when failed
       (e <- ask_stream stream_errno ;;
        set_errno e ;; throwIOException (Some "seek failed") e) ;;
  p <- on_stream o_tellp ;;
  when (p =? -1) (set_errno EIO ;; throwIOException (Some "tellp failed") EIO) ;;
  let pos := to_off_t p in
  (if whence =? SEEK_SET then
     update (fun h => if bytes_written h <? off then set_bytes_written off h else h) ;;
     update (fun h => set_out_length (bytes_written h) h)
   else if whence =? SEEK_END then
     update (fun h => set_out_length (bytes_written h) h)
   else ret tt) ;;
  ret pos.

(** [super::set_extent] stores the two fields (FileBase::set_extent). *)
Definition OutputStream_set_extent (offset length : Z) : M OutputStream S unit :=
  update (fun h => mkOutputFile (set_length length (set_offset offset (out_base h)))
                                (bytes_written h)) ;;
  update (set_bytes_written 0) ;;
  if (0 =? offset) && (4294967295 =? length) then
    sz <- OutputStream_st_size ;;
    update (fun h => mkOutputFile (set_st (mkStat sz) (out_base h)) (bytes_written h)) ;;
    update (set_out_length (to_off_t (sz - offset)))
  else ret tt.

Definition OutputStream_unset_extent : M OutputStream S Z :=
  do_stream o_clear ;;
  do_stream (o_seekp 0 ios_end) ;;
  failed <- ask_stream o_fail ;;
  when failed
       (e <- ask_stream stream_errno ;;
        set_errno e ;; throwIOException (Some "seek failed") e) ;;
  e <- on_stream o_tellp ;;
  when (e =? -1) (set_errno EIO ;; throwIOException (Some "tellp failed") EIO) ;;
  update (fun h => mkOutputFile (set_length (to_off_t e) (set_offset 0 (out_base h)))
                                (to_off_t e)) ;;
  ret (to_off_t e).

End OutputStreamMethods.

(** ** The destructor, dupFd and dump

    The remaining member functions of file.cpp that the handles above
    are used through. *)

Definition ENOSYS : Z := 38.

(** The primitives and constants these functions need beside [Posix]:
    [dup], whether the build has it ([HAVE_DUP]), and the open flags of
    <fcntl.h> that [dump] combines. *)
Class PosixMore (K : Type) : Type := {
  sys_dup : Z -> World K -> Z * World K;
  have_dup : bool;
  O_CREAT : Z;
  O_TRUNC : Z;
  O_WRONLY : Z;
  O_BINARY : Z
}.

Section DescriptorMore.
Context `{CFG : Config} {K : Type} `{OS : Posix K} `{OSM : PosixMore K}.

(** ~FileBase: [uncaught] is the value of [std::uncaught_exceptions()]. *)
Definition FileBase_dtor (uncaught : Z) : M FileBase K unit :=
  if uncaught =? 0 then FileBase_closex
  else FileBase_close_noexcept ;; ret tt.

(** [getFd()] is the descriptor the handle holds. *)
Definition InputFile_dupFd : M InputFile K Z :=
  h <- this ;;
  when (negb (isOpen (in_base h))) (throwIOException (Some "bad dup") 0) ;;
  r <- (if have_dup then call (sys_dup (_fd (in_base h)))
        else set_errno ENOSYS ;; ret (-1)) ;;
  if r <? 0 then e <- get_errno ;; throwIOException (Some "dup") e
  else ret r.

(** Modelled from the spec: [open(name, flags, mode)] is an inline member
    of file.h, which is not among the sources; it is [sopen] without a
    share mode (the share flag -1, "not applicable"). *)
Definition OutputFile_open (name : option string) (flags mode : Z)
  : M OutputFile K unit :=
  OutputFile_sopen name flags (-1) mode.

(** The statements of OutputFile::dump on its local handle [f]. *)
Definition OutputFile_dump_body (name : option string) (buf : option (list byte))
           (len flags : Z) : M OutputFile K unit :=
  let flags := if flags <? 0 then Z.lor O_CREAT O_TRUNC else flags in
  let flags := Z.lor flags (Z.lor O_WRONLY O_BINARY) in
  OutputFile_open name flags 384 ;;
  data <- of_result (raw_bytes buf len) ;;
  OutputFile_write (Some data) len ;;
  out_super FileBase_closex.

(** OutputFile::dump: the body runs on a fresh handle, whose destructor
    runs when the scope is left, normally or by the exception of the
    body ([uncaught] is [std::uncaught_exceptions()] at the call). *)
Definition OutputFile_dump (uncaught : Z) (name : option string)
           (buf : option (list byte)) (len flags : Z) (w : World K)
  : (exn + unit) * World K :=
  match OutputFile_dump_body name buf len flags OutputFile_closed w with
  | (inr _, f, w1) =>
      let '(r, _, w2) := out_super (FileBase_dtor uncaught) f w1 in (r, w2)
  | (inl x, f, w1) =>
      let '(r, _, w2) := out_super (FileBase_dtor (uncaught + 1)) f w1 in
      (match r with inl y => inl y | inr _ => inl x end, w2)
  end.

End DescriptorMore.

(** ** The static helpers on file names

    chmod, rename, unlink_noexcept and unlink take no handle: they run
    on the world alone.  The primitives take the name as the C code
    passes it (a null pointer is [None]); [have_chmod] is [HAVE_CHMOD]. *)
Class PosixNames (K : Type) : Type := {
  sys_chmod : option string -> Z -> World K -> Z * World K;
  sys_rename : option string -> option string -> World K -> Z * World K;
  sys_unlink : option string -> World K -> Z * World K;
  have_chmod : bool
}.

(** [name != nullptr && name[0] != 0] *)
Definition name_given (name : option string) : bool :=
  match name with
  | Some (String _ _) => true
  | _ => false
  end.

Section Names.
Context {K : Type} `{OSN : PosixNames K}.

Definition FileBase_chmod (name : option string) (mode : Z) : M unit K unit :=
  assert (name_given name) "name != nullptr && name[0] != 0" ;;
  if have_chmod then
    r <- call (sys_chmod name mode) ;;
    when (negb (r =? 0)) (e <- get_errno ;; throwIOException name e)
  else ret tt.

Definition FileBase_rename (old_ new_ : option string) : M unit K unit :=
  r <- call (sys_rename old_ new_) ;;
  when (negb (r =? 0)) (e <- get_errno ;; throwIOException (Some "rename error") e).

(** A failed [assert_noexcept] ends the program; it is the same
    [AssertionFailed] outcome as a failed [assert].  0666 is 438. *)
Definition FileBase_unlink_noexcept (name : option string) : M unit K bool :=
  assert (name_given name) "name != nullptr && name[0] != 0" ;;
  r <- call (sys_unlink name) ;;
  let success := r =? 0 in
  if have_chmod && negb success then
    c <- call (sys_chmod name 438) ;;
    if c =? 0 then r2 <- call (sys_unlink name) ;; ret (r2 =? 0)
    else ret false
  else ret success.

Definition FileBase_unlink (name : option string) : M unit K unit :=
  ok <- FileBase_unlink_noexcept name ;;
  when (negb ok) (e <- get_errno ;; throwIOException name e).

End Names.

(** * Reference backends

    Two executable backends on which the handles can be run: a RAM disk
    that follows POSIX for the primitives above (one directory of
    regular files with owner permissions), and an in-memory stream
    that follows the C++ standard for the stream members above (seekable
    within [0, size]).  The general theorems below hold for every
    backend; the runs on these two backends are concrete instances. *)

Module Ram.

Definition EBADF : Z := 9.
Definition EACCES : Z := 13.
Definition EFAULT : Z := 14.
Definition ENOSPC : Z := 28.

Definition O_RDONLY : Z := 0.
Definition O_WRONLY : Z := 1.
Definition O_RDWR : Z := 2.
Definition O_ACCMODE : Z := 3.
Definition O_CREAT : Z := 64.
Definition O_EXCL : Z := 128.
Definition O_TRUNC : Z := 512.

(** The owner's read and write bits of a file mode (0400, 0200); the
    process owns every file of the disk and is not the superuser. *)
Definition S_IRUSR : Z := 256.
Definition S_IWUSR : Z := 128.

Definition has (flag flags : Z) : bool := Z.land flags flag =? flag.

(** An open file description: the file it refers to and its position. *)
Record ofd : Type := mkOfd { ofd_file : string; ofd_pos : Z }.

(** The disk is one writable directory of regular files, without
    sub-directories.  Each file has its permission bits; [umask] is the
    file mode creation mask of the process. *)
Record disk : Type := mkDisk {
  files : list (string * list byte);
  fdtab : list (Z * ofd);
  room : Z;                     (* bytes the device still accepts *)
  perms : list (string * Z);
  umask : Z
}.

Fixpoint lookup {A} (eqb : A -> A -> bool) {B} (k : A) (l : list (A * B)) : option B :=
  match l with
  | [] => None
  | (k', v) :: r => if eqb k k' then Some v else lookup eqb k r
  end.

Fixpoint store {A} (eqb : A -> A -> bool) {B} (k : A) (v : B) (l : list (A * B))
  : list (A * B) :=
  match l with
  | [] => [(k, v)]
  | (k', v') :: r => if eqb k k' then (k, v) :: r else (k', v') :: store eqb k v r
  end.

Fixpoint remove {A} (eqb : A -> A -> bool) {B} (k : A) (l : list (A * B))
  : list (A * B) :=
  match l with
  | [] => []
  | (k', v') :: r => if eqb k k' then r else (k', v') :: remove eqb k r
  end.

Definition fresh_fd (t : list (Z * ofd)) : Z :=
  1 + fold_right Z.max 2 (map fst t).

Definition fail {A} (r : A) (e : Z) (d : disk) : A * World disk := (r, mkWorld e d).

Fixpoint has_slash (n : string) : bool :=
  match n with
  | EmptyString => false
  | String c r => String.eqb (String c EmptyString) "/" || has_slash r
  end.

(** The names of files in the directory: not empty, neither "." nor
    "..", and without a slash.  The disk holds nothing under any other
    path: [open] fails for it with ENOENT, and what is stated about the
    outcome of an open is stated for file names. *)
Definition plain (n : string) : bool :=
  negb (String.eqb n "") && negb (String.eqb n ".") && negb (String.eqb n "..")
  && negb (has_slash n).

(** The permission bits of a file; a file without an entry grants
    nothing. *)
Definition perm_of (d : disk) (n : string) : Z :=
  match lookup String.eqb n (perms d) with Some p => p | None => 0 end.

(** The permission an open of an existing file asks for: read unless the
    access mode is O_WRONLY, write unless it is O_RDONLY, and write for
    O_TRUNC. *)
Definition wanted (flags : Z) : Z :=
  let acc := Z.land flags O_ACCMODE in
  Z.lor (if acc =? O_WRONLY then 0 else S_IRUSR)
        (if (acc =? O_RDONLY) && negb (has O_TRUNC flags) then 0 else S_IWUSR).

(** The permission bits a new file gets from the mode of the open. *)
Definition created_perm (mode : Z) (d : disk) : Z :=
  Z.ldiff (Z.land mode 4095) (umask d).

Definition open (name : option string) (flags mode : Z) (w : World disk)
  : Z * World disk :=
  let d := backend w in
  match name with
  | None => fail (-1) EFAULT d
  | Some n =>
      if negb (plain n) then fail (-1) ENOENT d
      else
      match lookup String.eqb n (files d) with
      | Some data =>
          if has O_CREAT flags && has O_EXCL flags then fail (-1) EEXIST d
          else if negb (has (wanted flags) (perm_of d n)) then fail (-1) EACCES d
          else
            let fd := fresh_fd (fdtab d) in
            let fs := if has O_TRUNC flags then store String.eqb n [] (files d)
                      else files d in
            (fd, mkWorld (errno w)
                   (mkDisk fs ((fd, mkOfd n 0) :: fdtab d) (room d) (perms d)
                           (umask d)))
      | None =>
          if has O_CREAT flags then
            let fd := fresh_fd (fdtab d) in
            (fd, mkWorld (errno w)
                   (mkDisk (store String.eqb n [] (files d))
                           ((fd, mkOfd n 0) :: fdtab d) (room d)
                           (store String.eqb n (created_perm mode d) (perms d))
                           (umask d)))
          else fail (-1) ENOENT d
      end
  end.

Definition contents (d : disk) (o : ofd) : list byte :=
  match lookup String.eqb (ofd_file o) (files d) with Some l => l | None => [] end.

Definition fstat (fd : Z) (w : World disk) : (Z * Z) * World disk :=
  let d := backend w in
  match lookup Z.eqb fd (fdtab d) with
  | Some o => ((0, Z.of_nat (List.length (contents d o))), w)
  | None => fail (-1, 0) EBADF d
  end.

Definition close (fd : Z) (w : World disk) : Z * World disk :=
  let d := backend w in
  match lookup Z.eqb fd (fdtab d) with
  | Some _ =>
      (0, mkWorld (errno w)
            (mkDisk (files d) (remove Z.eqb fd (fdtab d)) (room d) (perms d)
                    (umask d)))
  | None => fail (-1) EBADF d
  end.

Definition lseek (fd off whence : Z) (w : World disk) : Z * World disk :=
  let d := backend w in
  match lookup Z.eqb fd (fdtab d) with
  | None => fail (-1) EBADF d
  | Some o =>
      let size := Z.of_nat (List.length (contents d o)) in
      let base := if whence =? SEEK_SET then Some 0
                  else if whence =? SEEK_CUR then Some (ofd_pos o)
                  else if whence =? SEEK_END then Some size
                  else None in
      match base with
      | None => fail (-1) EINVAL d
      | Some b =>
          if b + off <? 0 then fail (-1) EINVAL d
          else (b + off,
                mkWorld (errno w)
                  (mkDisk (files d)
                          (store Z.eqb fd (mkOfd (ofd_file o) (b + off)) (fdtab d))
                          (room d) (perms d) (umask d)))
      end
  end.

Definition hread (fd len : Z) (w : World disk) : (Z * list byte) * World disk :=
  let d := backend w in
  match lookup Z.eqb fd (fdtab d) with
  | None => fail (0, []) EBADF d
  | Some o =>
      let got := firstn (Z.to_nat len) (skipn (Z.to_nat (ofd_pos o)) (contents d o)) in
      let n := Z.of_nat (List.length got) in
      ((n, got),
       mkWorld (errno w)
         (mkDisk (files d)
                 (store Z.eqb fd (mkOfd (ofd_file o) (ofd_pos o + n)) (fdtab d))
                 (room d) (perms d) (umask d)))
  end.

(** Overwrite [old] from position [pos] on with [new], zero-filling a gap. *)
Definition overwrite (old : list byte) (pos : nat) (new : list byte) : list byte :=
  firstn pos old ++ repeat x00 (pos - List.length old)%nat ++ new
    ++ skipn (pos + List.length new)%nat old.

Definition hwrite (fd : Z) (data : list byte) (len : Z) (w : World disk)
  : Z * World disk :=
  let d := backend w in
  match lookup Z.eqb fd (fdtab d) with
  | None => fail 0 EBADF d
  | Some o =>
      let n := Z.max 0 (Z.min len (room d)) in
      let new := firstn (Z.to_nat n) data in
      let k := Z.of_nat (List.length new) in
      let fs := store String.eqb (ofd_file o)
                  (overwrite (contents d o) (Z.to_nat (ofd_pos o)) new) (files d) in
      (k, mkWorld (if k <? len then ENOSPC else errno w)
            (mkDisk fs (store Z.eqb fd (mkOfd (ofd_file o) (ofd_pos o + k)) (fdtab d))
                    (room d - k) (perms d) (umask d)))
  end.

#[global] Instance posix : Posix disk := {
  sys_open := open;
  sys_sopen := fun name flags _ mode => open name flags mode;
  sys_fstat := fstat;
  sys_close := close;
  sys_lseek := lseek;
  acc_safe_hread := hread;
  acc_safe_hwrite := hwrite;
  acc_isatty := fun _ w => (false, w);
  acc_set_binmode := fun _ _ w => (0, w)
}.

(** A configuration with the given size limit; [raw_bytes] accepts a
    non-null pointer to at least [len] bytes. *)
Definition config (rsize_max : Z) : Config := {|
  UPX_RSIZE_MAX := rsize_max;
  mem_size_error := OtherException "mem_size";
  raw_bytes := fun buf len =>
    match buf with
    | None => inl (OtherException "raw_bytes: null pointer")
    | Some l => if len <=? Z.of_nat (List.length l) then inr (firstn (Z.to_nat len) l)
                else inl (OtherException "raw_bytes: out of range")
    end;
  share_support := ShareUnsupported;
  O_SHMODE := 0
|}.

End Ram.

Module Mem.

(** A stream over [size] bytes, byte [i] being [at_ i].  One position
    serves the get and the put area; [cap] bounds what can be stored. *)
Record stream : Type := mkStream {
  size : Z;
  at_ : Z -> byte;
  pos : Z;
  eofbit : bool;
  failbit : bool;
  badbit : bool;
  gcount : Z;
  cap : Z
}.

Definition good (s : stream) : bool :=
  negb (eofbit s) && negb (failbit s) && negb (badbit s).
Definition fail (s : stream) : bool := failbit s || badbit s.

Definition clear (s : stream) : stream :=
  mkStream (size s) (at_ s) (pos s) false false false (gcount s) (cap s).
Definition set_fail (s : stream) : stream :=
  mkStream (size s) (at_ s) (pos s) (eofbit s) true (badbit s) (gcount s) (cap s).
Definition set_pos (p : Z) (s : stream) : stream :=
  mkStream (size s) (at_ s) p (eofbit s) (failbit s) (badbit s) (gcount s) (cap s).
Definition clear_eof (s : stream) : stream :=
  mkStream (size s) (at_ s) (pos s) false (failbit s) (badbit s) (gcount s) (cap s).

Definition base (dir : seekdir) (s : stream) : Z :=
  match dir with ios_beg => 0 | ios_cur => pos s | ios_end => size s end.

(** pubseekoff of the buffer: positions outside [0, size] are refused. *)
Definition seek_to (p : Z) (s : stream) : stream :=
  if (0 <=? p) && (p <=? size s) then set_pos p s else set_fail s.

(** tellg: an input sentry first; a stream that is not good fails. *)
Definition tellg (s : stream) : Z * stream :=
  if good s then (pos s, s) else (-1, set_fail s).

(** seekg clears eofbit, then seeks unless the stream has failed. *)
Definition seekg (off : Z) (dir : seekdir) (s : stream) : stream :=
  let s := clear_eof s in
  if fail s then set_fail s else seek_to (base dir s + off) s.

Definition seekg_pos (p : Z) (s : stream) : stream :=
  let s := clear_eof s in
  if fail s then set_fail s else seek_to p s.

Definition read (len : Z) (s : stream) : list byte * stream :=
  if good s then
    let k := Z.max 0 (Z.min len (size s - pos s)) in
    let data := map (fun i => at_ s (pos s + Z.of_nat i)) (seq 0 (Z.to_nat k)) in
    (data, mkStream (size s) (at_ s) (pos s + k)
                    (k <? len) (k <? len) false k (cap s))
  else ([], mkStream (size s) (at_ s) (pos s) (eofbit s) true (badbit s) 0 (cap s)).

Definition tellp (s : stream) : Z * stream :=
  if fail s then (-1, s) else (pos s, s).

Definition seekp (off : Z) (dir : seekdir) (s : stream) : stream :=
  if fail s then s else seek_to (base dir s + off) s.

Definition seekp_pos (p : Z) (s : stream) : stream :=
  if fail s then s else seek_to p s.

(** write stores what fits below [cap]; storing less sets badbit. *)
Definition write (data : list byte) (len : Z) (s : stream) : stream :=
  if good s then
    let k := Z.max 0 (Z.min len (cap s - pos s)) in
    mkStream (Z.max (size s) (pos s + k))
             (fun i => if (pos s <=? i) && (i <? pos s + k)
                       then nth (Z.to_nat (i - pos s)) data x00 else at_ s i)
             (pos s + k) false false (k <? len) (gcount s) (cap s)
  else set_fail s.

#[global] Instance istream : IStream stream := {
  i_clear := clear;
  i_tellg := tellg;
  i_seekg := seekg;
  i_seekg_pos := seekg_pos;
  i_read := read;
  i_gcount := gcount;
  i_eof := eofbit;
  i_fail := fail;
  i_bad := badbit
}.

#[global] Instance ostream : OStream stream := {
  o_clear := clear;
  o_tellp := tellp;
  o_seekp := seekp;
  o_seekp_pos := seekp_pos;
  o_write := write;
  o_good := good;
  o_fail := fail;
  o_bad := badbit
}.

(** A fresh stream over [n] zero bytes, positioned at its start. *)
Definition zeros (n : Z) : stream :=
  mkStream n (fun _ => x00) 0 false false false 0 (2 ^ 62).

End Mem.

(** The RAM disk as a build without [dup], with the open flags of Linux
    ([O_BINARY] is 0 there). *)
#[global] Instance ram_more : PosixMore Ram.disk := {
  sys_dup := fun _ w => (-1, w);
  have_dup := false;
  O_CREAT := Ram.O_CREAT;
  O_TRUNC := Ram.O_TRUNC;
  O_WRONLY := Ram.O_WRONLY;
  O_BINARY := 0
}.

(** A directory on which a file that is not writable cannot be removed
    (DOS and Windows behave so): each name has a writable flag, which
    chmod sets from the owner's write bit of the mode. *)
Module Dos.

Definition EACCES : Z := 13.
Definition S_IWUSR : Z := 128.

Definition dir : Type := list (string * bool).

Definition erase (n : string) (d : dir) : dir :=
  filter (fun p => negb (String.eqb n (fst p))) d.

Definition unlink (name : option string) (w : World dir) : Z * World dir :=
  match name with
  | None => (-1, mkWorld Ram.EFAULT (backend w))
  | Some n =>
      match Ram.lookup String.eqb n (backend w) with
      | None => (-1, mkWorld ENOENT (backend w))
      | Some false => (-1, mkWorld EACCES (backend w))
      | Some true => (0, mkWorld (errno w) (erase n (backend w)))
      end
  end.

Definition chmod (name : option string) (mode : Z) (w : World dir) : Z * World dir :=
  match name with
  | None => (-1, mkWorld Ram.EFAULT (backend w))
  | Some n =>
      match Ram.lookup String.eqb n (backend w) with
      | None => (-1, mkWorld ENOENT (backend w))
      | Some _ =>
          (0, mkWorld (errno w)
                (Ram.store String.eqb n (Ram.has S_IWUSR mode) (backend w)))
      end
  end.

Definition rename (old_ new_ : option string) (w : World dir) : Z * World dir :=
  match old_, new_ with
  | Some o, Some n =>
      match Ram.lookup String.eqb o (backend w) with
      | None => (-1, mkWorld ENOENT (backend w))
      | Some a =>
          (0, mkWorld (errno w) (Ram.store String.eqb n a (erase o (backend w))))
      end
  | _, _ => (-1, mkWorld Ram.EFAULT (backend w))
  end.

(** The build with ([true]) or without ([false]) [HAVE_CHMOD]. *)
Definition names (with_chmod : bool) : PosixNames dir := {|
  sys_chmod := chmod;
  sys_rename := rename;
  sys_unlink := unlink;
  have_chmod := with_chmod
|}.

End Dos.

(** * Vocabulary of the statements *)

(** The window the seeks translate into must not overflow [upx_off_t]. *)
Definition no_overflow `{Config} (offset length : Z) : Prop :=
  0 <= offset /\ 0 <= length /\ 0 <= UPX_RSIZE_MAX
  /\ offset + length + UPX_RSIZE_MAX < 2 ^ 63.

(** What a seek asks of lseek: the position and the origin. *)
Definition translated (offset length off whence : Z) : option (Z * Z) :=
  if whence =? SEEK_SET then Some (offset + off, SEEK_SET)
  else if whence =? SEEK_END then Some (offset + length + off, SEEK_SET)
  else if whence =? SEEK_CUR then Some (off, SEEK_CUR)
  else None.

Section RealSeek.
Context {K : Type} `{OS : Posix K}.

(** The real seek: lseek, its failure as an IOError, its result made
    relative to the window. *)
Definition real_seek (h : FileBase) (target whence : Z) (w : World K)
  : (exn + Z) * FileBase * World K :=
  let '(raw, w') := sys_lseek (_fd h) target whence w in
  if to_off_t raw <? 0
  then (inl (IOException (Some "seek error") (errno w')), h, w')
  else (inr (to_off_t (to_off_t raw - _offset h)), h, w').

End RealSeek.

(** The bookkeeping of a seek on a write handle. *)
Definition seek_bookkeeping (off whence : Z) (h : OutputFile) : OutputFile :=
  if whence =? SEEK_SET then
    let bw := if bytes_written h <? off then off else bytes_written h in
    mkOutputFile (set_length bw (out_base h)) bw
  else if whence =? SEEK_END then
    mkOutputFile (set_length (bytes_written h) (out_base h)) (bytes_written h)
  else h.

(** The direction a stream-backed seek derives from [whence]. *)
Definition dir_of (whence : Z) : option seekdir :=
  if whence =? SEEK_SET then Some ios_beg
  else if whence =? SEEK_CUR then Some ios_cur
  else if whence =? SEEK_END then Some ios_end
  else None.

(** What the claim asks of the handle [h'] left by a seek on [h]. *)
Definition bookkeeping_done (off whence : Z) (h h' : OutputFile) : Prop :=
  (whence = SEEK_SET -> bytes_written h < off ->
   bytes_written h' = off /\ _length (out_base h') = off)
  /\ (whence = SEEK_SET -> off <= bytes_written h ->
      bytes_written h' = bytes_written h
      /\ _length (out_base h') = bytes_written h)
  /\ (whence = SEEK_END ->
      bytes_written h' = bytes_written h
      /\ _length (out_base h') = bytes_written h).

(** The handle on which sopen calls do_sopen. *)
Definition reset_for_open (name : option string) (flags shflags mode : Z)
           (b : FileBase) : FileBase :=
  set_length 0 (set_offset 0 (set_mode mode (set_shflags shflags
    (set_flags flags (set_name name b))))).

Section OpenCall.
Context `{CFG : Config} {K : Type} `{OS : Posix K}.

(** The call of the open primitive that do_sopen makes for a name, flags,
    share flags and mode: [open] when no share mode is given
    ([shflags < 0]); with a share mode what the platform has ([open]
    with the share flags or-ed in, or [sopen]), and no call at all on a
    build without share-mode support. *)
Definition open_call (name : option string) (flags shflags mode : Z)
  : option (World K -> Z * World K) :=
  if shflags <? 0 then Some (sys_open name flags mode)
  else match share_support with
       | ShareDjgpp => Some (sys_open name (Z.lor flags shflags) mode)
       | ShareMint =>
           Some (sys_open name (Z.lor flags (Z.land shflags O_SHMODE)) mode)
       | ShareSopen => Some (sys_sopen name flags shflags mode)
       | ShareUnsupported => None
       end.

End OpenCall.


(** A handle owns a descriptor that close must release: it is open and
    the descriptor is none of the three standard ones. *)
Definition owns_descriptor (h : FileBase) : bool :=
  isOpen h && negb (_fd h =? STDIN_FILENO) && negb (_fd h =? STDOUT_FILENO)
  && negb (_fd h =? STDERR_FILENO).

(** The fields of a handle after close: close resets all but [_shflags]
    and [st]. *)
Definition after_close (h : FileBase) : FileBase :=
  mkFileBase (-1) 0 (_shflags h) 0 None 0 0 (st h).

(** The written count of a stream-backed write handle is within the
    length the handle tracks. *)
Definition length_tracks (h : OutputStream) : Prop :=
  bytes_written h <= _length (out_base h).

(** The exceptions by which sopen reports that the target could not be
    opened because it is absent or already exists. *)
Definition open_refused (x : exn) : bool :=
  match x with
  | FileNotFoundException _ _ | FileAlreadyExistsException _ _ => true
  | _ => false
  end.

(** The flags of a write-only open that creates or truncates, on the RAM
    disk. *)
Definition ram_create_flags : Z :=
  Z.lor Ram.O_WRONLY (Z.lor Ram.O_CREAT Ram.O_TRUNC).

(** The process may write the file [name] of the disk, or the disk has no
    such file yet. *)
Definition ram_may_write (name : string) (d : Ram.disk) : bool :=
  match Ram.lookup String.eqb name (Ram.files d) with
  | Some _ => Ram.has Ram.S_IWUSR (Ram.perm_of d name)
  | None => true
  end.

(** The process may read the file [name] once a creating open with [mode]
    has been made: the file that is there already, or the file that this
    open creates. *)
Definition ram_may_read_back (name : string) (mode : Z) (d : Ram.disk) : bool :=
  match Ram.lookup String.eqb name (Ram.files d) with
  | Some _ => Ram.has Ram.S_IRUSR (Ram.perm_of d name)
  | None => Ram.has Ram.S_IRUSR (Ram.created_perm mode d)
  end.

(** The permissions on the disk after a creating open of [name] with
    [mode]: a file that exists keeps its own. *)
Definition ram_perms_created (name : string) (mode : Z) (d : Ram.disk)
  : list (string * Z) :=
  match Ram.lookup String.eqb name (Ram.files d) with
  | Some _ => Ram.perms d
  | None => Ram.store String.eqb name (Ram.created_perm mode d) (Ram.perms d)
  end.

(** * Sample runs on the reference backends *)

Module Sample.

(** The configuration of the runs: a size limit of 768 MiB. *)
Definition cfg : Config := Ram.config 805306368.
#[export] Existing Instance cfg.

Definition opt_file : options := mkOptions false.
Definition opt_stdout : options := mkOptions true.

(** A disk holding the five-byte file "five" (mode 0644) and room for
    4096 bytes; the umask is 022. *)
Definition disk0 : World Ram.disk :=
  mkWorld 0 (Ram.mkDisk [("five", [x11; x22; x33; x44; x55])] [] 4096
               [("five", 420)] 18).

(** "five" opened for reading. *)
Definition input_opened : (exn + unit) * InputFile * World Ram.disk :=
  Eval vm_compute in
    InputFile_sopen (Some "five") Ram.O_RDONLY (-1) InputFile_closed disk0.

Definition in_h : InputFile := snd (fst input_opened).
Definition in_w : World Ram.disk := snd input_opened.

(** The same handle with its window narrowed to offset 2, length 1. *)
Definition in_h21 : InputFile :=
  Eval vm_compute in
    snd (fst (in_super (K := Ram.disk) (FileBase_set_extent 2 1) in_h in_w)).

(** A new file "out" created for writing. *)
Definition output_opened : (exn + unit) * OutputFile * World Ram.disk :=
  Eval vm_compute in
    OutputFile_sopen (Some "out") (Z.lor Ram.O_WRONLY Ram.O_CREAT) (-1) 384
                     OutputFile_closed disk0.

Definition out_h : OutputFile := snd (fst output_opened).
Definition out_w : World Ram.disk := snd output_opened.

(** A stream-backed read handle and a stream-backed write handle over
    five zero bytes. *)
Definition stream0 : World Mem.stream := mkWorld 0 (Mem.zeros 5).

Definition is_h : InputStream :=
  snd (fst (InputStream_ctor InputFile_closed stream0)).
Definition os_h : OutputStream :=
  snd (fst (OutputStream_ctor OutputFile_closed stream0)).

(** The write handle with its window set to offset 2, length 1. *)
Definition os_h21 : OutputStream :=
  snd (fst (OutputStream_set_extent 2 1 os_h stream0)).

(** The read handle over the stream with its window set to offset 2,
    length 1 (FileBase::set_extent). *)
Definition is_h21 : InputStream :=
  snd (fst (in_super (FileBase_set_extent 2 1) is_h stream0)).

(** The disk of [out_w] with room for two more bytes only. *)
Definition out_w_tight : World Ram.disk :=
  mkWorld (errno out_w)
    (Ram.mkDisk (Ram.files (backend out_w)) (Ram.fdtab (backend out_w)) 2
                (Ram.perms (backend out_w)) (Ram.umask (backend out_w))).

(** A process whose descriptor 1 is a pipe, and the write handle bound
    to it by [openStdout] after three bytes were written. *)
Definition pipe0 : World Ram.disk :=
  mkWorld 0 (Ram.mkDisk [("pipe:", [])] [(1, Ram.mkOfd "pipe:" 0)] 4096
               [("pipe:", 384)] 18).

Definition stdout_written : (exn + unit) * OutputFile * World Ram.disk :=
  Eval vm_compute in
    (OutputFile_openStdout 0 true ;; OutputFile_write (Some [x11; x22; x33]) 3)
      OutputFile_closed pipe0.

Definition stdout_h : OutputFile := snd (fst stdout_written).
Definition stdout_w : World Ram.disk := snd stdout_written.

End Sample.

(** * Properties *)

Ltac run :=
  cbv beta iota delta
    [bind ret throw this update get_errno set_errno call on_stream do_stream
     ask_stream super when of_result throwIOException throwInternalError
     throwEOFException assert].

(** Linear arithmetic after the bounds of [upx_off_t] are made numerals. *)
Ltac off_lia :=
  unfold in_off_t in *;
  change (2 ^ 63) with 9223372036854775808 in *;
  lia.

Ltac split_match :=
  match goal with
  | |- context [match ?c with _ => _ end] => destruct c eqn:?
  end.

(** Closed facts about numerals, by evaluation. *)
Ltac by_eval :=
  vm_compute; repeat split; solve [reflexivity | intros H; discriminate H].


(** ** Machine integers *)

Lemma to_off_t_id (z : Z) : in_off_t z -> to_off_t z = z.
Proof.
  unfold in_off_t, to_off_t, wrap_signed.
  change (2 ^ (64 - 1)) with 9223372036854775808.
  change (2 ^ 63) with 9223372036854775808.
  change (2 ^ 64) with 18446744073709551616.
  intros Hz. rewrite Z.mod_small; lia.
Qed.

Lemma to_off_t_range (z : Z) : in_off_t (to_off_t z).
Proof.
  unfold in_off_t, to_off_t, wrap_signed.
  change (2 ^ (64 - 1)) with 9223372036854775808.
  change (2 ^ 63) with 9223372036854775808.
  change (2 ^ 64) with 18446744073709551616.
  pose proof (Z.mod_pos_bound (z + 9223372036854775808) 18446744073709551616).
  lia.
Qed.

Lemma to_int_id (z : Z) : - 2 ^ 31 <= z < 2 ^ 31 -> to_int z = z.
Proof.
  unfold to_int, wrap_signed.
  change (2 ^ (32 - 1)) with 2147483648.
  change (2 ^ 31) with 2147483648.
  change (2 ^ 32) with 4294967296.
  intros Hz. rewrite Z.mod_small; lia.
Qed.

Lemma to_uint64_id (z : Z) : 0 <= z < 2 ^ 64 -> to_uint64 z = z.
Proof. unfold to_uint64. intros Hz. now rewrite Z.mod_small. Qed.

Section SizeCheck.
Context `{CFG : Config}.

(** An offset that passes the sanity check of the seeks is at most
    [UPX_RSIZE_MAX] in magnitude. *)
Lemma magnitude_valid (off : Z) :
  in_off_t off -> UPX_RSIZE_MAX < 2 ^ 63 ->
  mem_size_valid_bytes (magnitude off) = true -> Z.abs off <= UPX_RSIZE_MAX.
Proof.
  unfold mem_size_valid_bytes, magnitude, in_off_t.
  change (2 ^ 63) with 9223372036854775808.
  intros Hoff Hmax Hv. apply Z.leb_le in Hv.
  destruct (0 <=? off) eqn:Hs.
  - apply Z.leb_le in Hs. rewrite to_uint64_id in Hv; [lia|].
    change (2 ^ 64) with 18446744073709551616. lia.
  - apply Z.leb_gt in Hs.
    destruct (Z.eq_dec off (- 9223372036854775808)) as [->|Hne].
    + assert (E : to_uint64 (to_off_t (- - 9223372036854775808))
                  = 9223372036854775808) by (vm_compute; reflexivity).
      rewrite E in Hv. lia.
    + rewrite to_off_t_id in Hv.
      * rewrite to_uint64_id in Hv; [lia|].
        change (2 ^ 64) with 18446744073709551616. lia.
      * unfold in_off_t. change (2 ^ 63) with 9223372036854775808. lia.
Qed.

End SizeCheck.

(** ** Seeking on a descriptor *)

Section SeekProperties.
Context `{CFG : Config} {K : Type} `{OS : Posix K}.

Lemma FileBase_seek_eq (off whence : Z) (h : FileBase) (w : World K) :
  FileBase_seek off whence h w =
  if negb (isOpen h) then (inl (IOException (Some "bad seek 1") 0), h, w)
  else if negb (mem_size_valid_bytes (magnitude off))
  then (inl (IOException (Some "bad seek") 0), h, w)
  else if whence =? SEEK_SET then
    if off <? 0 then (inl (IOException (Some "bad seek 2") 0), h, w)
    else real_seek h (to_off_t (off + _offset h)) SEEK_SET w
  else if whence =? SEEK_END then
    if 0 <? off then (inl (IOException (Some "bad seek 3") 0), h, w)
    else real_seek h (to_off_t (off + to_off_t (_offset h + _length h))) SEEK_SET w
  else if whence =? SEEK_CUR then real_seek h off SEEK_CUR w
  else (inl (InternalError "bad seek: whence"), h, w).
Proof.
  unfold FileBase_seek, real_seek. run.
  destruct (negb (isOpen h)); [reflexivity|].
  destruct (negb (mem_size_valid_bytes (magnitude off))); [reflexivity|].
  destruct (whence =? SEEK_SET) eqn:E1.
  { apply Z.eqb_eq in E1. subst whence.
    destruct (off <? 0); [reflexivity|]. cbn [fst snd].
    destruct (sys_lseek _ _ _ w) as [raw w'].
    destruct (to_off_t raw <? 0); reflexivity. }
  destruct (whence =? SEEK_END) eqn:E2.
  { destruct (0 <? off); [reflexivity|]. cbn [fst snd].
    destruct (sys_lseek _ _ _ w) as [raw w'].
    destruct (to_off_t raw <? 0); reflexivity. }
  destruct (whence =? SEEK_CUR) eqn:E3; [|reflexivity].
  apply Z.eqb_eq in E3. subst whence. cbn [fst snd].
  destruct (sys_lseek _ _ _ w) as [raw w'].
  destruct (to_off_t raw <? 0); reflexivity.
Qed.

Lemma real_seek_ok (h : FileBase) (target whence r : Z) (w w' : World K)
      (h' : FileBase) :
  0 <= _offset h < 2 ^ 63 ->
  real_seek h target whence w = (inr r, h', w') ->
  exists raw, sys_lseek (_fd h) target whence w = (raw, w')
              /\ 0 <= to_off_t raw /\ r = to_off_t raw - _offset h /\ h' = h.
Proof.
  unfold real_seek. intros Ho H.
  destruct (sys_lseek _ _ _ w) as [raw w1].
  destruct (to_off_t raw <? 0) eqn:E; [discriminate H|].
  apply Z.ltb_ge in E. inversion H; subst. exists raw.
  repeat split; auto.
  apply to_off_t_id. pose proof (to_off_t_range raw) as R. off_lia.
Qed.

(** A successful seek of the base class is window-relative. *)
Lemma FileBase_seek_ok (off whence r : Z) (h h' : FileBase) (w w' : World K) :
  in_off_t off -> no_overflow (_offset h) (_length h) ->
  FileBase_seek off whence h w = (inr r, h', w') ->
  exists target origin raw,
    translated (_offset h) (_length h) off whence = Some (target, origin)
    /\ sys_lseek (_fd h) target origin w = (raw, w')
    /\ 0 <= to_off_t raw /\ r = to_off_t raw - _offset h /\ h' = h.
Proof.
  intros Hoff (Ho & Hl & Hm & Hb) H. rewrite FileBase_seek_eq in H.
  assert (Hmax : UPX_RSIZE_MAX < 2 ^ 63) by off_lia.
  assert (Ho' : 0 <= _offset h < 2 ^ 63) by off_lia.
  destruct (negb (isOpen h)); [discriminate H|].
  destruct (negb (mem_size_valid_bytes (magnitude off))) eqn:V; [discriminate H|].
  apply negb_false_iff in V. apply (magnitude_valid off Hoff Hmax) in V.
  unfold translated.
  destruct (whence =? SEEK_SET).
  { destruct (off <? 0) eqn:E; [discriminate H|]. apply Z.ltb_ge in E.
    rewrite to_off_t_id in H by off_lia.
    apply (real_seek_ok _ _ _ _ _ _ _ Ho') in H. destruct H as (raw & H1 & H2 & H3 & H4).
    exists (_offset h + off), SEEK_SET, raw. rewrite Z.add_comm. auto. }
  destruct (whence =? SEEK_END).
  { destruct (0 <? off) eqn:E; [discriminate H|]. apply Z.ltb_ge in E.
    rewrite (to_off_t_id (_offset h + _length h)) in H by off_lia.
    rewrite to_off_t_id in H by off_lia.
    apply (real_seek_ok _ _ _ _ _ _ _ Ho') in H. destruct H as (raw & H1 & H2 & H3 & H4).
    exists (_offset h + _length h + off), SEEK_SET, raw. rewrite Z.add_comm. auto. }
  destruct (whence =? SEEK_CUR); [|discriminate H].
  apply (real_seek_ok _ _ _ _ _ _ _ Ho') in H. destruct H as (raw & H1 & H2 & H3 & H4).
  exists off, SEEK_CUR, raw. auto.
Qed.

Lemma FileBase_tell_ok (r : Z) (h h' : FileBase) (w w' : World K) :
  0 <= _offset h < 2 ^ 63 ->
  FileBase_tell h w = (inr r, h', w') ->
  exists raw, sys_lseek (_fd h) 0 SEEK_CUR w = (raw, w')
              /\ 0 <= to_off_t raw /\ r = to_off_t raw - _offset h /\ h' = h.
Proof.
  intros Ho H. apply (real_seek_ok h 0 SEEK_CUR r w w' h' Ho).
  unfold FileBase_tell in H. revert H. run. unfold real_seek.
  destruct (negb (isOpen h)); [discriminate|].
  destruct (sys_lseek _ _ _ w) as [raw w1].
  destruct (to_off_t raw <? 0); [discriminate|]. auto.
Qed.

End SeekProperties.

(** ** The seeks of the derived classes, in terms of the base seek *)

Arguments FileBase_seek : simpl never.

Section DerivedSeeks.
Context `{CFG : Config} {K : Type} `{OS : Posix K}.

Lemma InputFile_seek_eq (off whence : Z) (h : InputFile) (w : World K) :
  InputFile_seek off whence h w =
  match FileBase_seek off whence (in_base h) w with
  | (inr pos, b, w') =>
      if _length b <? pos
      then (inl (IOException (Some "bad seek 4") 0), mkInputFile b (_length_orig h), w')
      else (inr pos, mkInputFile b (_length_orig h), w')
  | (inl x, b, w') => (inl x, mkInputFile b (_length_orig h), w')
  end.
Proof.
  unfold InputFile_seek, in_super. run.
  destruct (FileBase_seek off whence (in_base h) w) as [[[x|pos] b] w']; cbn.
  - reflexivity.
  - destruct (_length b <? pos); reflexivity.
Qed.

Lemma OutputFile_seek_eq (opt : options) (off whence : Z) (h : OutputFile)
      (w : World K) :
  OutputFile_seek opt off whence h w =
  if negb (mem_size_valid_bytes (magnitude off))
  then (inl (IOException (Some "bad seek") 0), h, w)
  else if to_stdout opt then (inl (AssertionFailed "!opt->to_stdout"), h, w)
  else
    let h1 := seek_bookkeeping off whence h in
    let '(r, b, w') := FileBase_seek off whence (out_base h1) w in
    (r, mkOutputFile b (bytes_written h1), w').
Proof.
  unfold OutputFile_seek, out_super, seek_bookkeeping. run.
  destruct (negb (mem_size_valid_bytes (magnitude off))); [reflexivity|].
  destruct (to_stdout opt); cbn [negb]; [reflexivity|].
  destruct (whence =? SEEK_SET).
  { cbn. destruct (bytes_written h <? off); cbn;
      destruct (FileBase_seek _ _ _ w) as [[r b] w']; reflexivity. }
  destruct (whence =? SEEK_END); cbn;
    destruct (FileBase_seek _ _ _ w) as [[r b] w']; destruct h; reflexivity.
Qed.

End DerivedSeeks.

Section StreamSeeks.
Context `{CFG : Config} {S : Type}.

Lemma InputStream_seek_eq `{IS : IStream S} (off whence : Z) (h : InputStream)
      (w : World S) :
  InputStream_seek off whence h w =
  match dir_of whence with
  | None => (inl (IOException (Some "bad seek whence") 0), h, w)
  | Some dir =>
      let s1 := i_seekg off dir (i_clear (backend w)) in
      if i_fail s1 then (inl (IOException (Some "seek failed") 0), h, mkWorld EIO s1)
      else
        let '(p, s2) := i_tellg s1 in
        if p <? 0
        then (inl (IOException (Some "tellg failed") EIO), h, mkWorld EIO s2)
        else if (0 <=? _length (in_base h)) && (_length (in_base h) <? p)
        then (inl (IOException (Some "seek beyond end of stream") EINVAL), h,
              mkWorld EINVAL s2)
        else (inr (to_off_t p), h, mkWorld (errno w) s2)
  end.
Proof.
  unfold InputStream_seek, dir_of. run.
  destruct (whence =? SEEK_SET); [|destruct (whence =? SEEK_CUR);
    [|destruct (whence =? SEEK_END); [|reflexivity]]]; cbn;
    (destruct (i_fail _); [reflexivity|]);
    (destruct (i_tellg _) as [p s2]); cbn;
    (destruct (p <? 0); [reflexivity|]);
    (destruct ((0 <=? _length (in_base h)) && (_length (in_base h) <? p));
     reflexivity).
Qed.

Lemma OutputStream_seek_eq `{OS : OStream S} (off whence : Z) (h : OutputStream)
      (w : World S) :
  OutputStream_seek off whence h w =
  if negb (mem_size_valid_bytes (magnitude off))
  then (inl (IOException (Some "bad seek") 0), h, w)
  else
    match dir_of whence with
    | None => (inl (IOException (Some "invalid whence") EINVAL), h, w)
    | Some dir =>
        let s1 := o_seekp off dir (o_clear (backend w)) in
        if o_fail s1
        then (inl (IOException (Some "seek failed") (stream_errno s1)), h,
              mkWorld (stream_errno s1) s1)
        else
          let '(p, s2) := o_tellp s1 in
          if p =? -1
          then (inl (IOException (Some "tellp failed") EIO), h, mkWorld EIO s2)
          else (inr (to_off_t p), seek_bookkeeping off whence h, mkWorld (errno w) s2)
    end.
Proof.
  unfold OutputStream_seek, dir_of, seek_bookkeeping, set_out_length. run.
  destruct (negb (mem_size_valid_bytes (magnitude off))); [reflexivity|].
  destruct (whence =? SEEK_SET) eqn:E1; [|destruct (whence =? SEEK_CUR) eqn:E2;
    [|destruct (whence =? SEEK_END) eqn:E3; [|reflexivity]]]; cbn;
    (destruct (o_fail _); [reflexivity|]);
    (destruct (o_tellp _) as [p s2]); cbn;
    (destruct (p =? -1); [reflexivity|]); cbn.
  - destruct (bytes_written h <? off); reflexivity.
  - apply Z.eqb_eq in E2. subst whence. destruct h; reflexivity.
  - reflexivity.
Qed.

End StreamSeeks.

(** * The claims *)

(** ** C1: positions exchanged with the caller *)

(** C1 fails on the stream-backed handles, whose seeks never read the
    window offset.  The write handle over a good five-byte stream whose
    window was set to offset 2, length 1 (OutputStream::set_extent)
    seeks FROM_START to 0: the seek succeeds and returns 0 with the
    stream at absolute position 0, where C1 asks for the result [0 - 2]
    and for the absolute position [2 + 0].  The seek does not consult
    [isOpen]: it does the same when the handle also holds a descriptor.
    The descriptor-backed seek of a handle with the same window goes to
    absolute position 2 and returns 0. *)
Theorem C1_stream_seek_ignores_window_offset :
  (let '(r, h', w') := OutputStream_seek (CFG := Sample.cfg) 0 SEEK_SET
                         Sample.os_h21 Sample.stream0 in
   _offset (out_base Sample.os_h21) = 2
   /\ o_good (backend Sample.stream0) = true
   /\ r = inr 0
   /\ Mem.pos (backend w') = 0
   /\ r <> inr (Mem.pos (backend w') - _offset (out_base h'))
   /\ Mem.pos (backend w') <> _offset (out_base Sample.os_h21) + 0)
  /\ (let h := mkOutputFile (set_fd 3 (out_base Sample.os_h21)) 0 in
      let '(r, h', w') := OutputStream_seek (CFG := Sample.cfg) 0 SEEK_SET
                            h Sample.stream0 in
      isOpen (out_base h) = true
      /\ _offset (out_base h) = 2
      /\ r = inr 0
      /\ Mem.pos (backend w') = 0
      /\ r <> inr (Mem.pos (backend w') - _offset (out_base h')))
  /\ (let '(r, h', w') := InputFile_seek (CFG := Sample.cfg) 0 SEEK_SET
                            Sample.in_h21 Sample.in_w in
      _offset (in_base Sample.in_h21) = 2
      /\ r = inr 0
      /\ Ram.lookup Z.eqb 3 (Ram.fdtab (backend w')) = Some (Ram.mkOfd "five" 2)).
Proof.
  vm_compute. repeat split; try reflexivity; intros H; discriminate H.
Qed.

(** The descriptor-backed handles do what C1 says: for every open
    handle (FileBase, and the read and write handles built on it) a
    successful seek or tell returns the position reported by lseek minus
    the window offset, and the position handed to lseek is the window
    offset plus the relative position: [offset + off] FROM_START,
    [offset + length + off] FROM_END, and [off] itself FROM_CURRENT,
    where lseek adds it to the current absolute position.  A
    stream-backed handle hands the caller's offset to the stream
    unchanged and returns the stream's own position. *)
Theorem positions_window_relative :
  forall (CFG : Config) (K : Type) (OS : Posix K) (opt : options),
  (forall off whence r (h h' : FileBase) (w w' : World K),
      in_off_t off -> no_overflow (_offset h) (_length h) ->
      FileBase_seek off whence h w = (inr r, h', w') ->
      exists target origin raw,
        translated (_offset h) (_length h) off whence = Some (target, origin)
        /\ sys_lseek (_fd h) target origin w = (raw, w')
        /\ r = to_off_t raw - _offset h)
  /\ (forall r (h h' : FileBase) (w w' : World K),
      0 <= _offset h < 2 ^ 63 ->
      FileBase_tell h w = (inr r, h', w') ->
      exists raw, sys_lseek (_fd h) 0 SEEK_CUR w = (raw, w')
                  /\ r = to_off_t raw - _offset h)
  /\ (forall off whence r (h h' : InputFile) (w w' : World K),
      in_off_t off -> no_overflow (_offset (in_base h)) (_length (in_base h)) ->
      InputFile_seek off whence h w = (inr r, h', w') ->
      exists target origin raw,
        translated (_offset (in_base h)) (_length (in_base h)) off whence
        = Some (target, origin)
        /\ sys_lseek (_fd (in_base h)) target origin w = (raw, w')
        /\ r = to_off_t raw - _offset (in_base h))
  /\ (forall off whence r (h h' : OutputFile) (w w' : World K),
      in_off_t off ->
      no_overflow (_offset (out_base h))
                  (_length (out_base (seek_bookkeeping off whence h))) ->
      OutputFile_seek opt off whence h w = (inr r, h', w') ->
      exists target origin raw,
        translated (_offset (out_base h)) (_length (out_base h')) off whence
        = Some (target, origin)
        /\ sys_lseek (_fd (out_base h)) target origin w = (raw, w')
        /\ r = to_off_t raw - _offset (out_base h))
  /\ (forall (S : Type) (IS : IStream S) off whence r (h h' : InputStream)
             (w w' : World S),
      InputStream_seek off whence h w = (inr r, h', w') ->
      exists dir p,
        dir_of whence = Some dir
        /\ i_tellg (i_seekg off dir (i_clear (backend w))) = (p, backend w')
        /\ r = to_off_t p)
  /\ (forall (S : Type) (OST : OStream S) off whence r (h h' : OutputStream)
             (w w' : World S),
      OutputStream_seek off whence h w = (inr r, h', w') ->
      exists dir p,
        dir_of whence = Some dir
        /\ o_tellp (o_seekp off dir (o_clear (backend w))) = (p, backend w')
        /\ r = to_off_t p).
Proof.
  intros CFG K OS opt. repeat apply conj.
  - intros off whence r h h' w w' Hoff Hw H.
    destruct (FileBase_seek_ok _ _ _ _ _ _ _ Hoff Hw H)
      as (target & origin & raw & H1 & H2 & _ & H3 & _).
    exists target, origin, raw. auto.
  - intros r h h' w w' Ho H.
    destruct (FileBase_tell_ok _ _ _ _ _ Ho H) as (raw & H1 & _ & H2 & _).
    exists raw. auto.
  - intros off whence r h h' w w' Hoff Hw H. rewrite InputFile_seek_eq in H.
    destruct (FileBase_seek off whence (in_base h) w) as [[[x|pos] b] w1] eqn:E;
      [discriminate H|].
    destruct (_length b <? pos); [discriminate H|]. inversion H; subst.
    destruct (FileBase_seek_ok _ _ _ _ _ _ _ Hoff Hw E)
      as (target & origin & raw & H1 & H2 & _ & H3 & _).
    exists target, origin, raw. auto.
  - intros off whence r h h' w w' Hoff Hw H. rewrite OutputFile_seek_eq in H.
    destruct (negb (mem_size_valid_bytes (magnitude off))); [discriminate H|].
    destruct (to_stdout opt); [discriminate H|]. cbv zeta in H.
    destruct (FileBase_seek off whence (out_base (seek_bookkeeping off whence h)) w)
      as [[r1 b] w1] eqn:E.
    inversion H; subst. clear H.
    assert (Eo : _offset (out_base (seek_bookkeeping off whence h))
                 = _offset (out_base h)).
    { unfold seek_bookkeeping. destruct (whence =? SEEK_SET); [reflexivity|].
      destruct (whence =? SEEK_END); reflexivity. }
    assert (Ef : _fd (out_base (seek_bookkeeping off whence h)) = _fd (out_base h)).
    { unfold seek_bookkeeping. destruct (whence =? SEEK_SET); [reflexivity|].
      destruct (whence =? SEEK_END); reflexivity. }
    rewrite <- Eo in Hw.
    destruct (FileBase_seek_ok _ _ _ _ _ _ _ Hoff Hw E)
      as (target & origin & raw & H1 & H2 & _ & H3 & H4).
    subst b. cbn [out_base]. rewrite Eo, Ef in *.
    exists target, origin, raw. auto.
  - intros S IS off whence r h h' w w' H. rewrite InputStream_seek_eq in H.
    destruct (dir_of whence) as [dir|]; [|discriminate H]. cbv zeta in H.
    destruct (i_fail _); [discriminate H|].
    destruct (i_tellg _) as [p s2] eqn:E.
    destruct (p <? 0); [discriminate H|].
    destruct (_ && _); [discriminate H|]. inversion H; subst.
    exists dir, p. auto.
  - intros S OST off whence r h h' w w' H. rewrite OutputStream_seek_eq in H.
    destruct (negb _); [discriminate H|].
    destruct (dir_of whence) as [dir|]; [|discriminate H]. cbv zeta in H.
    destruct (o_fail _); [discriminate H|].
    destruct (o_tellp _) as [p s2] eqn:E.
    destruct (p =? -1); [discriminate H|]. inversion H; subst.
    exists dir, p. auto.
Qed.

(** At the read handle on "five" narrowed to offset 2, length 1:
    seeking FROM_END to 0 asks lseek for absolute position 3 and returns
    position 1.  At the stream-backed read handle: seeking FROM_START to
    3 returns the stream position 3. *)
Lemma positions_window_relative_example :
  (in_off_t 0
   /\ no_overflow (H := Sample.cfg) 2 1
   /\ FileBase_seek (CFG := Sample.cfg) 0 SEEK_END (in_base Sample.in_h21) Sample.in_w
      = (inr 1, in_base Sample.in_h21,
         snd (FileBase_seek (CFG := Sample.cfg) 0 SEEK_END (in_base Sample.in_h21)
                Sample.in_w))
   /\ exists target origin raw,
        translated 2 1 0 SEEK_END = Some (target, origin)
        /\ sys_lseek 3 target origin Sample.in_w
           = (raw, snd (FileBase_seek (CFG := Sample.cfg) 0 SEEK_END
                          (in_base Sample.in_h21) Sample.in_w))
        /\ 1 = to_off_t raw - 2)
  /\ (InputStream_seek 3 SEEK_SET Sample.is_h Sample.stream0
      = (inr 3, Sample.is_h, snd (InputStream_seek 3 SEEK_SET Sample.is_h Sample.stream0))
      /\ exists dir p,
           dir_of SEEK_SET = Some dir
           /\ i_tellg (i_seekg 3 dir (i_clear (backend Sample.stream0)))
              = (p, backend (snd (InputStream_seek 3 SEEK_SET Sample.is_h
                                    Sample.stream0)))
           /\ 3 = to_off_t p).
Proof.
  assert (Hoff : in_off_t 0) by by_eval.
  assert (Hw : no_overflow (H := Sample.cfg) 2 1) by by_eval.
  assert (Hrun : FileBase_seek (CFG := Sample.cfg) 0 SEEK_END (in_base Sample.in_h21)
                   Sample.in_w
     = (inr 1, in_base Sample.in_h21,
        snd (FileBase_seek (CFG := Sample.cfg) 0 SEEK_END (in_base Sample.in_h21)
               Sample.in_w)))
    by (vm_compute; reflexivity).
  assert (Hrun2 : InputStream_seek 3 SEEK_SET Sample.is_h Sample.stream0
      = (inr 3, Sample.is_h,
         snd (InputStream_seek 3 SEEK_SET Sample.is_h Sample.stream0)))
    by (vm_compute; reflexivity).
  split.
  - refine (conj Hoff (conj Hw (conj Hrun _))).
    exact (proj1 (positions_window_relative Sample.cfg Ram.disk Ram.posix
                    Sample.opt_file)
             0 SEEK_END 1 (in_base Sample.in_h21) (in_base Sample.in_h21)
             Sample.in_w _ Hoff Hw Hrun).
  - refine (conj Hrun2 _).
    exact (proj1 (proj2 (proj2 (proj2 (proj2
             (positions_window_relative Sample.cfg Ram.disk Ram.posix
                Sample.opt_file)))))
             Mem.stream Mem.istream 3 SEEK_SET 3 Sample.is_h Sample.is_h
             Sample.stream0 _ Hrun2).
Defined.

(** ** C2: the origin of a seek *)

Section SeekRules.
Context `{CFG : Config} {K : Type} `{OS : Posix K}.

(** The base seek never changes the handle. *)
Lemma FileBase_seek_frame (off whence : Z) (h : FileBase) (w : World K) :
  snd (fst (FileBase_seek off whence h w)) = h.
Proof.
  rewrite FileBase_seek_eq. unfold real_seek.
  repeat (split_match; try reflexivity).
Qed.

(** What the base seek does with an offset that passes the size check. *)
Lemma FileBase_seek_rules (off whence : Z) (h : FileBase) (w : World K) :
  isOpen h = true -> mem_size_valid_bytes (magnitude off) = true ->
  in_off_t off -> no_overflow (_offset h) (_length h) ->
  (whence = SEEK_SET -> off < 0 ->
   FileBase_seek off whence h w = (inl (IOException (Some "bad seek 2") 0), h, w))
  /\ (whence = SEEK_SET -> 0 <= off ->
      FileBase_seek off whence h w = real_seek h (_offset h + off) SEEK_SET w)
  /\ (whence = SEEK_END -> 0 < off ->
      FileBase_seek off whence h w = (inl (IOException (Some "bad seek 3") 0), h, w))
  /\ (whence = SEEK_END -> off <= 0 ->
      FileBase_seek off whence h w
      = real_seek h (_offset h + _length h + off) SEEK_SET w)
  /\ (whence = SEEK_CUR ->
      FileBase_seek off whence h w = real_seek h off SEEK_CUR w)
  /\ (whence <> SEEK_SET -> whence <> SEEK_END -> whence <> SEEK_CUR ->
      FileBase_seek off whence h w = (inl (InternalError "bad seek: whence"), h, w)).
Proof.
  intros Hopen Hv Hoff (Ho & Hl & Hm & Hb).
  assert (Hmax : UPX_RSIZE_MAX < 2 ^ 63) by off_lia.
  pose proof (magnitude_valid off Hoff Hmax Hv) as Habs.
  rewrite FileBase_seek_eq, Hopen, Hv. cbn [negb].
  repeat apply conj.
  - intros -> Hneg. cbn [Z.eqb SEEK_SET].
    apply Z.ltb_lt in Hneg. now rewrite Hneg.
  - intros -> Hpos. cbn [Z.eqb SEEK_SET].
    apply Z.ltb_ge in Hpos. rewrite Hpos.
    rewrite to_off_t_id by off_lia. now rewrite Z.add_comm.
  - intros -> Hpos. change (SEEK_END =? SEEK_SET) with false.
    change (SEEK_END =? SEEK_END) with true. cbv iota.
    apply Z.ltb_lt in Hpos. now rewrite Hpos.
  - intros -> Hneg. change (SEEK_END =? SEEK_SET) with false.
    change (SEEK_END =? SEEK_END) with true. cbv iota.
    apply Z.ltb_ge in Hneg. rewrite Hneg.
    rewrite (to_off_t_id (_offset h + _length h)) by off_lia.
    rewrite to_off_t_id by off_lia. now rewrite Z.add_comm.
  - intros ->. reflexivity.
  - intros H1 H2 H3.
    apply Z.eqb_neq in H1, H2, H3. now rewrite H1, H2, H3.
Qed.

End SeekRules.

(** C2: a seek with an origin other than FROM_START, FROM_CURRENT and
    FROM_END, here the origin 7 with the offset 0.  On the open
    descriptor-backed handles (the base, the read handle on "five", the
    write handle on "out") it raises InternalError, as the claim says.
    On the stream-backed read and write handles over a good five-byte
    stream the same seek raises an IOError and no InternalError, also
    when the handle holds a descriptor. *)
Theorem C2_stream_seek_bad_whence_is_IOError :
  fst (fst (FileBase_seek (CFG := Sample.cfg) 0 7 (in_base Sample.in_h) Sample.in_w))
  = inl (InternalError "bad seek: whence")
  /\ fst (fst (InputFile_seek (CFG := Sample.cfg) 0 7 Sample.in_h Sample.in_w))
     = inl (InternalError "bad seek: whence")
  /\ fst (fst (OutputFile_seek (CFG := Sample.cfg) Sample.opt_file 0 7 Sample.out_h
                 Sample.out_w))
     = inl (InternalError "bad seek: whence")
  /\ fst (fst (InputStream_seek 0 7 Sample.is_h Sample.stream0))
     = inl (IOException (Some "bad seek whence") 0)
  /\ fst (fst (OutputStream_seek (CFG := Sample.cfg) 0 7 Sample.os_h Sample.stream0))
     = inl (IOException (Some "invalid whence") EINVAL)
  /\ (forall msg,
        fst (fst (InputStream_seek 0 7 Sample.is_h Sample.stream0))
        <> inl (InternalError msg))
  /\ (forall msg,
        fst (fst (OutputStream_seek (CFG := Sample.cfg) 0 7 Sample.os_h Sample.stream0))
        <> inl (InternalError msg))
  /\ (let h := mkInputFile (set_fd 3 (in_base Sample.is_h)) 5 in
      isOpen (in_base h) = true
      /\ fst (fst (InputStream_seek 0 7 h Sample.stream0))
         = inl (IOException (Some "bad seek whence") 0)).
Proof.
  repeat apply conj; try (vm_compute; reflexivity);
    intros msg; vm_compute; intros H; discriminate H.
Qed.

(** The origin rules in general.  For every open base handle and every
    offset that passes the size check of the seeks, a FROM_START seek
    with a negative offset fails with an IOError and otherwise seeks to
    [window.offset + offset]; a FROM_END seek with a positive offset
    fails with an IOError and otherwise is performed as a from-start seek
    to [window.offset + window.length + offset]; FROM_CURRENT passes the
    offset through unmodified; any other origin raises InternalError.
    The read handle raises what the base seek raises, and so does the
    write handle once its own checks have passed and its bookkeeping is
    done.  A stream-backed handle raises an IOError for any other
    origin, whatever the handle and the stream are. *)
Theorem seek_origin_rules :
  forall (CFG : Config) (K : Type) (OS : Posix K) (opt : options),
  (forall off whence (h : FileBase) (w : World K),
      isOpen h = true -> mem_size_valid_bytes (magnitude off) = true ->
      in_off_t off -> no_overflow (_offset h) (_length h) ->
      (whence = SEEK_SET -> off < 0 ->
       FileBase_seek off whence h w
       = (inl (IOException (Some "bad seek 2") 0), h, w))
      /\ (whence = SEEK_SET -> 0 <= off ->
          FileBase_seek off whence h w = real_seek h (_offset h + off) SEEK_SET w)
      /\ (whence = SEEK_END -> 0 < off ->
          FileBase_seek off whence h w
          = (inl (IOException (Some "bad seek 3") 0), h, w))
      /\ (whence = SEEK_END -> off <= 0 ->
          FileBase_seek off whence h w
          = real_seek h (_offset h + _length h + off) SEEK_SET w)
      /\ (whence = SEEK_CUR ->
          FileBase_seek off whence h w = real_seek h off SEEK_CUR w)
      /\ (whence <> SEEK_SET -> whence <> SEEK_END -> whence <> SEEK_CUR ->
          FileBase_seek off whence h w
          = (inl (InternalError "bad seek: whence"), h, w)))
  /\ (forall off whence (h : InputFile) (w w' : World K) x b,
      FileBase_seek off whence (in_base h) w = (inl x, b, w') ->
      InputFile_seek off whence h w = (inl x, h, w'))
  /\ (forall off whence (h : OutputFile) (w w' : World K) r b,
      to_stdout opt = false -> mem_size_valid_bytes (magnitude off) = true ->
      FileBase_seek off whence (out_base (seek_bookkeeping off whence h)) w
      = (r, b, w') ->
      OutputFile_seek opt off whence h w = (r, seek_bookkeeping off whence h, w'))
  /\ (forall (S : Type) (IS : IStream S) off whence (h : InputStream) (w : World S),
      whence <> SEEK_SET -> whence <> SEEK_END -> whence <> SEEK_CUR ->
      InputStream_seek off whence h w
      = (inl (IOException (Some "bad seek whence") 0), h, w))
  /\ (forall (S : Type) (OST : OStream S) off whence (h : OutputStream)
             (w : World S),
      mem_size_valid_bytes (magnitude off) = true ->
      whence <> SEEK_SET -> whence <> SEEK_END -> whence <> SEEK_CUR ->
      OutputStream_seek off whence h w
      = (inl (IOException (Some "invalid whence") EINVAL), h, w)).
Proof.
  intros CFG K OS opt. repeat apply conj.
  - intros off whence h w. apply FileBase_seek_rules.
  - intros off whence h w w' x b H. rewrite InputFile_seek_eq.
    pose proof (FileBase_seek_frame off whence (in_base h) w) as F.
    rewrite H in *. cbn in F. subst b. destruct h; reflexivity.
  - intros off whence h w w' r b Hs Hv H. rewrite OutputFile_seek_eq, Hs, Hv.
    cbn [negb]. cbv zeta.
    pose proof (FileBase_seek_frame off whence
                  (out_base (seek_bookkeeping off whence h)) w) as F.
    rewrite H in *. cbn in F. subst b.
    destruct (seek_bookkeeping off whence h); reflexivity.
  - intros S IS off whence h w H1 H2 H3. rewrite InputStream_seek_eq.
    unfold dir_of. apply Z.eqb_neq in H1, H2, H3. now rewrite H1, H2, H3.
  - intros S OST off whence h w Hv H1 H2 H3. rewrite OutputStream_seek_eq, Hv.
    unfold dir_of. apply Z.eqb_neq in H1, H2, H3. now rewrite H1, H2, H3.
Qed.

(** At the read handle on "five": a FROM_START seek to -1 fails. *)
Lemma seek_origin_rules_example :
  isOpen (in_base Sample.in_h) = true
  /\ mem_size_valid_bytes (H := Sample.cfg) (magnitude (-1)) = true
  /\ in_off_t (-1)
  /\ no_overflow (H := Sample.cfg) (_offset (in_base Sample.in_h))
                 (_length (in_base Sample.in_h))
  /\ SEEK_SET = SEEK_SET /\ -1 < 0
  /\ FileBase_seek (CFG := Sample.cfg) (-1) SEEK_SET (in_base Sample.in_h) Sample.in_w
     = (inl (IOException (Some "bad seek 2") 0), in_base Sample.in_h, Sample.in_w).
Proof.
  assert (H1 : isOpen (in_base Sample.in_h) = true) by reflexivity.
  assert (H2 : mem_size_valid_bytes (H := Sample.cfg) (magnitude (-1)) = true)
    by reflexivity.
  assert (H3 : in_off_t (-1)) by by_eval.
  assert (H4 : no_overflow (H := Sample.cfg) (_offset (in_base Sample.in_h))
                           (_length (in_base Sample.in_h))) by by_eval.
  assert (H5 : -1 < 0) by reflexivity.
  refine (conj H1 (conj H2 (conj H3 (conj H4 (conj eq_refl (conj H5 _)))))).
  exact (proj1 (proj1 (seek_origin_rules Sample.cfg Ram.disk Ram.posix
                         Sample.opt_file)
                  (-1) SEEK_SET (in_base Sample.in_h) Sample.in_w H1 H2 H3 H4)
           eq_refl H5).
Defined.

(** ** C3: read and readx *)

Section ReadProperties.
Context `{CFG : Config}.

(** [mem_size 1 n] accepts every count between 1 and the limit. *)
Lemma mem_size_1_ok (n : Z) :
  0 < n <= UPX_RSIZE_MAX -> UPX_RSIZE_MAX < 2 ^ 31 -> mem_size 1 n = inr n.
Proof.
  intros Hn Hmax. unfold mem_size, mem_size_valid_bytes.
  assert (E1 : to_uint64 1 = 1) by reflexivity.
  assert (En : to_uint64 n = n).
  { apply to_uint64_id. change (2 ^ 31) with 2147483648 in Hmax.
    change (2 ^ 64) with 18446744073709551616. lia. }
  rewrite ?E1, ?En, ?Z.mul_1_l, ?E1, ?En.
  change (0 <? 1) with true.
  replace (1 <=? UPX_RSIZE_MAX) with true by (symmetry; apply Z.leb_le; lia).
  replace (n <=? UPX_RSIZE_MAX) with true by (symmetry; apply Z.leb_le; lia).
  reflexivity.
Qed.

Lemma InputFile_readx_eq {K : Type} `{OS : Posix K} (buf : option (list byte))
      (blen : Z) (h : InputFile) (w : World K) :
  InputFile_readx buf blen h w =
  match InputFile_read buf blen h w with
  | (inr r, h', w') =>
      if fst r =? blen then (inr r, h', w') else (inl EOFException, h', w')
  | (inl x, h', w') => (inl x, h', w')
  end.
Proof.
  unfold InputFile_readx. run.
  destruct (InputFile_read buf blen h w) as [[[x|r] h'] w']; [reflexivity|].
  destruct (fst r =? blen); reflexivity.
Qed.

Lemma InputStream_readx_eq {S : Type} `{IS : IStream S} (buf : option (list byte))
      (blen : Z) (h : InputStream) (w : World S) :
  InputStream_readx buf blen h w =
  match InputStream_read buf blen h w with
  | (inr r, h', w') =>
      if fst r =? blen then (inr r, h', w') else (inl EOFException, h', w')
  | (inl x, h', w') => (inl x, h', w')
  end.
Proof.
  unfold InputStream_readx. run.
  destruct (InputStream_read buf blen h w) as [[[x|r] h'] w']; [reflexivity|].
  destruct (fst r =? blen); reflexivity.
Qed.

(** On the RAM disk: a read of [blen] bytes from a file that holds
    [remaining < blen] bytes after the position returns [remaining]. *)
Lemma Ram_read_short (buf : option (list byte)) (blen : Z) (h : InputFile)
      (w : World Ram.disk) (o : Ram.ofd) (space : list byte) :
  UPX_RSIZE_MAX < 2 ^ 31 ->
  isOpen (in_base h) = true ->
  Ram.lookup Z.eqb (_fd (in_base h)) (Ram.fdtab (backend w)) = Some o ->
  0 <= Ram.ofd_pos o <= Z.of_nat (List.length (Ram.contents (backend w) o)) ->
  Z.of_nat (List.length (Ram.contents (backend w) o)) - Ram.ofd_pos o < blen ->
  blen <= UPX_RSIZE_MAX ->
  raw_bytes buf blen = inr space ->
  exists data w',
    InputFile_read buf blen h w
    = (inr (Z.of_nat (List.length (Ram.contents (backend w) o)) - Ram.ofd_pos o, data),
       h, w').
Proof.
  intros Hmax Hopen Hfd Hpos Hrem Hlen Hbuf.
  assert (Hb : 0 < blen) by lia.
  unfold InputFile_read. run. rewrite Hopen.
  replace (blen <? 0) with false by (symmetry; apply Z.ltb_ge; lia).
  cbn [negb orb].
  rewrite (mem_size_1_ok blen) by (auto; lia).
  change (2 ^ 31) with 2147483648 in Hmax.
  rewrite (to_int_id blen) by (change (2 ^ 31) with 2147483648; lia).
  rewrite Hbuf. cbn [acc_safe_hread Ram.posix]. unfold Ram.hread.
  cbn [backend errno]. rewrite Hfd. cbn [fst snd errno Z.eqb negb].
  set (got := firstn (Z.to_nat blen)
                (skipn (Z.to_nat (Ram.ofd_pos o)) (Ram.contents (backend w) o))).
  assert (Hgot : Z.of_nat (List.length got)
                 = Z.of_nat (List.length (Ram.contents (backend w) o)) - Ram.ofd_pos o).
  { unfold got. rewrite length_firstn, length_skipn. lia. }
  rewrite Hgot. rewrite to_int_id by (change (2 ^ 31) with 2147483648; lia).
  eexists _, _. reflexivity.
Qed.

(** On the in-memory stream: the same for a good stream. *)
Lemma Mem_read_short (buf : option (list byte)) (blen : Z) (h : InputStream)
      (w : World Mem.stream) (space : list byte) :
  UPX_RSIZE_MAX < 2 ^ 31 ->
  Mem.good (backend w) = true ->
  0 <= Mem.pos (backend w) <= Mem.size (backend w) ->
  Mem.size (backend w) - Mem.pos (backend w) < blen ->
  blen <= UPX_RSIZE_MAX ->
  raw_bytes buf blen = inr space ->
  exists data w',
    InputStream_read buf blen h w
    = (inr (Mem.size (backend w) - Mem.pos (backend w), data), h, w').
Proof.
  intros Hmax Hgood Hpos Hrem Hlen Hbuf.
  assert (Hb : 0 < blen) by lia.
  unfold InputStream_read. run.
  rewrite (mem_size_1_ok blen) by (auto; lia).
  change (2 ^ 31) with 2147483648 in Hmax.
  rewrite (to_int_id blen) by (change (2 ^ 31) with 2147483648; lia).
  rewrite Hbuf. cbn [i_read i_gcount i_eof i_fail i_bad Mem.istream backend errno].
  unfold Mem.read. rewrite Hgood. cbn [Mem.gcount Mem.eofbit backend errno].
  set (k := Z.max 0 (Z.min blen (Mem.size (backend w) - Mem.pos (backend w)))).
  assert (Hk : k = Mem.size (backend w) - Mem.pos (backend w)) by (unfold k; lia).
  assert (Hlt : (k <? blen) = true) by (apply Z.ltb_lt; lia).
  rewrite Hlt.
  destruct (k =? 0); cbn [errno Z.eqb negb];
    (rewrite to_int_id by (change (2 ^ 31) with 2147483648; lia));
    rewrite Hk; eexists _, _; reflexivity.
Qed.

End ReadProperties.

(** C3, as stated, fails for a window narrower than the store: on the
    five-byte file "five" the read handle with the window (offset 2,
    length 1), positioned at the start of its window, has one byte left
    in the window; [readx] of 3 bytes reads past the window, returns 3
    and raises nothing. *)
Lemma C3_counterexample :
  let '(_, h, w) := InputFile_seek (CFG := Sample.cfg) 0 SEEK_SET
                      Sample.in_h21 Sample.in_w in
  fst (fst (FileBase_tell (in_base h) w)) = inr 0
  /\ _length (in_base h) = 1
  /\ _length (in_base h) - 0 < 3
  /\ fst (fst (InputFile_readx (CFG := Sample.cfg) (Some [x00; x00; x00]) 3 h w))
     = inr (3, [x33; x44; x55]).
Proof. vm_compute. repeat split; reflexivity. Qed.

(** C3 (amended): for every read handle, descriptor- or stream-backed,
    and every exactLen, [readx] raises UnexpectedEndOfFileError whenever
    the underlying [read] returns a byte count different from exactLen,
    and returns what [read] returns otherwise; the plain [read] returns
    that count without raising.  In particular, when the underlying
    store (not the window) holds fewer than exactLen bytes after the
    current position, [read] returns that lesser count and [readx]
    raises UnexpectedEndOfFileError. *)
Theorem C3_readx_exact_count :
  forall (CFG : Config),
  (forall (K : Type) (OS : Posix K) buf blen (h h' : InputFile) (w w' : World K)
          n data,
      InputFile_read buf blen h w = (inr (n, data), h', w') ->
      (n <> blen -> InputFile_readx buf blen h w = (inl EOFException, h', w'))
      /\ (n = blen -> InputFile_readx buf blen h w = (inr (n, data), h', w')))
  /\ (forall (S : Type) (IS : IStream S) buf blen (h h' : InputStream)
             (w w' : World S) n data,
      InputStream_read buf blen h w = (inr (n, data), h', w') ->
      (n <> blen -> InputStream_readx buf blen h w = (inl EOFException, h', w'))
      /\ (n = blen -> InputStream_readx buf blen h w = (inr (n, data), h', w')))
  /\ (forall buf blen (h : InputFile) (w : World Ram.disk) o space,
      UPX_RSIZE_MAX < 2 ^ 31 ->
      isOpen (in_base h) = true ->
      Ram.lookup Z.eqb (_fd (in_base h)) (Ram.fdtab (backend w)) = Some o ->
      0 <= Ram.ofd_pos o <= Z.of_nat (List.length (Ram.contents (backend w) o)) ->
      Z.of_nat (List.length (Ram.contents (backend w) o)) - Ram.ofd_pos o < blen ->
      blen <= UPX_RSIZE_MAX ->
      raw_bytes buf blen = inr space ->
      exists data w',
        InputFile_read buf blen h w
        = (inr (Z.of_nat (List.length (Ram.contents (backend w) o)) - Ram.ofd_pos o,
                data), h, w')
        /\ InputFile_readx buf blen h w = (inl EOFException, h, w'))
  /\ (forall buf blen (h : InputStream) (w : World Mem.stream) space,
      UPX_RSIZE_MAX < 2 ^ 31 ->
      Mem.good (backend w) = true ->
      0 <= Mem.pos (backend w) <= Mem.size (backend w) ->
      Mem.size (backend w) - Mem.pos (backend w) < blen ->
      blen <= UPX_RSIZE_MAX ->
      raw_bytes buf blen = inr space ->
      exists data w',
        InputStream_read buf blen h w
        = (inr (Mem.size (backend w) - Mem.pos (backend w), data), h, w')
        /\ InputStream_readx buf blen h w = (inl EOFException, h, w')).
Proof.
  intros CFG. repeat apply conj.
  - intros K OS buf blen h h' w w' n data H. rewrite InputFile_readx_eq, H.
    cbn [fst]. split; intros Hn.
    + apply Z.eqb_neq in Hn. now rewrite Hn.
    + apply Z.eqb_eq in Hn. now rewrite Hn.
  - intros S IS buf blen h h' w w' n data H. rewrite InputStream_readx_eq, H.
    cbn [fst]. split; intros Hn.
    + apply Z.eqb_neq in Hn. now rewrite Hn.
    + apply Z.eqb_eq in Hn. now rewrite Hn.
  - intros buf blen h w o space Hmax Hopen Hfd Hpos Hrem Hlen Hbuf.
    destruct (Ram_read_short buf blen h w o space Hmax Hopen Hfd Hpos Hrem Hlen Hbuf)
      as (data & w' & H).
    exists data, w'. split; [exact H|].
    rewrite InputFile_readx_eq, H. cbn [fst].
    replace (_ =? blen) with false by (symmetry; apply Z.eqb_neq; lia).
    reflexivity.
  - intros buf blen h w space Hmax Hgood Hpos Hrem Hlen Hbuf.
    destruct (Mem_read_short buf blen h w space Hmax Hgood Hpos Hrem Hlen Hbuf)
      as (data & w' & H).
    exists data, w'. split; [exact H|].
    rewrite InputStream_readx_eq, H. cbn [fst].
    replace (_ =? blen) with false by (symmetry; apply Z.eqb_neq; lia).
    reflexivity.
Qed.

(** C3 on "five": a read of 7 bytes returns the 5 bytes of the store and
    [readx] of 7 bytes raises UnexpectedEndOfFileError; the hypotheses
    about the store hold of the RAM disk. *)
Lemma C3_witness :
  (InputFile_read (CFG := Sample.cfg) (Some (repeat x00 7)) 7 Sample.in_h Sample.in_w
   = (inr (5, [x11; x22; x33; x44; x55]), Sample.in_h,
      snd (InputFile_read (CFG := Sample.cfg) (Some (repeat x00 7)) 7
             Sample.in_h Sample.in_w))
   /\ 5 <> 7
   /\ InputFile_readx (CFG := Sample.cfg) (Some (repeat x00 7)) 7 Sample.in_h
        Sample.in_w
      = (inl EOFException, Sample.in_h,
         snd (InputFile_read (CFG := Sample.cfg) (Some (repeat x00 7)) 7
                Sample.in_h Sample.in_w)))
  /\ (UPX_RSIZE_MAX (Config := Sample.cfg) < 2 ^ 31
      /\ isOpen (in_base Sample.in_h) = true
      /\ Ram.lookup Z.eqb 3 (Ram.fdtab (backend Sample.in_w))
         = Some (Ram.mkOfd "five" 0)
      /\ 0 <= 0 <= 5 /\ 5 - 0 < 7 /\ 7 <= UPX_RSIZE_MAX (Config := Sample.cfg)
      /\ exists data w',
           InputFile_read (CFG := Sample.cfg) (Some (repeat x00 7)) 7
                          Sample.in_h Sample.in_w
           = (inr (5 - 0, data), Sample.in_h, w')
           /\ InputFile_readx (CFG := Sample.cfg) (Some (repeat x00 7)) 7
                              Sample.in_h Sample.in_w
              = (inl EOFException, Sample.in_h, w')).
Proof.
  assert (Hrun : InputFile_read (CFG := Sample.cfg) (Some (repeat x00 7)) 7
                   Sample.in_h Sample.in_w
    = (inr (5, [x11; x22; x33; x44; x55]), Sample.in_h,
       snd (InputFile_read (CFG := Sample.cfg) (Some (repeat x00 7)) 7
              Sample.in_h Sample.in_w))) by (vm_compute; reflexivity).
  assert (Hne : 5 <> 7) by (intros H; discriminate H).
  assert (H1 : UPX_RSIZE_MAX (Config := Sample.cfg) < 2 ^ 31) by reflexivity.
  assert (H2 : isOpen (in_base Sample.in_h) = true) by reflexivity.
  assert (H3 : Ram.lookup Z.eqb 3 (Ram.fdtab (backend Sample.in_w))
               = Some (Ram.mkOfd "five" 0)) by reflexivity.
  assert (H4 : 0 <= 0 <= 5) by lia.
  assert (H5 : 5 - 0 < 7) by lia.
  assert (H6 : 7 <= UPX_RSIZE_MAX (Config := Sample.cfg)) by by_eval.
  split.
  - refine (conj Hrun (conj Hne _)).
    exact (proj1 (proj1 (C3_readx_exact_count Sample.cfg) Ram.disk Ram.posix
                    (Some (repeat x00 7)) 7 Sample.in_h Sample.in_h Sample.in_w _
                    5 [x11; x22; x33; x44; x55] Hrun) Hne).
  - refine (conj H1 (conj H2 (conj H3 (conj H4 (conj H5 (conj H6 _)))))).
    exact (proj1 (proj2 (proj2 (C3_readx_exact_count Sample.cfg)))
             (Some (repeat x00 7)) 7 Sample.in_h Sample.in_w (Ram.mkOfd "five" 0)
             (repeat x00 7) H1 H2 H3 H4 H5 H6 eq_refl).
Defined.

(** ** C4: write *)

Section WriteProperties.
Context `{CFG : Config}.

(** A descriptor-backed write of [blen > 0] bytes that passes the checks
    is one call of the write primitive with errno cleared. *)
Lemma OutputFile_write_eq {K : Type} `{OS : Posix K} (buf : option (list byte))
      (blen : Z) (h : OutputFile) (w : World K) (data : list byte) :
  UPX_RSIZE_MAX < 2 ^ 31 -> isOpen (out_base h) = true ->
  0 < blen <= UPX_RSIZE_MAX -> raw_bytes buf blen = inr data ->
  OutputFile_write buf blen h w =
  let '(l, w') := acc_safe_hwrite (_fd (out_base h)) data blen
                    (mkWorld 0 (backend w)) in
  if l =? blen
  then (inr tt, set_bytes_written (to_off_t (bytes_written h + blen)) h, w')
  else (inl (IOException (Some "write error") (errno w')), h, w').
Proof.
  intros Hmax Hopen Hlen Hbuf. unfold OutputFile_write. run. rewrite Hopen.
  replace (blen <? 0) with false by (symmetry; apply Z.ltb_ge; lia).
  replace (blen =? 0) with false by (symmetry; apply Z.eqb_neq; lia).
  cbn [negb orb]. rewrite (mem_size_1_ok blen Hlen Hmax).
  rewrite (to_int_id blen)
    by (change (2 ^ 31) with 2147483648 in *; lia).
  rewrite Hbuf.
  destruct (acc_safe_hwrite _ data blen _) as [l w'].
  destruct (l =? blen); reflexivity.
Qed.

(** The same for a stream-backed write. *)
Lemma OutputStream_write_eq {S : Type} `{OST : OStream S} (buf : option (list byte))
      (blen : Z) (h : OutputStream) (w : World S) (data : list byte) :
  UPX_RSIZE_MAX < 2 ^ 31 ->
  isOpen (out_base h) = true \/ o_good (backend w) = true ->
  0 < blen <= UPX_RSIZE_MAX -> raw_bytes buf blen = inr data ->
  OutputStream_write buf blen h w =
  let s' := o_write data blen (backend w) in
  if o_fail s'
  then (inl (IOException (Some "write error") (stream_errno s')), h,
        mkWorld (stream_errno s') s')
  else (inr tt,
        (let h1 := set_bytes_written (to_off_t (bytes_written h + blen)) h in
         if _length (out_base h1) <? bytes_written h1
         then set_out_length (bytes_written h1) h1 else h1),
        mkWorld 0 s').
Proof.
  intros Hmax Hopen Hlen Hbuf. unfold OutputStream_write. run.
  replace (negb (isOpen (out_base h)) && negb (o_good (backend w))) with false
    by (destruct Hopen as [-> | ->]; cbn; now rewrite ?andb_false_r).
  replace (blen =? 0) with false by (symmetry; apply Z.eqb_neq; lia).
  rewrite (mem_size_1_ok blen Hlen Hmax).
  rewrite (to_int_id blen)
    by (change (2 ^ 31) with 2147483648 in *; lia).
  rewrite Hbuf. cbn [backend errno].
  destruct (o_fail (o_write data blen (backend w))); reflexivity.
Qed.

End WriteProperties.

(** C4: for every open write handle, a write of zero bytes succeeds, also
    with a null buffer, and changes neither the handle nor the world; a
    write of len > 0 bytes for which the underlying primitive transfers a
    count other than len (the stream: reports failure) raises an IOError
    and leaves [bytes_written] as it was, the caller sees no count; a
    write whose primitive transfers len bytes increases [bytes_written]
    by exactly len. *)
Theorem C4_write_exact :
  forall (CFG : Config),
  (forall (K : Type) (OS : Posix K) buf (h : OutputFile) (w : World K),
      isOpen (out_base h) = true ->
      OutputFile_write buf 0 h w = (inr tt, h, w))
  /\ (forall (K : Type) (OS : Posix K) buf blen (h : OutputFile) (w w' : World K)
             data l,
      UPX_RSIZE_MAX < 2 ^ 31 -> isOpen (out_base h) = true ->
      0 < blen <= UPX_RSIZE_MAX -> raw_bytes buf blen = inr data ->
      acc_safe_hwrite (_fd (out_base h)) data blen (mkWorld 0 (backend w)) = (l, w') ->
      (l <> blen ->
       OutputFile_write buf blen h w
       = (inl (IOException (Some "write error") (errno w')), h, w'))
      /\ (l = blen -> in_off_t (bytes_written h + blen) ->
          exists h', OutputFile_write buf blen h w = (inr tt, h', w')
                     /\ bytes_written h' = bytes_written h + blen
                     /\ out_base h' = out_base h))
  /\ (forall (S : Type) (OST : OStream S) buf (h : OutputStream) (w : World S),
      isOpen (out_base h) = true \/ o_good (backend w) = true ->
      OutputStream_write buf 0 h w = (inr tt, h, w))
  /\ (forall (S : Type) (OST : OStream S) buf blen (h : OutputStream) (w : World S)
             data,
      UPX_RSIZE_MAX < 2 ^ 31 ->
      isOpen (out_base h) = true \/ o_good (backend w) = true ->
      0 < blen <= UPX_RSIZE_MAX -> raw_bytes buf blen = inr data ->
      let s' := o_write data blen (backend w) in
      (o_fail s' = true ->
       OutputStream_write buf blen h w
       = (inl (IOException (Some "write error") (stream_errno s')), h,
          mkWorld (stream_errno s') s'))
      /\ (o_fail s' = false -> in_off_t (bytes_written h + blen) ->
          exists h', OutputStream_write buf blen h w = (inr tt, h', mkWorld 0 s')
                     /\ bytes_written h' = bytes_written h + blen)).
Proof.
  intros CFG. repeat apply conj.
  - intros K OS buf h w Hopen. unfold OutputFile_write. run.
    rewrite Hopen. reflexivity.
  - intros K OS buf blen h w w' data l Hmax Hopen Hlen Hbuf Hw.
    rewrite (OutputFile_write_eq buf blen h w data Hmax Hopen Hlen Hbuf), Hw.
    split.
    + intros Hne. apply Z.eqb_neq in Hne. now rewrite Hne.
    + intros -> Hr. rewrite Z.eqb_refl. eexists. split; [reflexivity|].
      cbn [bytes_written set_bytes_written out_base]. split; [|reflexivity].
      now apply to_off_t_id.
  - intros S OST buf h w Hopen. unfold OutputStream_write. run.
    replace (negb (isOpen (out_base h)) && negb (o_good (backend w))) with false
      by (destruct Hopen as [-> | ->]; cbn; now rewrite ?andb_false_r).
    reflexivity.
  - intros S OST buf blen h w data Hmax Hopen Hlen Hbuf s'.
    rewrite (OutputStream_write_eq buf blen h w data Hmax Hopen Hlen Hbuf).
    cbv zeta. fold s'. split.
    + intros ->. reflexivity.
    + intros -> Hr. eexists. split; [reflexivity|].
      rewrite (to_off_t_id _ Hr).
      cbn [bytes_written set_bytes_written out_base].
      destruct (_length (out_base h) <? bytes_written h + blen); reflexivity.
Qed.

(** C4 on the new file "out": writing the three bytes 11 22 33 succeeds
    and [bytes_written] goes from 0 to 3; on a disk with room for two
    bytes the same write raises an IOError; a write to a good stream
    adds 3 to [bytes_written]. *)
Lemma C4_witness :
  UPX_RSIZE_MAX (Config := Sample.cfg) < 2 ^ 31
  /\ isOpen (out_base Sample.out_h) = true
  /\ 0 < 3 <= UPX_RSIZE_MAX (Config := Sample.cfg)
  /\ in_off_t (bytes_written Sample.out_h + 3)
  /\ (exists h',
        OutputFile_write (CFG := Sample.cfg) (Some [x11; x22; x33]) 3
                         Sample.out_h Sample.out_w
        = (inr tt, h',
           snd (acc_safe_hwrite (_fd (out_base Sample.out_h)) [x11; x22; x33] 3
                  (mkWorld 0 (backend Sample.out_w))))
        /\ bytes_written h' = bytes_written Sample.out_h + 3
        /\ out_base h' = out_base Sample.out_h)
  /\ (2 <> 3
      /\ OutputFile_write (CFG := Sample.cfg) (Some [x11; x22; x33]) 3
                          Sample.out_h Sample.out_w_tight
         = (inl (IOException (Some "write error") Ram.ENOSPC), Sample.out_h,
            snd (acc_safe_hwrite (_fd (out_base Sample.out_h)) [x11; x22; x33] 3
                   (mkWorld 0 (backend Sample.out_w_tight)))))
  /\ (o_good (backend Sample.stream0) = true
      /\ o_fail (o_write [x11; x22; x33] 3 (backend Sample.stream0)) = false
      /\ in_off_t (bytes_written Sample.os_h + 3)
      /\ exists h',
           OutputStream_write (CFG := Sample.cfg) (Some [x11; x22; x33]) 3
                              Sample.os_h Sample.stream0
           = (inr tt, h',
              mkWorld 0 (o_write [x11; x22; x33] 3 (backend Sample.stream0)))
           /\ bytes_written h' = bytes_written Sample.os_h + 3).
Proof.
  assert (H1 : UPX_RSIZE_MAX (Config := Sample.cfg) < 2 ^ 31) by reflexivity.
  assert (H2 : isOpen (out_base Sample.out_h) = true) by reflexivity.
  assert (H3 : 0 < 3 <= UPX_RSIZE_MAX (Config := Sample.cfg)) by by_eval.
  assert (H4 : in_off_t (bytes_written Sample.out_h + 3)) by by_eval.
  assert (H5 : 2 <> 3) by (intros H; discriminate H).
  assert (H6 : o_good (backend Sample.stream0) = true) by reflexivity.
  assert (H7 : o_fail (o_write [x11; x22; x33] 3 (backend Sample.stream0)) = false)
    by reflexivity.
  assert (H8 : in_off_t (bytes_written Sample.os_h + 3)) by by_eval.
  refine (conj H1 (conj H2 (conj H3 (conj H4 (conj _ (conj _ _)))))).
  - exact (proj2 (proj1 (proj2 (C4_write_exact Sample.cfg)) Ram.disk Ram.posix
                    (Some [x11; x22; x33]) 3 Sample.out_h Sample.out_w _
                    [x11; x22; x33] 3 H1 H2 H3 eq_refl eq_refl) eq_refl H4).
  - refine (conj H5 _).
    exact (proj1 (proj1 (proj2 (C4_write_exact Sample.cfg)) Ram.disk Ram.posix
                    (Some [x11; x22; x33]) 3 Sample.out_h Sample.out_w_tight _
                    [x11; x22; x33] 2 H1 H2 H3 eq_refl eq_refl) H5).
  - refine (conj H6 (conj H7 (conj H8 _))).
    exact (proj2 (proj2 (proj2 (proj2 (C4_write_exact Sample.cfg))) Mem.stream
                    Mem.ostream (Some [x11; x22; x33]) 3 Sample.os_h Sample.stream0
                    [x11; x22; x33] H1 (or_intror H6) H3 eq_refl) H7 H8).
Defined.

(** ** C5: rewrite *)

(** Adding a count and subtracting a congruent one restores a counter. *)
Lemma to_off_t_restore (b m len : Z) :
  in_off_t b -> (m - len) mod 2 ^ 64 = 0 ->
  to_off_t (to_off_t (b + m) - len) = b.
Proof.
  intros Hb Hm. rewrite <- (to_off_t_id b Hb) at 2.
  unfold to_off_t, wrap_signed.
  change (2 ^ (64 - 1)) with 9223372036854775808.
  change (2 ^ 64) with 18446744073709551616 in *.
  f_equal.
  apply Z.mod_divide in Hm; [|discriminate]. destruct Hm as [q Hq].
  replace ((b + m + 9223372036854775808) mod 18446744073709551616
           - 9223372036854775808 - len + 9223372036854775808)
    with ((b + m + 9223372036854775808) mod 18446744073709551616 + (- len)) by lia.
  rewrite Zplus_mod_idemp_l.
  replace (b + m + 9223372036854775808 + - len)
    with (b + 9223372036854775808 + q * 18446744073709551616) by lia.
  apply Z_mod_plus_full.
Qed.

Section RewriteProperties.
Context `{CFG : Config}.

(** What [mem_size 1 n] yields is the count as an unsigned number. *)
Lemma mem_size_1_unsigned (n m : Z) :
  mem_size 1 n = inr m -> m = to_uint64 n /\ 0 <= m <= UPX_RSIZE_MAX.
Proof.
  intros H. unfold mem_size, mem_size_valid_bytes in H.
  assert (E1 : to_uint64 1 = 1) by reflexivity.
  assert (En : to_uint64 (to_uint64 n) = to_uint64 n)
    by (unfold to_uint64; apply Z.mod_mod; discriminate).
  rewrite ?E1, ?Z.mul_1_l, ?En in H.
  destruct (to_uint64 n <=? UPX_RSIZE_MAX) eqn:E.
  - apply Z.leb_le in E.
    destruct ((0 <? 1) && (1 <=? UPX_RSIZE_MAX)); simpl in H; [|discriminate H].
    inversion H; subst. split; [reflexivity|]. split; [|exact E].
    unfold to_uint64. apply Z.mod_pos_bound. reflexivity.
  - rewrite !andb_false_r in H. discriminate H.
Qed.

Lemma to_uint64_congruent (n : Z) : (to_uint64 n - n) mod 2 ^ 64 = 0.
Proof.
  unfold to_uint64. rewrite Zminus_mod_idemp_l, Z.sub_diag. reflexivity.
Qed.

(** The effect of a descriptor-backed write on the handle. *)
Lemma OutputFile_write_handle {K : Type} `{OS : Posix K} (buf : option (list byte))
      (blen : Z) (h h1 : OutputFile) (w w1 : World K) (r : exn + unit) :
  OutputFile_write buf blen h w = (r, h1, w1) ->
  match r with
  | inl _ => h1 = h
  | inr _ => h1 = h /\ blen = 0
             \/ exists n, mem_size 1 blen = inr n
                          /\ h1 = set_bytes_written
                                    (to_off_t (bytes_written h + to_int n)) h
  end.
Proof.
  unfold OutputFile_write. run. intros H.
  destruct (negb (isOpen (out_base h)) || (blen <? 0)); [now inversion H|].
  destruct (blen =? 0) eqn:E0.
  { apply Z.eqb_eq in E0. inversion H; subst. auto. }
  destruct (mem_size 1 blen) as [x|n] eqn:En; [now inversion H|].
  cbn [of_result] in H. unfold ret, throw in H.
  destruct (raw_bytes buf (to_int n)) as [x|data]; [now inversion H|].
  destruct (acc_safe_hwrite _ data (to_int n) _) as [l w'].
  destruct (negb (l =? to_int n)); inversion H; subst; eauto.
Qed.

(** The effect of a stream-backed write on the handle. *)
Lemma OutputStream_write_handle {S : Type} `{OST : OStream S}
      (buf : option (list byte)) (blen : Z) (h h1 : OutputStream) (w w1 : World S)
      (r : exn + unit) :
  OutputStream_write buf blen h w = (r, h1, w1) ->
  match r with
  | inl _ => h1 = h
  | inr _ => h1 = h /\ blen = 0
             \/ exists n, mem_size 1 blen = inr n
                          /\ bytes_written h1
                             = to_off_t (bytes_written h + to_int n)
  end.
Proof.
  unfold OutputStream_write. run. intros H.
  destruct (negb (isOpen (out_base h)) && negb (o_good (backend w)));
    [now inversion H|].
  destruct (blen =? 0) eqn:E0.
  { apply Z.eqb_eq in E0. inversion H; subst. auto. }
  destruct (mem_size 1 blen) as [x|n] eqn:En; [now inversion H|].
  cbn [of_result] in H. unfold ret, throw in H.
  destruct (raw_bytes buf (to_int n)) as [x|data]; [now inversion H|].
  cbn [backend errno] in H.
  destruct (o_fail (o_write data (to_int n) (backend w))); inversion H; subst.
  - reflexivity.
  - right. exists n. split; [reflexivity|].
    cbn [set_bytes_written bytes_written out_base].
    destruct (_length (out_base h) <? _); reflexivity.
Qed.

End RewriteProperties.

(** C5: for every open write handle on either backend, [rewrite(buffer,
    len)] ends with the result and in the world in which [write(buffer,
    len)] ends (the same bytes go to the same position), and leaves
    [bytes_written] as it was before the call.  On the descriptor-backed
    handle this is under the precondition that [rewrite] asserts (the
    tool is not in write-to-stdout mode); there the whole handle is
    unchanged. *)
Theorem C5_rewrite_keeps_bytes_written :
  forall (CFG : Config),
  (forall (K : Type) (OS : Posix K) (opt : options) buf len (h h1 : OutputFile)
          (w w1 : World K) r,
      UPX_RSIZE_MAX < 2 ^ 31 -> to_stdout opt = false ->
      in_off_t (bytes_written h) ->
      OutputFile_write buf len h w = (r, h1, w1) ->
      OutputFile_rewrite opt buf len h w
      = (r, set_bytes_written (bytes_written h) h1, w1)
      /\ set_bytes_written (bytes_written h) h1 = h)
  /\ (forall (S : Type) (OST : OStream S) buf len (h h1 : OutputStream)
             (w w1 : World S) r,
      UPX_RSIZE_MAX < 2 ^ 31 -> in_off_t (bytes_written h) ->
      OutputStream_write buf len h w = (r, h1, w1) ->
      OutputStream_rewrite buf len h w
      = (r, set_bytes_written (bytes_written h) h1, w1)).
Proof.
  intros CFG. split.
  - intros K OS opt buf len h h1 w w1 r Hmax Hs Hb Hw.
    pose proof (OutputFile_write_handle buf len h h1 w w1 r Hw) as Hh.
    unfold OutputFile_rewrite. run. rewrite Hs. cbn [negb]. rewrite Hw.
    destruct r as [x|[]].
    + subst h1. destruct h; split; reflexivity.
    + destruct Hh as [[-> ->] | (n & Hn & ->)].
      * rewrite Z.sub_0_r, (to_off_t_id _ Hb). destruct h; split; reflexivity.
      * destruct (mem_size_1_unsigned len n Hn) as (-> & Hr).
        rewrite to_int_id by (change (2 ^ 31) with 2147483648 in *; lia).
        cbn [bytes_written set_bytes_written out_base].
        rewrite (to_off_t_restore _ _ _ Hb (to_uint64_congruent len)).
        destruct h; split; reflexivity.
  - intros S OST buf len h h1 w w1 r Hmax Hb Hw.
    pose proof (OutputStream_write_handle buf len h h1 w w1 r Hw) as Hh.
    unfold OutputStream_rewrite. run. rewrite Hw.
    destruct r as [x|[]].
    + subst h1. destruct h; reflexivity.
    + destruct Hh as [[-> ->] | (n & Hn & Hbw)].
      * rewrite Z.sub_0_r, (to_off_t_id _ Hb). destruct h; reflexivity.
      * destruct (mem_size_1_unsigned len n Hn) as (-> & Hr).
        rewrite to_int_id in Hbw by (change (2 ^ 31) with 2147483648 in *; lia).
        rewrite Hbw, (to_off_t_restore _ _ _ Hb (to_uint64_congruent len)).
        reflexivity.
Qed.

(** C5 on the new file "out": [rewrite] of three bytes stores them as
    [write] does and leaves [bytes_written] at 0; on the stream-backed
    write handle [rewrite] leaves [bytes_written] at 5. *)
Lemma C5_witness :
  UPX_RSIZE_MAX (Config := Sample.cfg) < 2 ^ 31
  /\ to_stdout Sample.opt_file = false
  /\ in_off_t (bytes_written Sample.out_h)
  /\ OutputFile_rewrite (CFG := Sample.cfg) Sample.opt_file (Some [x11; x22; x33]) 3
       Sample.out_h Sample.out_w
     = (inr tt,
        set_bytes_written (bytes_written Sample.out_h)
          (snd (fst (OutputFile_write (CFG := Sample.cfg) (Some [x11; x22; x33]) 3
                       Sample.out_h Sample.out_w))),
        snd (OutputFile_write (CFG := Sample.cfg) (Some [x11; x22; x33]) 3
               Sample.out_h Sample.out_w))
  /\ Ram.files (backend (snd (OutputFile_rewrite (CFG := Sample.cfg) Sample.opt_file
                                (Some [x11; x22; x33]) 3 Sample.out_h Sample.out_w)))
     = [("five", [x11; x22; x33; x44; x55]); ("out", [x11; x22; x33])]
  /\ in_off_t (bytes_written Sample.os_h)
  /\ OutputStream_rewrite (CFG := Sample.cfg) (Some [x11; x22; x33]) 3
       Sample.os_h Sample.stream0
     = (inr tt,
        set_bytes_written 5
          (snd (fst (OutputStream_write (CFG := Sample.cfg) (Some [x11; x22; x33]) 3
                       Sample.os_h Sample.stream0))),
        snd (OutputStream_write (CFG := Sample.cfg) (Some [x11; x22; x33]) 3
               Sample.os_h Sample.stream0)).
Proof.
  assert (H1 : UPX_RSIZE_MAX (Config := Sample.cfg) < 2 ^ 31) by reflexivity.
  assert (H2 : to_stdout Sample.opt_file = false) by reflexivity.
  assert (H3 : in_off_t (bytes_written Sample.out_h)) by by_eval.
  assert (H4 : in_off_t (bytes_written Sample.os_h)) by by_eval.
  assert (H5 : Ram.files (backend (snd (OutputFile_rewrite (CFG := Sample.cfg)
                 Sample.opt_file (Some [x11; x22; x33]) 3 Sample.out_h Sample.out_w)))
     = [("five", [x11; x22; x33; x44; x55]); ("out", [x11; x22; x33])])
    by (vm_compute; reflexivity).
  refine (conj H1 (conj H2 (conj H3 (conj _ (conj H5 (conj H4 _)))))).
  - exact (proj1 (proj1 (C5_rewrite_keeps_bytes_written Sample.cfg) Ram.disk Ram.posix
                    Sample.opt_file (Some [x11; x22; x33]) 3 Sample.out_h _
                    Sample.out_w _ (inr tt) H1 H2 H3 eq_refl)).
  - exact (proj2 (C5_rewrite_keeps_bytes_written Sample.cfg) Mem.stream Mem.ostream
             (Some [x11; x22; x33]) 3 Sample.os_h _ Sample.stream0 _ (inr tt)
             H1 H4 eq_refl).
Defined.

(** ** C6: the bookkeeping of a seek on a write handle *)

Lemma seek_bookkeeping_done (off whence : Z) (h : OutputFile) :
  bookkeeping_done off whence h (seek_bookkeeping off whence h).
Proof.
  unfold bookkeeping_done, seek_bookkeeping. repeat apply conj.
  - intros -> Hlt. apply Z.ltb_lt in Hlt. cbn [Z.eqb SEEK_SET]. rewrite Hlt.
    split; reflexivity.
  - intros -> Hge. apply Z.ltb_ge in Hge. cbn [Z.eqb SEEK_SET]. rewrite Hge.
    split; reflexivity.
  - intros ->. split; reflexivity.
Qed.



(** ** C7: failures of open *)

Section OpenProperties.
Context `{CFG : Config} {K : Type} `{OS : Posix K}.

(** do_sopen without a share mode: open, then fstat. *)
Lemma FileBase_do_sopen_eq (h : FileBase) (w : World K) :
  _shflags h < 0 ->
  FileBase_do_sopen h w =
  let '(fd, w1) := sys_open (_name h) (_flags h) (_mode h) w in
  if fd <? 0 then (inr false, set_fd fd h, w1)
  else
    let '(r, w2) := sys_fstat fd w1 in
    if fst r =? 0
    then (inr true, set_length (snd r) (set_st (mkStat (snd r)) (set_fd fd h)), w2)
    else (inl (IOException (_name h) (errno w2)),
          set_st (mkStat (snd r)) (set_fd fd h), w2).
Proof.
  intros Hsh. unfold FileBase_do_sopen. run.
  apply Z.ltb_lt in Hsh. rewrite Hsh.
  destruct (sys_open _ _ _ w) as [fd w1].
  destruct (fd <? 0); [reflexivity|].
  destruct (sys_fstat fd w1) as [r w2].
  destruct (fst r =? 0); reflexivity.
Qed.

Lemma InputFile_sopen_eq (name : option string) (flags shflags : Z)
      (h : InputFile) (w : World K) :
  InputFile_sopen name flags shflags h w =
  match FileBase_closex (in_base h) w with
  | (inl x, b, w0) => (inl x, mkInputFile b (_length_orig h), w0)
  | (inr _, b, w0) =>
      match FileBase_do_sopen (reset_for_open name flags shflags 0 b) w0 with
      | (inl x, b1, w1) => (inl x, mkInputFile b1 (_length_orig h), w1)
      | (inr true, b1, w1) => (inr tt, mkInputFile b1 (_length b1), w1)
      | (inr false, b1, w1) =>
          (inl (if errno w1 =? ENOENT then FileNotFoundException name (errno w1)
                else if errno w1 =? EEXIST
                     then FileAlreadyExistsException name (errno w1)
                     else IOException name (errno w1)),
           mkInputFile b1 (_length_orig h), w1)
      end
  end.
Proof.
  unfold InputFile_sopen, in_super, reset_for_open. run.
  destruct (FileBase_closex (in_base h) w) as [[[x|u] b] w0]; [reflexivity|].
  cbn [in_base _length_orig].
  destruct (FileBase_do_sopen _ w0) as [[[x|[|]] b1] w1]; cbn; try reflexivity.
  destruct (errno w1 =? ENOENT); [reflexivity|].
  destruct (errno w1 =? EEXIST); reflexivity.
Qed.

Lemma OutputFile_sopen_eq (name : option string) (flags shflags mode : Z)
      (h : OutputFile) (w : World K) :
  OutputFile_sopen name flags shflags mode h w =
  match FileBase_closex (out_base h) w with
  | (inl x, b, w0) => (inl x, mkOutputFile b (bytes_written h), w0)
  | (inr _, b, w0) =>
      match FileBase_do_sopen (reset_for_open name flags shflags mode b) w0 with
      | (inl x, b1, w1) => (inl x, mkOutputFile b1 (bytes_written h), w1)
      | (inr true, b1, w1) => (inr tt, mkOutputFile b1 (bytes_written h), w1)
      | (inr false, b1, w1) =>
          (inl (if errno w1 =? EEXIST
                then FileAlreadyExistsException name (errno w1)
                else IOException name (errno w1)),
           mkOutputFile b1 (bytes_written h), w1)
      end
  end.
Proof.
  unfold OutputFile_sopen, out_super, reset_for_open. run.
  destruct (FileBase_closex (out_base h) w) as [[[x|u] b] w0]; [reflexivity|].
  cbn [out_base bytes_written].
  destruct (FileBase_do_sopen _ w0) as [[[x|[|]] b1] w1]; cbn; try reflexivity.
  destruct (errno w1 =? EEXIST); reflexivity.
Qed.

(** Closing a handle that is not open does nothing to the world. *)
Lemma FileBase_closex_closed (h : FileBase) (w : World K) :
  isOpen h = false ->
  exists b, FileBase_closex h w = (inr tt, b, w).
Proof.
  intros Hc. unfold FileBase_closex, FileBase_close_noexcept. run.
  rewrite Hc. cbn. eexists. reflexivity.
Qed.

End OpenProperties.

Section OpenCalls.
Context `{CFG : Config} {K : Type} `{OS : Posix K}.

(** do_sopen in general: the call of the open primitive, if the build
    has one for the share flags, then fstat. *)
Lemma FileBase_do_sopen_call (h : FileBase) (w : World K) :
  FileBase_do_sopen h w =
  match open_call (_name h) (_flags h) (_shflags h) (_mode h) with
  | None => (inl (InternalError "bad usage of do_sopen()"), h, w)
  | Some p =>
      let '(fd, w1) := p w in
      if fd <? 0 then (inr false, set_fd fd h, w1)
      else
        let '(r, w2) := sys_fstat fd w1 in
        if fst r =? 0
        then (inr true, set_length (snd r) (set_st (mkStat (snd r)) (set_fd fd h)), w2)
        else (inl (IOException (_name h) (errno w2)),
              set_st (mkStat (snd r)) (set_fd fd h), w2)
  end.
Proof.
  unfold FileBase_do_sopen, open_call. run.
  destruct (_shflags h <? 0).
  - destruct (sys_open _ _ _ w) as [fd w1].
    destruct (fd <? 0); [reflexivity|].
    destruct (sys_fstat fd w1) as [r w2].
    destruct (fst r =? 0); reflexivity.
  - destruct share_support.
    + destruct (sys_open _ _ _ w) as [fd w1].
      destruct (fd <? 0); [reflexivity|].
      destruct (sys_fstat fd w1) as [r w2].
      destruct (fst r =? 0); reflexivity.
    + destruct (sys_open _ _ _ w) as [fd w1].
      destruct (fd <? 0); [reflexivity|].
      destruct (sys_fstat fd w1) as [r w2].
      destruct (fst r =? 0); reflexivity.
    + destruct (sys_sopen _ _ _ _ w) as [fd w1].
      destruct (fd <? 0); [reflexivity|].
      destruct (sys_fstat fd w1) as [r w2].
      destruct (fst r =? 0); reflexivity.
    + reflexivity.
Qed.

(** The call for the handle that sopen has prepared. *)
Lemma open_call_reset (name : option string) (flags shflags mode : Z) (b : FileBase) :
  open_call (_name (reset_for_open name flags shflags mode b))
            (_flags (reset_for_open name flags shflags mode b))
            (_shflags (reset_for_open name flags shflags mode b))
            (_mode (reset_for_open name flags shflags mode b))
  = open_call name flags shflags mode.
Proof. reflexivity. Qed.

(** The read handle when the open call fails. *)
Lemma InputFile_sopen_refused (name : option string) (flags shflags : Z)
      (h : InputFile) (w w0 w1 : World K) (b : FileBase) (fd : Z)
      (p : World K -> Z * World K) :
  FileBase_closex (in_base h) w = (inr tt, b, w0) ->
  open_call name flags shflags 0 = Some p -> p w0 = (fd, w1) -> fd < 0 ->
  fst (fst (InputFile_sopen name flags shflags h w))
  = inl (if errno w1 =? ENOENT then FileNotFoundException name (errno w1)
         else if errno w1 =? EEXIST then FileAlreadyExistsException name (errno w1)
              else IOException name (errno w1)).
Proof.
  intros Hc Hp Ho Hfd.
  rewrite InputFile_sopen_eq, Hc, FileBase_do_sopen_call, open_call_reset, Hp, Ho.
  apply Z.ltb_lt in Hfd. rewrite Hfd. reflexivity.
Qed.

(** The write handle when the open call fails. *)
Lemma OutputFile_sopen_refused (name : option string) (flags shflags mode : Z)
      (h : OutputFile) (w w0 w1 : World K) (b : FileBase) (fd : Z)
      (p : World K -> Z * World K) :
  FileBase_closex (out_base h) w = (inr tt, b, w0) ->
  open_call name flags shflags mode = Some p -> p w0 = (fd, w1) -> fd < 0 ->
  fst (fst (OutputFile_sopen name flags shflags mode h w))
  = inl (if errno w1 =? EEXIST then FileAlreadyExistsException name (errno w1)
         else IOException name (errno w1)).
Proof.
  intros Hc Hp Ho Hfd.
  rewrite OutputFile_sopen_eq, Hc, FileBase_do_sopen_call, open_call_reset, Hp, Ho.
  apply Z.ltb_lt in Hfd. rewrite Hfd. reflexivity.
Qed.

End OpenCalls.

(** C7, as stated, fails on the code.  A read-only open of the absent
    target "none" through the write handle raises a plain IOError with
    ENOENT, not NotFoundError (the ENOENT case of OutputFile::sopen is
    disabled).  On a build without share-mode support, an open of the
    existing file "five" with a share mode (0) raises InternalError, not
    an IOError (do_sopen refuses the share flags before any call). *)
Lemma C7_counterexample :
  fst (fst (OutputFile_sopen (CFG := Sample.cfg) (Some "none") Ram.O_RDONLY (-1) 0
              OutputFile_closed Sample.disk0))
  = inl (IOException (Some "none") ENOENT)
  /\ (forall name e,
        fst (fst (OutputFile_sopen (CFG := Sample.cfg) (Some "none") Ram.O_RDONLY (-1) 0
                    OutputFile_closed Sample.disk0))
        <> inl (FileNotFoundException name e))
  /\ Ram.lookup String.eqb "none" (Ram.files (backend Sample.disk0)) = None
  /\ share_support (Config := Sample.cfg) = ShareUnsupported
  /\ fst (fst (InputFile_sopen (CFG := Sample.cfg) (Some "five") Ram.O_RDONLY 0
                 InputFile_closed Sample.disk0))
     = inl (InternalError "bad usage of do_sopen()")
  /\ (forall name e,
        fst (fst (InputFile_sopen (CFG := Sample.cfg) (Some "five") Ram.O_RDONLY 0
                    InputFile_closed Sample.disk0))
        <> inl (IOException name e)).
Proof.
  repeat apply conj; try (vm_compute; reflexivity);
    intros name e; vm_compute; intros H; discriminate H.
Qed.

(** C7 (amended): once sopen has closed what the handle held, the open
    call it makes (with the share flags as the platform takes them)
    decides.  When that call fails, the read handle raises NotFoundError
    for the error code ENOENT (the target is absent), AlreadyExistsError
    for EEXIST (an exclusive create met an existing target), and
    otherwise an IOError that carries the error code; the write handle
    raises AlreadyExistsError for EEXIST and otherwise, ENOENT included,
    an IOError that carries the error code.  On a build without
    share-mode support an open with a share mode raises InternalError on
    either handle.  On the RAM disk, for a file name of its directory: a
    read-only open of an absent target raises NotFoundError through the
    read handle and an IOError with ENOENT through the write handle, and
    an exclusive create of an existing target raises AlreadyExistsError
    through either handle. *)
Theorem C7_open_failures :
  forall (CFG : Config) (K : Type) (OS : Posix K),
  (forall name flags shflags (h : InputFile) (w w0 w1 : World K) b fd p,
      FileBase_closex (in_base h) w = (inr tt, b, w0) ->
      open_call name flags shflags 0 = Some p ->
      p w0 = (fd, w1) -> fd < 0 ->
      (errno w1 = ENOENT ->
       fst (fst (InputFile_sopen name flags shflags h w))
       = inl (FileNotFoundException name ENOENT))
      /\ (errno w1 = EEXIST ->
          fst (fst (InputFile_sopen name flags shflags h w))
          = inl (FileAlreadyExistsException name EEXIST))
      /\ (errno w1 <> ENOENT -> errno w1 <> EEXIST ->
          fst (fst (InputFile_sopen name flags shflags h w))
          = inl (IOException name (errno w1))))
  /\ (forall name flags shflags mode (h : OutputFile) (w w0 w1 : World K) b fd p,
      FileBase_closex (out_base h) w = (inr tt, b, w0) ->
      open_call name flags shflags mode = Some p ->
      p w0 = (fd, w1) -> fd < 0 ->
      (errno w1 = EEXIST ->
       fst (fst (OutputFile_sopen name flags shflags mode h w))
       = inl (FileAlreadyExistsException name EEXIST))
      /\ (errno w1 <> EEXIST ->
          fst (fst (OutputFile_sopen name flags shflags mode h w))
          = inl (IOException name (errno w1))))
  /\ (forall name flags shflags mode (hi : InputFile) (ho : OutputFile)
             (w wi wo : World K) bi bo,
      share_support = ShareUnsupported -> 0 <= shflags ->
      (FileBase_closex (in_base hi) w = (inr tt, bi, wi) ->
       fst (fst (InputFile_sopen name flags shflags hi w))
       = inl (InternalError "bad usage of do_sopen()"))
      /\ (FileBase_closex (out_base ho) w = (inr tt, bo, wo) ->
          fst (fst (OutputFile_sopen name flags shflags mode ho w))
          = inl (InternalError "bad usage of do_sopen()")))
  /\ (forall n flags mode (w : World Ram.disk),
      Ram.plain n = true ->
      Ram.lookup String.eqb n (Ram.files (backend w)) = None ->
      Ram.has Ram.O_CREAT flags = false ->
      fst (fst (InputFile_sopen (Some n) flags (-1) InputFile_closed w))
      = inl (FileNotFoundException (Some n) ENOENT)
      /\ fst (fst (OutputFile_sopen (Some n) flags (-1) mode OutputFile_closed w))
         = inl (IOException (Some n) ENOENT))
  /\ (forall n flags mode data (w : World Ram.disk),
      Ram.plain n = true ->
      Ram.lookup String.eqb n (Ram.files (backend w)) = Some data ->
      Ram.has Ram.O_CREAT flags = true -> Ram.has Ram.O_EXCL flags = true ->
      fst (fst (InputFile_sopen (Some n) flags (-1) InputFile_closed w))
      = inl (FileAlreadyExistsException (Some n) EEXIST)
      /\ fst (fst (OutputFile_sopen (Some n) flags (-1) mode OutputFile_closed w))
         = inl (FileAlreadyExistsException (Some n) EEXIST)).
Proof.
  intros CFG K OS. repeat apply conj.
  - intros name flags shflags h w w0 w1 b fd p Hc Hp Ho Hfd.
    rewrite (InputFile_sopen_refused name flags shflags h w w0 w1 b fd p Hc Hp Ho Hfd).
    repeat apply conj.
    + intros ->. reflexivity.
    + intros ->. reflexivity.
    + intros H1 H2. apply Z.eqb_neq in H1, H2. now rewrite H1, H2.
  - intros name flags shflags mode h w w0 w1 b fd p Hc Hp Ho Hfd.
    rewrite (OutputFile_sopen_refused name flags shflags mode h w w0 w1 b fd p
               Hc Hp Ho Hfd).
    split.
    + intros ->. reflexivity.
    + intros H1. apply Z.eqb_neq in H1. now rewrite H1.
  - intros name flags shflags mode hi ho w wi wo bi bo Hs Hsh.
    assert (Hnone : forall m, open_call (K := K) name flags shflags m = None).
    { intros m. unfold open_call. rewrite Hs.
      replace (shflags <? 0) with false by (symmetry; apply Z.ltb_ge; exact Hsh).
      reflexivity. }
    split; intros Hc.
    + rewrite InputFile_sopen_eq, Hc, FileBase_do_sopen_call, open_call_reset, Hnone.
      reflexivity.
    + rewrite OutputFile_sopen_eq, Hc, FileBase_do_sopen_call, open_call_reset, Hnone.
      reflexivity.
  - intros n flags mode w Hplain Hfile Hcreat.
    assert (Ho : Ram.open (Some n) flags 0 w = (-1, mkWorld ENOENT (backend w))
                 /\ Ram.open (Some n) flags mode w = (-1, mkWorld ENOENT (backend w))).
    { unfold Ram.open. rewrite Hplain, Hfile, Hcreat. split; reflexivity. }
    destruct Ho as [Ho1 Ho2]. split.
    + destruct (FileBase_closex_closed (in_base InputFile_closed) w eq_refl)
        as [b Hc].
      rewrite (InputFile_sopen_refused (Some n) flags (-1) InputFile_closed w w _ b
                 (-1) _ Hc eq_refl Ho1 eq_refl).
      reflexivity.
    + destruct (FileBase_closex_closed (out_base OutputFile_closed) w eq_refl)
        as [b Hc].
      rewrite (OutputFile_sopen_refused (Some n) flags (-1) mode OutputFile_closed w w
                 _ b (-1) _ Hc eq_refl Ho2 eq_refl).
      reflexivity.
  - intros n flags mode data w Hplain Hfile Hcreat Hexcl.
    assert (Ho : Ram.open (Some n) flags 0 w = (-1, mkWorld EEXIST (backend w))
                 /\ Ram.open (Some n) flags mode w = (-1, mkWorld EEXIST (backend w))).
    { unfold Ram.open. rewrite Hplain, Hfile, Hcreat, Hexcl. split; reflexivity. }
    destruct Ho as [Ho1 Ho2]. split.
    + destruct (FileBase_closex_closed (in_base InputFile_closed) w eq_refl)
        as [b Hc].
      rewrite (InputFile_sopen_refused (Some n) flags (-1) InputFile_closed w w _ b
                 (-1) _ Hc eq_refl Ho1 eq_refl).
      reflexivity.
    + destruct (FileBase_closex_closed (out_base OutputFile_closed) w eq_refl)
        as [b Hc].
      rewrite (OutputFile_sopen_refused (Some n) flags (-1) mode OutputFile_closed w w
                 _ b (-1) _ Hc eq_refl Ho2 eq_refl).
      reflexivity.
Qed.

(** C7 on the RAM disk that holds only "five": a read-only open of
    "none" raises NotFoundError through the read handle (stated on the
    disk, and through the error code of the failed open) and an IOError
    with ENOENT through the write handle; an exclusive create of "five"
    raises AlreadyExistsError; with the share mode 0, on this build
    without share-mode support, the open of "five" raises
    InternalError. *)
Lemma C7_witness :
  (Ram.plain "none" = true
   /\ Ram.lookup String.eqb "none" (Ram.files (backend Sample.disk0)) = None
   /\ Ram.has Ram.O_CREAT Ram.O_RDONLY = false
   /\ fst (fst (InputFile_sopen (CFG := Sample.cfg) (Some "none") Ram.O_RDONLY (-1)
                  InputFile_closed Sample.disk0))
      = inl (FileNotFoundException (Some "none") ENOENT)
   /\ fst (fst (OutputFile_sopen (CFG := Sample.cfg) (Some "none") Ram.O_RDONLY (-1)
                  384 OutputFile_closed Sample.disk0))
      = inl (IOException (Some "none") ENOENT))
  /\ (FileBase_closex (in_base InputFile_closed) Sample.disk0
      = (inr tt, FileBase_closed, Sample.disk0)
      /\ open_call (CFG := Sample.cfg) (Some "none") Ram.O_RDONLY (-1) 0
         = Some (sys_open (Some "none") Ram.O_RDONLY 0)
      /\ sys_open (Some "none") Ram.O_RDONLY 0 Sample.disk0
         = (-1, mkWorld ENOENT (backend Sample.disk0))
      /\ -1 < 0
      /\ errno (mkWorld ENOENT (backend Sample.disk0)) = ENOENT
      /\ fst (fst (InputFile_sopen (CFG := Sample.cfg) (Some "none") Ram.O_RDONLY (-1)
                     InputFile_closed Sample.disk0))
         = inl (FileNotFoundException (Some "none") ENOENT))
  /\ (Ram.plain "five" = true
      /\ Ram.lookup String.eqb "five" (Ram.files (backend Sample.disk0))
         = Some [x11; x22; x33; x44; x55]
      /\ Ram.has Ram.O_CREAT 193 = true /\ Ram.has Ram.O_EXCL 193 = true
      /\ fst (fst (OutputFile_sopen (CFG := Sample.cfg) (Some "five") 193 (-1) 384
                     OutputFile_closed Sample.disk0))
         = inl (FileAlreadyExistsException (Some "five") EEXIST))
  /\ (share_support (Config := Sample.cfg) = ShareUnsupported
      /\ 0 <= 0
      /\ fst (fst (InputFile_sopen (CFG := Sample.cfg) (Some "five") Ram.O_RDONLY 0
                     InputFile_closed Sample.disk0))
         = inl (InternalError "bad usage of do_sopen()")).
Proof.
  assert (Hc : FileBase_closex (in_base InputFile_closed) Sample.disk0
               = (inr tt, FileBase_closed, Sample.disk0)) by reflexivity.
  assert (Hco : FileBase_closex (out_base OutputFile_closed) Sample.disk0
                = (inr tt, FileBase_closed, Sample.disk0)) by reflexivity.
  assert (Hneg : -1 < 0) by reflexivity.
  assert (Hp : open_call (CFG := Sample.cfg) (Some "none") Ram.O_RDONLY (-1) 0
               = Some (sys_open (Some "none") Ram.O_RDONLY 0)) by reflexivity.
  assert (Ho : sys_open (Some "none") Ram.O_RDONLY 0 Sample.disk0
               = (-1, mkWorld ENOENT (backend Sample.disk0))) by reflexivity.
  assert (Hs : share_support (Config := Sample.cfg) = ShareUnsupported) by reflexivity.
  assert (H0 : 0 <= 0) by (intros E; discriminate E).
  refine (conj (conj eq_refl (conj eq_refl (conj eq_refl _)))
            (conj (conj Hc (conj Hp (conj Ho (conj Hneg (conj eq_refl _)))))
               (conj (conj eq_refl (conj eq_refl (conj eq_refl (conj eq_refl _))))
                  (conj Hs (conj H0 _))))).
  - exact (proj1 (proj2 (proj2 (proj2 (C7_open_failures Sample.cfg Ram.disk
                                         Ram.posix))))
             "none" Ram.O_RDONLY 384 Sample.disk0 eq_refl eq_refl eq_refl).
  - exact (proj1 (proj1 (C7_open_failures Sample.cfg Ram.disk Ram.posix)
                    (Some "none") Ram.O_RDONLY (-1) InputFile_closed Sample.disk0
                    Sample.disk0 _ FileBase_closed (-1) _ Hc Hp Ho Hneg) eq_refl).
  - exact (proj2 (proj2 (proj2 (proj2 (proj2 (C7_open_failures Sample.cfg Ram.disk
                                                Ram.posix))))
                    "five" 193 384 [x11; x22; x33; x44; x55] Sample.disk0
                    eq_refl eq_refl eq_refl eq_refl)).
  - exact (proj1 (proj1 (proj2 (proj2 (C7_open_failures Sample.cfg Ram.disk
                                         Ram.posix)))
                    (Some "five") Ram.O_RDONLY 0 0 InputFile_closed OutputFile_closed
                    Sample.disk0 Sample.disk0 Sample.disk0 FileBase_closed
                    FileBase_closed Hs H0) Hc).
Defined.

(** ** C8: the bound on the seeks of the read handles *)

(** C8: for every read handle the seek checks, after the seek itself,
    that the resulting position does not exceed the window length: a
    seek that returns a position returns one that is at most [length],
    and a seek that lands beyond [length] raises an IOError.  (The
    stream-backed handle makes the check for a window length >= 0, as the
    data model has it; with a window offset >= 0 the position minus the
    offset is then within [length] as well.) *)
Theorem C8_read_seek_checked :
  forall (CFG : Config),
  (forall (K : Type) (OS : Posix K) off whence (h : InputFile) (w : World K),
      (forall r h' w',
          InputFile_seek off whence h w = (inr r, h', w') ->
          r <= _length (in_base h) /\ h' = h)
      /\ (forall pos b w',
             FileBase_seek off whence (in_base h) w = (inr pos, b, w') ->
             _length (in_base h) < pos ->
             InputFile_seek off whence h w
             = (inl (IOException (Some "bad seek 4") 0), h, w')))
  /\ (forall (S : Type) (IS : IStream S) off whence (h : InputStream) (w : World S),
      0 <= _length (in_base h) < 2 ^ 63 ->
      (forall r h' w',
          InputStream_seek off whence h w = (inr r, h', w') ->
          r <= _length (in_base h) /\ h' = h
          /\ (0 <= _offset (in_base h) ->
              r - _offset (in_base h) <= _length (in_base h)))
      /\ (forall dir p s2,
             dir_of whence = Some dir ->
             i_fail (i_seekg off dir (i_clear (backend w))) = false ->
             i_tellg (i_seekg off dir (i_clear (backend w))) = (p, s2) ->
             _length (in_base h) < p ->
             InputStream_seek off whence h w
             = (inl (IOException (Some "seek beyond end of stream") EINVAL), h,
                mkWorld EINVAL s2))).
Proof.
  intros CFG. split.
  - intros K OS off whence h w.
    pose proof (FileBase_seek_frame off whence (in_base h) w) as F. split.
    + intros r h' w' H. rewrite InputFile_seek_eq in H.
      destruct (FileBase_seek _ _ _ w) as [[[x|pos] b] w1]; [discriminate H|].
      cbn in F. subst b.
      destruct (_length (in_base h) <? pos) eqn:E; [discriminate H|].
      apply Z.ltb_ge in E. inversion H; subst. split; [exact E|].
      destruct h; reflexivity.
    + intros pos b w' H Hlt. rewrite InputFile_seek_eq. rewrite H in *.
      cbn in F. subst b. apply Z.ltb_lt in Hlt. rewrite Hlt.
      destruct h; reflexivity.
  - intros S IS off whence h w Hlen. split.
    + intros r h' w' H. rewrite InputStream_seek_eq in H.
      destruct (dir_of whence); [|discriminate H]. cbv zeta in H.
      destruct (i_fail _); [discriminate H|].
      destruct (i_tellg _) as [p s2].
      destruct (p <? 0) eqn:Ep; [discriminate H|]. apply Z.ltb_ge in Ep.
      replace (0 <=? _length (in_base h)) with true in H
        by (symmetry; apply Z.leb_le; lia).
      cbn [andb] in H.
      destruct (_length (in_base h) <? p) eqn:E; [discriminate H|].
      apply Z.ltb_ge in E. inversion H; subst.
      rewrite to_off_t_id by off_lia.
      split; [exact E|]. split; [reflexivity|]. intros Ho. lia.
    + intros dir p s2 Hdir Hfail Htell Hlt. rewrite InputStream_seek_eq, Hdir.
      cbv zeta. rewrite Hfail, Htell.
      replace (p <? 0) with false by (symmetry; apply Z.ltb_ge; lia).
      replace (0 <=? _length (in_base h)) with true
        by (symmetry; apply Z.leb_le; lia).
      apply Z.ltb_lt in Hlt. rewrite Hlt. reflexivity.
Qed.

(** C8 on "five" with the window (offset 2, length 1): the base seek
    FROM_START to 2 lands at position 2 > 1 and the read handle raises.
    On the five-byte stream with the window length 1: the stream seek
    to 2 lands at 2 > 1 and the read handle raises. *)
Lemma C8_witness :
  (FileBase_seek (CFG := Sample.cfg) 2 SEEK_SET (in_base Sample.in_h21) Sample.in_w
   = (inr 2, in_base Sample.in_h21,
      snd (FileBase_seek (CFG := Sample.cfg) 2 SEEK_SET (in_base Sample.in_h21)
             Sample.in_w))
   /\ _length (in_base Sample.in_h21) < 2
   /\ InputFile_seek (CFG := Sample.cfg) 2 SEEK_SET Sample.in_h21 Sample.in_w
      = (inl (IOException (Some "bad seek 4") 0), Sample.in_h21,
         snd (FileBase_seek (CFG := Sample.cfg) 2 SEEK_SET (in_base Sample.in_h21)
                Sample.in_w)))
  /\ (0 <= _length (in_base Sample.is_h21) < 2 ^ 63
      /\ dir_of SEEK_SET = Some ios_beg
      /\ i_fail (i_seekg 2 ios_beg (i_clear (backend Sample.stream0))) = false
      /\ i_tellg (i_seekg 2 ios_beg (i_clear (backend Sample.stream0)))
         = (2, snd (i_tellg (i_seekg 2 ios_beg (i_clear (backend Sample.stream0)))))
      /\ _length (in_base Sample.is_h21) < 2
      /\ InputStream_seek 2 SEEK_SET Sample.is_h21 Sample.stream0
         = (inl (IOException (Some "seek beyond end of stream") EINVAL),
            Sample.is_h21,
            mkWorld EINVAL
              (snd (i_tellg (i_seekg 2 ios_beg (i_clear (backend Sample.stream0))))))).
Proof.
  assert (Hrun : FileBase_seek (CFG := Sample.cfg) 2 SEEK_SET
                   (in_base Sample.in_h21) Sample.in_w
    = (inr 2, in_base Sample.in_h21,
       snd (FileBase_seek (CFG := Sample.cfg) 2 SEEK_SET (in_base Sample.in_h21)
              Sample.in_w))) by (vm_compute; reflexivity).
  assert (Hlt : _length (in_base Sample.in_h21) < 2) by reflexivity.
  assert (H1 : 0 <= _length (in_base Sample.is_h21) < 2 ^ 63) by by_eval.
  assert (H2 : i_fail (i_seekg 2 ios_beg (i_clear (backend Sample.stream0))) = false)
    by reflexivity.
  assert (H3 : i_tellg (i_seekg 2 ios_beg (i_clear (backend Sample.stream0)))
         = (2, snd (i_tellg (i_seekg 2 ios_beg (i_clear (backend Sample.stream0))))))
    by reflexivity.
  assert (H4 : _length (in_base Sample.is_h21) < 2) by reflexivity.
  split.
  - refine (conj Hrun (conj Hlt _)).
    exact (proj2 (proj1 (C8_read_seek_checked Sample.cfg) Ram.disk Ram.posix
                    2 SEEK_SET Sample.in_h21 Sample.in_w) 2 _ _ Hrun Hlt).
  - refine (conj H1 (conj eq_refl (conj H2 (conj H3 (conj H4 _))))).
    exact (proj2 (proj2 (C8_read_seek_checked Sample.cfg) Mem.stream Mem.istream
                    2 SEEK_SET Sample.is_h21 Sample.stream0 H1)
             ios_beg 2 _ eq_refl H2 H3 H4).
Defined.

(** ** C9: the size check of the seeks *)

Section SizeCheckOfSeeks.
Context `{CFG : Config}.

(** FileBase::seek (hence InputFile::seek), OutputFile::seek and
    OutputStream::seek reject an offset that fails the size check with
    an IOError, before anything is translated and before any primitive
    is called. *)
Lemma checked_seeks_reject {K : Type} `{OS : Posix K} {S : Type} `{OST : OStream S}
      (opt : options) (off whence : Z) :
  mem_size_valid_bytes (magnitude off) = false ->
  (forall (h : FileBase) (w : World K),
      exists msg, FileBase_seek off whence h w = (inl (IOException msg 0), h, w))
  /\ (forall (h : InputFile) (w : World K),
      exists msg, InputFile_seek off whence h w = (inl (IOException msg 0), h, w))
  /\ (forall (h : OutputFile) (w : World K),
      OutputFile_seek opt off whence h w
      = (inl (IOException (Some "bad seek") 0), h, w))
  /\ (forall (h : OutputStream) (w : World S),
      OutputStream_seek off whence h w
      = (inl (IOException (Some "bad seek") 0), h, w)).
Proof.
  intros Hv. repeat apply conj.
  - intros h w. rewrite FileBase_seek_eq, Hv.
    destruct (negb (isOpen h)); eexists; reflexivity.
  - intros h w. rewrite InputFile_seek_eq, FileBase_seek_eq, Hv.
    destruct (negb (isOpen (in_base h))); eexists; destruct h; reflexivity.
  - intros h w. now rewrite OutputFile_seek_eq, Hv.
  - intros h w. now rewrite OutputStream_seek_eq, Hv.
Qed.

End SizeCheckOfSeeks.

(** InputStream::seek makes no such check: whatever the limit, a stream
    one byte longer than the limit can be sought to its end. *)
Lemma InputStream_seek_beyond_limit (limit : Z) :
  0 <= limit < 2 ^ 62 ->
  let w := mkWorld 0 (Mem.zeros (limit + 1)) in
  let h := snd (fst (InputStream_ctor InputFile_closed w)) in
  mem_size_valid_bytes (H := Ram.config limit) (magnitude (limit + 1)) = false
  /\ fst (fst (InputStream_seek (limit + 1) SEEK_SET h w)) = inr (limit + 1).
Proof.
  intros Hl. change (2 ^ 62) with 4611686018427387904 in Hl. split.
  - unfold mem_size_valid_bytes, magnitude. cbn [UPX_RSIZE_MAX Ram.config].
    replace (0 <=? limit + 1) with true by (symmetry; apply Z.leb_le; lia).
    rewrite to_uint64_id by (change (2 ^ 64) with 18446744073709551616; lia).
    apply Z.leb_gt. lia.
  - rewrite InputStream_seek_eq. cbn [dir_of SEEK_SET Z.eqb]. cbv zeta.
    unfold InputStream_ctor. run.
    cbn [i_clear i_tellg i_seekg i_seekg_pos i_fail Mem.istream backend errno].
    unfold Mem.zeros, Mem.clear, Mem.tellg, Mem.seekg, Mem.seekg_pos, Mem.good,
      Mem.fail, Mem.clear_eof, Mem.seek_to, Mem.base, Mem.set_pos, Mem.set_fail.
    cbn [Mem.size Mem.pos Mem.eofbit Mem.failbit Mem.badbit Mem.at_ Mem.gcount
         Mem.cap negb andb orb Z.eqb fst snd backend errno].
    replace (0 <=? 0 + 0) with true by reflexivity.
    replace (0 + 0 <=? limit + 1) with true by (symmetry; apply Z.leb_le; lia).
    cbn [andb Mem.size Mem.pos Mem.eofbit Mem.failbit Mem.badbit negb orb].
    replace (0 + 0 =? -1) with false by reflexivity.
    cbn [when ret bind].
    repeat (cbn [Mem.size Mem.pos Mem.eofbit Mem.failbit Mem.badbit Mem.at_
                 Mem.gcount Mem.cap negb andb orb fst snd backend errno
                 in_base _length set_length];
            rewrite ?Z.add_0_l, ?Z.add_0_r;
            replace (0 <=? limit + 1) with true by (symmetry; apply Z.leb_le; lia);
            replace (limit + 1 <=? limit + 1) with true
              by (symmetry; apply Z.leb_le; lia);
            replace (0 <=? 0) with true by reflexivity;
            replace (limit + 1 =? -1) with false
              by (symmetry; apply Z.eqb_neq; lia);
            replace (0 =? -1) with false by reflexivity).
    replace (limit + 1 <? 0) with false by (symmetry; apply Z.ltb_ge; lia).
    rewrite (to_off_t_id (limit + 1)) by off_lia.
    replace (0 <=? limit + 1) with true by (symmetry; apply Z.leb_le; lia).
    rewrite Z.ltb_irrefl. cbn [andb fst]. reflexivity.
Qed.

(** C9 fails on InputStream::seek, which applies no size check.  With
    the limit 805306368 and a stream of 805306369 bytes, the offset
    805306369 fails the size check, the descriptor-backed seeks and
    OutputStream::seek reject it with the IOError "bad seek", and
    InputStream::seek performs the seek and returns 805306369 (with or
    without a descriptor in the handle). *)
Theorem C9_InputStream_seek_unchecked :
  let off := 805306369 in
  let w := mkWorld 0 (Mem.zeros off) in
  let hi := snd (fst (InputStream_ctor InputFile_closed w)) in
  let ho := snd (fst (OutputStream_ctor OutputFile_closed w)) in
  mem_size_valid_bytes (H := Sample.cfg) (magnitude off) = false
  /\ fst (fst (FileBase_seek (CFG := Sample.cfg) off SEEK_SET
                 (in_base Sample.in_h) Sample.in_w))
     = inl (IOException (Some "bad seek") 0)
  /\ fst (fst (OutputFile_seek (CFG := Sample.cfg) Sample.opt_file off SEEK_SET
                 Sample.out_h Sample.out_w))
     = inl (IOException (Some "bad seek") 0)
  /\ fst (fst (OutputStream_seek (CFG := Sample.cfg) off SEEK_SET ho w))
     = inl (IOException (Some "bad seek") 0)
  /\ fst (fst (InputStream_seek off SEEK_SET hi w)) = inr off
  /\ fst (fst (InputStream_seek off SEEK_SET
                 (mkInputFile (set_fd 3 (in_base hi)) off) w)) = inr off.
Proof. vm_compute. repeat split; reflexivity. Qed.

(** ** C10: the write handle in write-to-stdout mode *)

(** C10: in write-to-stdout mode the assertion of OutputFile::rewrite
    fails, OutputFile::seek never returns a position (its assertion
    fails as soon as the offset has passed the size check), and
    OutputFile::st_size returns the tracked [bytes_written] without
    touching the descriptor or the world. *)
Theorem C10_stdout_mode :
  forall (CFG : Config) (K : Type) (OS : Posix K) (opt : options)
         (h : OutputFile) (w : World K),
  to_stdout opt = true ->
  (forall buf len,
      OutputFile_rewrite opt buf len h w
      = (inl (AssertionFailed "!opt->to_stdout"), h, w))
  /\ (forall off whence,
         mem_size_valid_bytes (magnitude off) = true ->
         OutputFile_seek opt off whence h w
         = (inl (AssertionFailed "!opt->to_stdout"), h, w))
  /\ (forall off whence r h' w',
         OutputFile_seek opt off whence h w <> (inr r, h', w'))
  /\ OutputFile_st_size opt h w = (inr (bytes_written h), h, w).
Proof.
  intros CFG K OS opt h w Hs. repeat apply conj.
  - intros buf len. unfold OutputFile_rewrite. run. now rewrite Hs.
  - intros off whence Hv. now rewrite OutputFile_seek_eq, Hv, Hs.
  - intros off whence r h' w'. rewrite OutputFile_seek_eq, Hs.
    destruct (negb _); intros H; discriminate H.
  - unfold OutputFile_st_size. run. now rewrite Hs.
Qed.

(** C10 on the handle bound to descriptor 1 by [openStdout], after three
    bytes were written: [st_size] is 3, [rewrite] and [seek] fail their
    assertion. *)
Lemma C10_witness :
  to_stdout Sample.opt_stdout = true
  /\ _fd (out_base Sample.stdout_h) = STDOUT_FILENO
  /\ OutputFile_st_size Sample.opt_stdout Sample.stdout_h Sample.stdout_w
     = (inr 3, Sample.stdout_h, Sample.stdout_w)
  /\ OutputFile_rewrite (CFG := Sample.cfg) Sample.opt_stdout (Some [x11]) 1
       Sample.stdout_h Sample.stdout_w
     = (inl (AssertionFailed "!opt->to_stdout"), Sample.stdout_h, Sample.stdout_w).
Proof.
  assert (Hs : to_stdout Sample.opt_stdout = true) by reflexivity.
  refine (conj Hs (conj eq_refl (conj _ _))).
  - exact (proj2 (proj2 (proj2 (C10_stdout_mode Sample.cfg Ram.disk Ram.posix
                                  Sample.opt_stdout Sample.stdout_h
                                  Sample.stdout_w Hs)))).
  - exact (proj1 (C10_stdout_mode Sample.cfg Ram.disk Ram.posix
                    Sample.opt_stdout Sample.stdout_h Sample.stdout_w Hs)
             (Some [x11]) 1).
Defined.

(** * Further properties of file.cpp *)

(** ** Closing and destruction *)

Section CloseProperties.
Context {K : Type} `{OS : Posix K}.

Lemma FileBase_close_noexcept_eq (h : FileBase) (w : World K) :
  FileBase_close_noexcept h w =
  if owns_descriptor h
  then let '(r, w') := sys_close (_fd h) w in (inr (negb (r =? -1)), after_close h, w')
  else (inr true, after_close h, w).
Proof.
  unfold FileBase_close_noexcept, owns_descriptor, after_close. run.
  destruct (isOpen h && negb (_fd h =? STDIN_FILENO)
            && negb (_fd h =? STDOUT_FILENO) && negb (_fd h =? STDERR_FILENO)).
  - destruct (sys_close (_fd h) w) as [r w']. reflexivity.
  - reflexivity.
Qed.

Lemma FileBase_closex_eq (h : FileBase) (w : World K) :
  FileBase_closex h w =
  if owns_descriptor h
  then let '(r, w') := sys_close (_fd h) w in
       if r =? -1
       then (inl (IOException (Some "close failed") (errno w')), after_close h, w')
       else (inr tt, after_close h, w')
  else (inr tt, after_close h, w).
Proof.
  unfold FileBase_closex. run. rewrite FileBase_close_noexcept_eq.
  destruct (owns_descriptor h); [|reflexivity].
  destruct (sys_close (_fd h) w) as [r w']. destruct (r =? -1); reflexivity.
Qed.

Lemma owns_descriptor_after_close (h : FileBase) :
  owns_descriptor (after_close h) = false.
Proof. reflexivity. Qed.

End CloseProperties.

(** X1: close_noexcept never raises and always leaves the handle in the
    closed state (descriptor -1, no name, flags, mode, offset and length
    0), also when the close primitive fails.  It calls the close
    primitive, once, only for an open handle whose descriptor is none of
    stdin, stdout, stderr, and reports failure exactly when that call
    returns -1; otherwise the world is untouched. *)
Theorem X1_close_noexcept_resets :
  forall (K : Type) (OS : Posix K) (h : FileBase) (w : World K),
  exists ok w',
    FileBase_close_noexcept h w = (inr ok, after_close h, w')
    /\ isOpen (after_close h) = false
    /\ (if owns_descriptor h
        then w' = snd (sys_close (_fd h) w)
             /\ ok = negb (fst (sys_close (_fd h) w) =? -1)
        else w' = w /\ ok = true).
Proof.
  intros K OS h w. rewrite FileBase_close_noexcept_eq.
  destruct (owns_descriptor h).
  - destruct (sys_close (_fd h) w) as [r w']. eexists _, _. repeat split.
  - eexists _, _. repeat split.
Qed.

(** X2: closing is idempotent.  After a close, whether it was
    close_noexcept or closex and whether it succeeded or raised "close
    failed", the handle holds no descriptor: a further closex succeeds
    and changes neither the handle nor the world, so a descriptor is
    never closed twice. *)
Theorem X2_close_twice :
  forall (K : Type) (OS : Posix K) (h : FileBase) (w : World K),
  (forall w2,
      FileBase_closex (snd (fst (FileBase_close_noexcept h w))) w2
      = (inr tt, snd (fst (FileBase_close_noexcept h w)), w2))
  /\ (forall w2,
         FileBase_closex (snd (fst (FileBase_closex h w))) w2
         = (inr tt, snd (fst (FileBase_closex h w)), w2))
  /\ snd (fst (FileBase_closex h w)) = after_close h.
Proof.
  intros K OS h w.
  assert (E1 : snd (fst (FileBase_close_noexcept h w)) = after_close h).
  { rewrite FileBase_close_noexcept_eq. destruct (owns_descriptor h); [|reflexivity].
    destruct (sys_close (_fd h) w). reflexivity. }
  assert (E2 : snd (fst (FileBase_closex h w)) = after_close h).
  { rewrite FileBase_closex_eq. destruct (owns_descriptor h); [|reflexivity].
    destruct (sys_close (_fd h) w) as [r w']. destruct (r =? -1); reflexivity. }
  rewrite E1, E2. repeat split; intros w2; rewrite FileBase_closex_eq; reflexivity.
Qed.

(** X3: the destructor releases the descriptor on every path and never
    raises while another exception is in flight: whatever
    [std::uncaught_exceptions()] is, the handle ends closed and the world
    is the one close_noexcept leaves; when the count is not 0 the
    destructor returns normally even if the close primitive fails. *)
Theorem X3_destructor :
  forall (K : Type) (OS : Posix K) (uncaught : Z) (h : FileBase) (w : World K),
  snd (fst (FileBase_dtor uncaught h w)) = after_close h
  /\ snd (FileBase_dtor uncaught h w) = snd (FileBase_close_noexcept h w)
  /\ (uncaught <> 0 -> fst (fst (FileBase_dtor uncaught h w)) = inr tt).
Proof.
  intros K OS uncaught h w. unfold FileBase_dtor.
  destruct (uncaught =? 0) eqn:E.
  - rewrite FileBase_closex_eq, FileBase_close_noexcept_eq.
    apply Z.eqb_eq in E.
    destruct (owns_descriptor h).
    + destruct (sys_close (_fd h) w) as [r w']. destruct (r =? -1);
        (split; [reflexivity|split; [reflexivity|intros H; contradiction]]).
    + split; [reflexivity|split; [reflexivity|intros H; contradiction]].
  - run. rewrite FileBase_close_noexcept_eq.
    destruct (owns_descriptor h).
    + destruct (sys_close (_fd h) w) as [r w']. repeat split.
    + repeat split.
Qed.

(** X3 at the read handle on "five" during unwinding: the destructor
    returns normally. *)
Lemma X3_witness :
  1 <> 0
  /\ fst (fst (FileBase_dtor 1 (in_base Sample.in_h) Sample.in_w)) = inr tt.
Proof.
  assert (H : 1 <> 0) by (intros E; discriminate E).
  refine (conj H _).
  exact (proj2 (proj2 (X3_destructor Ram.disk Ram.posix 1 (in_base Sample.in_h)
                         Sample.in_w)) H).
Defined.

(** ** Opening *)

Section OpenResults.
Context `{CFG : Config} {K : Type} `{OS : Posix K}.

(** do_sopen, whatever the share mode: [true] leaves an open handle whose
    length is the size fstat stored; [false] leaves a handle that is not
    open; the other fields are not touched. *)
Lemma FileBase_do_sopen_result (b b1 : FileBase) (w w1 : World K) (r : exn + bool) :
  FileBase_do_sopen b w = (r, b1, w1) ->
  _name b1 = _name b /\ _flags b1 = _flags b /\ _shflags b1 = _shflags b
  /\ _mode b1 = _mode b /\ _offset b1 = _offset b
  /\ match r with
     | inr true => isOpen b1 = true /\ _length b1 = st_size (st b1)
     | inr false => isOpen b1 = false
     | inl x => ~ open_refused x = true
     end.
Proof.
  unfold FileBase_do_sopen. run. intros H.
  assert (G : forall (fd : Z) (w0 : World K),
    (if fd <? 0 then (inr false, set_fd fd b, w0)
     else let '(q, w2) := sys_fstat fd w0 in
          if negb (fst q =? 0)
          then (inl (IOException (_name b) (errno w2)),
                set_st (mkStat (snd q)) (set_st (mkStat 0) (set_fd fd b)), w2)
          else (inr true,
                set_length (snd q)
                  (set_st (mkStat (snd q)) (set_st (mkStat 0) (set_fd fd b))), w2))
    = (r, b1, w1) ->
    _name b1 = _name b /\ _flags b1 = _flags b /\ _shflags b1 = _shflags b
    /\ _mode b1 = _mode b /\ _offset b1 = _offset b
    /\ match r with
       | inr true => isOpen b1 = true /\ _length b1 = st_size (st b1)
       | inr false => isOpen b1 = false
       | inl x => ~ open_refused x = true
       end).
  { intros fd w0 E. destruct (fd <? 0) eqn:Efd.
    - inversion E; subst. repeat split. unfold isOpen. cbn [_fd set_fd].
      apply Z.leb_gt. now apply Z.ltb_lt.
    - destruct (sys_fstat fd w0) as [q w2].
      destruct (negb (fst q =? 0)); inversion E; subst; repeat split.
      + intros D; discriminate D.
      + unfold isOpen. cbn. apply Z.leb_le. now apply Z.ltb_ge. }
  destruct (_shflags b <? 0).
  - destruct (sys_open _ _ _ w) as [fd w0]. apply (G fd w0).
    destruct (fd <? 0); [exact H|].
    destruct (sys_fstat fd w0) as [q w2].
    destruct (negb (fst q =? 0)); exact H.
  - destruct share_support.
    + destruct (sys_open _ _ _ w) as [fd w0]. apply (G fd w0).
      destruct (fd <? 0); [exact H|].
      destruct (sys_fstat fd w0) as [q w2].
      destruct (negb (fst q =? 0)); exact H.
    + destruct (sys_open _ _ _ w) as [fd w0]. apply (G fd w0).
      destruct (fd <? 0); [exact H|].
      destruct (sys_fstat fd w0) as [q w2].
      destruct (negb (fst q =? 0)); exact H.
    + destruct (sys_sopen _ _ _ _ w) as [fd w0]. apply (G fd w0).
      destruct (fd <? 0); [exact H|].
      destruct (sys_fstat fd w0) as [q w2].
      destruct (negb (fst q =? 0)); exact H.
    + inversion H; subst. repeat split. intros D; discriminate D.
Qed.

(** A do_sopen that returns [true] has made its open call, got the
    descriptor of the handle from it, and taken the length from the size
    that fstat reported for this descriptor. *)
Lemma FileBase_do_sopen_success (b b1 : FileBase) (w w1 : World K) :
  FileBase_do_sopen b w = (inr true, b1, w1) ->
  exists p w0,
    open_call (_name b) (_flags b) (_shflags b) (_mode b) = Some p
    /\ p w = (_fd b1, w0)
    /\ sys_fstat (_fd b1) w0 = ((0, _length b1), w1)
    /\ st b1 = mkStat (_length b1).
Proof.
  rewrite FileBase_do_sopen_call.
  destruct (open_call _ _ _ _) as [p|]; [|intros H; discriminate H].
  destruct (p w) as [fd w0] eqn:Ep.
  destruct (fd <? 0); [intros H; discriminate H|].
  destruct (sys_fstat fd w0) as [[r0 sz] w2] eqn:Ef. cbn [fst snd].
  destruct (r0 =? 0) eqn:E0; intros H; inversion H; subst.
  apply Z.eqb_eq in E0. subst r0.
  exists p, w0. cbn [_fd _length st set_length set_st set_fd].
  repeat split; assumption.
Qed.

End OpenResults.

(** X4: what sopen leaves behind.  After a successful sopen the handle
    is open, carries the name, flags and share flags it was given, its
    window starts at offset 0 and its length is the size that fstat
    reported: sopen has closed what the handle held, its open call has
    returned the descriptor the handle now holds, and fstat on this
    descriptor, in the world the open left, has succeeded with the
    handle's length as the size, leaving the final world.  The read
    handle records that size as its original length and the write handle
    keeps its [bytes_written] (sopen does not reset the counter).  After
    a sopen that raised NotFoundError or AlreadyExistsError the handle is
    not open. *)
Theorem X4_sopen_results :
  forall (CFG : Config) (K : Type) (OS : Posix K),
  (forall name flags shflags (h h' : InputFile) (w w' : World K),
      InputFile_sopen name flags shflags h w = (inr tt, h', w') ->
      isOpen (in_base h') = true
      /\ _name (in_base h') = name /\ _flags (in_base h') = flags
      /\ _shflags (in_base h') = shflags /\ _mode (in_base h') = 0
      /\ _offset (in_base h') = 0
      /\ _length (in_base h') = st_size (st (in_base h'))
      /\ _length_orig h' = _length (in_base h')
      /\ exists b w0 p w1,
           FileBase_closex (in_base h) w = (inr tt, b, w0)
           /\ open_call name flags shflags 0 = Some p
           /\ p w0 = (_fd (in_base h'), w1)
           /\ sys_fstat (_fd (in_base h')) w1 = ((0, _length (in_base h')), w'))
  /\ (forall name flags shflags (h h' : InputFile) (w w' : World K) x,
      InputFile_sopen name flags shflags h w = (inl x, h', w') ->
      open_refused x = true -> isOpen (in_base h') = false)
  /\ (forall name flags shflags mode (h h' : OutputFile) (w w' : World K),
      OutputFile_sopen name flags shflags mode h w = (inr tt, h', w') ->
      isOpen (out_base h') = true
      /\ _name (out_base h') = name /\ _flags (out_base h') = flags
      /\ _shflags (out_base h') = shflags /\ _mode (out_base h') = mode
      /\ _offset (out_base h') = 0
      /\ _length (out_base h') = st_size (st (out_base h'))
      /\ bytes_written h' = bytes_written h
      /\ exists b w0 p w1,
           FileBase_closex (out_base h) w = (inr tt, b, w0)
           /\ open_call name flags shflags mode = Some p
           /\ p w0 = (_fd (out_base h'), w1)
           /\ sys_fstat (_fd (out_base h')) w1 = ((0, _length (out_base h')), w'))
  /\ (forall name flags shflags mode (h h' : OutputFile) (w w' : World K) x,
      OutputFile_sopen name flags shflags mode h w = (inl x, h', w') ->
      open_refused x = true -> isOpen (out_base h') = false).
Proof.
  intros CFG K OS. repeat apply conj.
  - intros name flags shflags h h' w w' H. rewrite InputFile_sopen_eq in H.
    destruct (FileBase_closex (in_base h) w) as [[[x|u] b] w0] eqn:Ec;
      [discriminate H|].
    destruct (FileBase_do_sopen _ w0) as [[r b1] w1] eqn:E.
    destruct (FileBase_do_sopen_result _ _ _ _ _ E) as (N & F & S & Md & O & R).
    destruct r as [x|[|]]; try discriminate H.
    destruct (FileBase_do_sopen_success _ _ _ _ E) as (p & w2 & Hp & Hcall & Hstat & _).
    rewrite open_call_reset in Hp.
    inversion H; subst. destruct R as [R1 R2]. cbn [in_base _length_orig].
    cbn in N, F, S, Md, O. destruct u.
    repeat split; try assumption.
    exists b, w0, p, w2. repeat split; assumption.
  - intros name flags shflags h h' w w' x H Hx. rewrite InputFile_sopen_eq in H.
    destruct (FileBase_closex (in_base h) w) as [[[y|u] b] w0] eqn:Ec.
    { inversion H; subst. rewrite FileBase_closex_eq in Ec.
      destruct (owns_descriptor (in_base h)); [|discriminate Ec].
      destruct (sys_close _ w) as [r w2].
      destruct (r =? -1); inversion Ec; subst. discriminate Hx. }
    destruct (FileBase_do_sopen _ w0) as [[r b1] w1] eqn:E.
    destruct (FileBase_do_sopen_result _ _ _ _ _ E) as (_ & _ & _ & _ & _ & R).
    destruct r as [y|[|]]; inversion H; subst.
    + contradiction.
    + exact R.
  - intros name flags shflags mode h h' w w' H. rewrite OutputFile_sopen_eq in H.
    destruct (FileBase_closex (out_base h) w) as [[[x|u] b] w0] eqn:Ec;
      [discriminate H|].
    destruct (FileBase_do_sopen _ w0) as [[r b1] w1] eqn:E.
    destruct (FileBase_do_sopen_result _ _ _ _ _ E) as (N & F & S & Md & O & R).
    destruct r as [x|[|]]; try discriminate H.
    destruct (FileBase_do_sopen_success _ _ _ _ E) as (p & w2 & Hp & Hcall & Hstat & _).
    rewrite open_call_reset in Hp.
    inversion H; subst. destruct R as [R1 R2]. cbn [out_base bytes_written].
    cbn in N, F, S, Md, O. destruct u.
    repeat split; try assumption.
    exists b, w0, p, w2. repeat split; assumption.
  - intros name flags shflags mode h h' w w' x H Hx. rewrite OutputFile_sopen_eq in H.
    destruct (FileBase_closex (out_base h) w) as [[[y|u] b] w0] eqn:Ec.
    { inversion H; subst. rewrite FileBase_closex_eq in Ec.
      destruct (owns_descriptor (out_base h)); [|discriminate Ec].
      destruct (sys_close _ w) as [r w2].
      destruct (r =? -1); inversion Ec; subst. discriminate Hx. }
    destruct (FileBase_do_sopen _ w0) as [[r b1] w1] eqn:E.
    destruct (FileBase_do_sopen_result _ _ _ _ _ E) as (_ & _ & _ & _ & _ & R).
    destruct r as [y|[|]]; inversion H; subst.
    + contradiction.
    + exact R.
Qed.

(** X4 on the RAM disk: "five" opened for reading has length 5, the
    size fstat reports for its descriptor, and original length 5; the
    refused open of "none" leaves a closed handle. *)
Lemma X4_witness :
  (InputFile_sopen (CFG := Sample.cfg) (Some "five") Ram.O_RDONLY (-1)
                   InputFile_closed Sample.disk0
   = (inr tt, Sample.in_h, Sample.in_w)
   /\ _length (in_base Sample.in_h) = 5
   /\ isOpen (in_base Sample.in_h) = true
   /\ _length_orig Sample.in_h = _length (in_base Sample.in_h)
   /\ exists b w0 p w1,
        FileBase_closex (in_base InputFile_closed) Sample.disk0 = (inr tt, b, w0)
        /\ open_call (CFG := Sample.cfg) (Some "five") Ram.O_RDONLY (-1) 0 = Some p
        /\ p w0 = (_fd (in_base Sample.in_h), w1)
        /\ sys_fstat (_fd (in_base Sample.in_h)) w1
           = ((0, _length (in_base Sample.in_h)), Sample.in_w))
  /\ (open_refused (FileNotFoundException (Some "none") ENOENT) = true
      /\ isOpen (in_base (snd (fst (InputFile_sopen (CFG := Sample.cfg) (Some "none")
                                      Ram.O_RDONLY (-1) InputFile_closed
                                      Sample.disk0)))) = false).
Proof.
  assert (Hrun : InputFile_sopen (CFG := Sample.cfg) (Some "five") Ram.O_RDONLY (-1)
                   InputFile_closed Sample.disk0
                 = (inr tt, Sample.in_h, Sample.in_w)) by (vm_compute; reflexivity).
  assert (Hrun2 : InputFile_sopen (CFG := Sample.cfg) (Some "none") Ram.O_RDONLY (-1)
                    InputFile_closed Sample.disk0
    = (inl (FileNotFoundException (Some "none") ENOENT),
       snd (fst (InputFile_sopen (CFG := Sample.cfg) (Some "none") Ram.O_RDONLY (-1)
                   InputFile_closed Sample.disk0)),
       snd (InputFile_sopen (CFG := Sample.cfg) (Some "none") Ram.O_RDONLY (-1)
              InputFile_closed Sample.disk0))) by (vm_compute; reflexivity).
  pose proof (proj1 (X4_sopen_results Sample.cfg Ram.disk Ram.posix)
                _ _ _ _ _ _ _ Hrun) as (A & _ & _ & _ & _ & _ & _ & B & C).
  split.
  - refine (conj Hrun (conj eq_refl (conj A (conj B C)))).
  - refine (conj eq_refl _).
    exact (proj1 (proj2 (X4_sopen_results Sample.cfg Ram.disk Ram.posix))
             _ _ _ _ _ _ _ _ Hrun2 eq_refl).
Defined.

(** ** A handle that is not open, and what the read operations leave *)

(** X5: on a handle that is not open (never opened, or closed), every
    descriptor-backed operation raises an IOError before any primitive is
    called: seek and tell of the base, read, readx, seek and dupFd of the
    read handle, write of the write handle (also a write of 0 bytes).
    The handle and the world are left as they were. *)
Theorem X5_closed_handle :
  forall (CFG : Config) (K : Type) (OS : Posix K) (OSM : PosixMore K),
  (forall (h : FileBase) (w : World K) off whence,
      isOpen h = false ->
      FileBase_seek off whence h w = (inl (IOException (Some "bad seek 1") 0), h, w)
      /\ FileBase_tell h w = (inl (IOException (Some "bad tell") 0), h, w))
  /\ (forall (h : InputFile) (w : World K) buf blen off whence,
      isOpen (in_base h) = false ->
      InputFile_read buf blen h w = (inl (IOException (Some "bad read") 0), h, w)
      /\ InputFile_readx buf blen h w = (inl (IOException (Some "bad read") 0), h, w)
      /\ InputFile_seek off whence h w
         = (inl (IOException (Some "bad seek 1") 0), h, w)
      /\ InputFile_dupFd h w = (inl (IOException (Some "bad dup") 0), h, w))
  /\ (forall (h : OutputFile) (w : World K) buf blen,
      isOpen (out_base h) = false ->
      OutputFile_write buf blen h w = (inl (IOException (Some "bad write") 0), h, w)).
Proof.
  intros CFG K OS OSM. repeat apply conj.
  - intros h w off whence Hc. split.
    + now rewrite FileBase_seek_eq, Hc.
    + unfold FileBase_tell. run. now rewrite Hc.
  - intros h w buf blen off whence Hc.
    assert (R : InputFile_read buf blen h w
                = (inl (IOException (Some "bad read") 0), h, w)).
    { unfold InputFile_read. run. now rewrite Hc. }
    repeat split.
    + exact R.
    + now rewrite InputFile_readx_eq, R.
    + rewrite InputFile_seek_eq, FileBase_seek_eq, Hc. destruct h; reflexivity.
    + unfold InputFile_dupFd. run. now rewrite Hc.
  - intros h w buf blen Hc. unfold OutputFile_write. run. now rewrite Hc.
Qed.

(** X5 on the default-constructed handles (descriptor -1, size 0). *)
Lemma X5_witness :
  isOpen (in_base InputFile_closed) = false
  /\ _fd (in_base InputFile_closed) = -1
  /\ FileBase_st_size (in_base InputFile_closed) Sample.disk0
     = (inr 0, in_base InputFile_closed, Sample.disk0)
  /\ InputFile_read (CFG := Sample.cfg) (Some [x00]) 1 InputFile_closed Sample.disk0
     = (inl (IOException (Some "bad read") 0), InputFile_closed, Sample.disk0)
  /\ OutputFile_write (CFG := Sample.cfg) None 0 OutputFile_closed Sample.disk0
     = (inl (IOException (Some "bad write") 0), OutputFile_closed, Sample.disk0).
Proof.
  refine (conj eq_refl (conj eq_refl (conj eq_refl (conj _ _)))).
  - exact (proj1 (proj1 (proj2 (X5_closed_handle Sample.cfg Ram.disk Ram.posix
                                  ram_more))
                    InputFile_closed Sample.disk0 (Some [x00]) 1 0 0 eq_refl)).
  - exact (proj2 (proj2 (X5_closed_handle Sample.cfg Ram.disk Ram.posix ram_more))
             OutputFile_closed Sample.disk0 None 0 eq_refl).
Defined.

Section ReadFrame.
Context `{CFG : Config} {K : Type} `{OS : Posix K}.

Lemma InputFile_read_frame (buf : option (list byte)) (blen : Z) (h : InputFile)
      (w : World K) :
  snd (fst (InputFile_read buf blen h w)) = h.
Proof.
  unfold InputFile_read. run.
  destruct (negb (isOpen (in_base h)) || (blen <? 0)); [reflexivity|].
  destruct (mem_size 1 blen) as [x|n]; [reflexivity|]. cbn [of_result].
  unfold ret, throw.
  destruct (raw_bytes buf (to_int n)) as [x|d]; [reflexivity|].
  destruct (acc_safe_hread _ _ _) as [r w'].
  destruct (negb (errno w' =? 0)); reflexivity.
Qed.

End ReadFrame.

(** X6: the read operations never change the handle: after read, readx,
    seek and tell, whatever their outcome, every field is what it was;
    set_extent changes the window and nothing else, so afterwards
    st_size is the new length while st_size_orig still is the length
    recorded when the file was opened, and no primitive was called. *)
Theorem X6_read_handle_frame :
  forall (CFG : Config) (K : Type) (OS : Posix K) (h : InputFile) (w : World K),
  (forall buf blen, snd (fst (InputFile_read buf blen h w)) = h)
  /\ (forall buf blen, snd (fst (InputFile_readx buf blen h w)) = h)
  /\ (forall off whence, snd (fst (InputFile_seek off whence h w)) = h)
  /\ snd (fst (FileBase_tell (in_base h) w)) = in_base h
  /\ (forall offset length,
         exists h',
           in_super (FileBase_set_extent offset length) h w = (inr tt, h', w)
           /\ FileBase_st_size (in_base h') w = (inr length, in_base h', w)
           /\ InputFile_st_size_orig h' w = (inr (_length_orig h), h', w)
           /\ _offset (in_base h') = offset
           /\ _fd (in_base h') = _fd (in_base h)).
Proof.
  intros CFG K OS h w. repeat apply conj.
  - intros buf blen. apply InputFile_read_frame.
  - intros buf blen. rewrite InputFile_readx_eq.
    pose proof (InputFile_read_frame buf blen h w) as F.
    destruct (InputFile_read buf blen h w) as [[[x|r] h1] w1]; cbn in F; subst.
    + reflexivity.
    + destruct (fst r =? blen); reflexivity.
  - intros off whence. rewrite InputFile_seek_eq.
    pose proof (FileBase_seek_frame off whence (in_base h) w) as F.
    destruct (FileBase_seek off whence (in_base h) w) as [[[x|pos] b] w1];
      cbn in F; subst.
    + destruct h; reflexivity.
    + destruct (_length (in_base h) <? pos); destruct h; reflexivity.
  - unfold FileBase_tell. run. destruct (negb (isOpen (in_base h))); [reflexivity|].
    destruct (sys_lseek _ _ _ w) as [r w1]. destruct (to_off_t r <? 0); reflexivity.
  - intros offset length. eexists. repeat split.
Qed.

(** ** errno and the stream flags *)

(** X7: read and write clear errno before they call the primitive, so an
    error code left by an earlier call never decides their outcome: the
    result and the handle are the same for every errno the world holds
    at the call, and so is the world after a read that returned or a
    write of len <> 0 that succeeded.  This holds for the descriptor- and
    the stream-backed handles. *)
Theorem X7_stale_errno :
  forall (CFG : Config) (e : Z),
  (forall (K : Type) (OS : Posix K) buf blen (h : InputFile) (w : World K),
      fst (InputFile_read buf blen h w)
      = fst (InputFile_read buf blen h (mkWorld e (backend w)))
      /\ (forall r, fst (fst (InputFile_read buf blen h w)) = inr r ->
          snd (InputFile_read buf blen h w)
          = snd (InputFile_read buf blen h (mkWorld e (backend w)))))
  /\ (forall (K : Type) (OS : Posix K) buf blen (h : OutputFile) (w : World K),
      fst (OutputFile_write buf blen h w)
      = fst (OutputFile_write buf blen h (mkWorld e (backend w)))
      /\ (blen <> 0 -> fst (fst (OutputFile_write buf blen h w)) = inr tt ->
          snd (OutputFile_write buf blen h w)
          = snd (OutputFile_write buf blen h (mkWorld e (backend w)))))
  /\ (forall (S : Type) (IS : IStream S) buf blen (h : InputStream) (w : World S),
      fst (InputStream_read buf blen h w)
      = fst (InputStream_read buf blen h (mkWorld e (backend w)))
      /\ (forall r, fst (fst (InputStream_read buf blen h w)) = inr r ->
          snd (InputStream_read buf blen h w)
          = snd (InputStream_read buf blen h (mkWorld e (backend w)))))
  /\ (forall (S : Type) (OST : OStream S) buf blen (h : OutputStream) (w : World S),
      fst (OutputStream_write buf blen h w)
      = fst (OutputStream_write buf blen h (mkWorld e (backend w)))
      /\ (blen <> 0 -> fst (fst (OutputStream_write buf blen h w)) = inr tt ->
          snd (OutputStream_write buf blen h w)
          = snd (OutputStream_write buf blen h (mkWorld e (backend w))))).
Proof.
  intros CFG e. repeat apply conj.
  - intros K OS buf blen h w. unfold InputFile_read. run. cbn [backend].
    destruct (negb (isOpen (in_base h)) || (blen <? 0));
      [split; [reflexivity|intros r H; discriminate H]|].
    destruct (mem_size 1 blen) as [x|n]; cbn [of_result]; unfold ret, throw;
      [split; [reflexivity|intros r H; discriminate H]|].
    destruct (raw_bytes buf (to_int n)) as [x|d];
      [split; [reflexivity|intros r H; discriminate H]|].
    destruct (acc_safe_hread _ _ _) as [r w'].
    destruct (negb (errno w' =? 0)); split; reflexivity.
  - intros K OS buf blen h w. unfold OutputFile_write. run. cbn [backend].
    destruct (negb (isOpen (out_base h)) || (blen <? 0));
      [split; [reflexivity|intros _ H; discriminate H]|].
    destruct (blen =? 0) eqn:E0.
    { apply Z.eqb_eq in E0. split; [reflexivity|intros H; contradiction]. }
    destruct (mem_size 1 blen) as [x|n]; cbn [of_result]; unfold ret, throw;
      [split; [reflexivity|intros _ H; discriminate H]|].
    destruct (raw_bytes buf (to_int n)) as [x|d];
      [split; [reflexivity|intros _ H; discriminate H]|].
    destruct (acc_safe_hwrite _ _ _ _) as [l w'].
    destruct (negb (l =? to_int n)); split; reflexivity.
  - intros S IS buf blen h w. unfold InputStream_read. run. cbn [backend errno].
    destruct (mem_size 1 blen) as [x|n]; cbn [of_result]; unfold ret, throw;
      [split; [reflexivity|intros r H; discriminate H]|].
    destruct (raw_bytes buf (to_int n)) as [x|d];
      [split; [reflexivity|intros r H; discriminate H]|].
    cbn [backend errno]. destruct (i_read (to_int n) (backend w)) as [data s'].
    cbn [backend errno]. split; reflexivity.
  - intros S OST buf blen h w. unfold OutputStream_write. run. cbn [backend errno].
    destruct (negb (isOpen (out_base h)) && negb (o_good (backend w)));
      [split; [reflexivity|intros _ H; discriminate H]|].
    destruct (blen =? 0) eqn:E0.
    { apply Z.eqb_eq in E0. split; [reflexivity|intros H; contradiction]. }
    destruct (mem_size 1 blen) as [x|n]; cbn [of_result]; unfold ret, throw;
      [split; [reflexivity|intros _ H; discriminate H]|].
    destruct (raw_bytes buf (to_int n)) as [x|d];
      [split; [reflexivity|intros _ H; discriminate H]|].
    cbn [backend errno]. split; reflexivity.
Qed.

(** X7 on "five": with errno 13 left in the world, a read of 5 bytes
    returns what it returns with errno 0. *)
Lemma X7_witness :
  fst (fst (InputFile_read (CFG := Sample.cfg) (Some (repeat x00 5)) 5
              Sample.in_h Sample.in_w))
  = inr (5, [x11; x22; x33; x44; x55])
  /\ InputFile_read (CFG := Sample.cfg) (Some (repeat x00 5)) 5 Sample.in_h
       (mkWorld 13 (backend Sample.in_w))
     = InputFile_read (CFG := Sample.cfg) (Some (repeat x00 5)) 5 Sample.in_h
         Sample.in_w.
Proof.
  assert (Hrun : fst (fst (InputFile_read (CFG := Sample.cfg) (Some (repeat x00 5)) 5
                             Sample.in_h Sample.in_w))
                 = inr (5, [x11; x22; x33; x44; x55])) by (vm_compute; reflexivity).
  refine (conj Hrun _).
  pose proof (proj1 (X7_stale_errno Sample.cfg 13) Ram.disk Ram.posix
                (Some (repeat x00 5)) 5 Sample.in_h Sample.in_w) as [A B].
  specialize (B _ Hrun).
  destruct (InputFile_read (CFG := Sample.cfg) (Some (repeat x00 5)) 5 Sample.in_h
              (mkWorld 13 (backend Sample.in_w))) as [p q].
  destruct (InputFile_read (CFG := Sample.cfg) (Some (repeat x00 5)) 5 Sample.in_h
              Sample.in_w) as [p' q'].
  cbn in A, B. subst. reflexivity.
Defined.



(** ** Standard output *)

Section StdoutProperties.
Context {K : Type} `{OS : Posix K}.

Lemma OutputFile_openStdout_eq (flags : Z) (force : bool) (h : OutputFile)
      (w : World K) :
  OutputFile_openStdout flags force h w =
  match FileBase_closex (out_base h) w with
  | (inl x, b, w0) => (inl x, mkOutputFile b (bytes_written h), w0)
  | (inr _, b, w0) =>
      let '(tty, w1) := if force then (false, w0) else acc_isatty STDOUT_FILENO w0 in
      if negb force && tty then (inr false, mkOutputFile b (bytes_written h), w1)
      else
        let b1 := reset_for_open (Some "<stdout>") flags (-1) 0 b in
        let '(r, w2) := if negb (flags =? 0)
                        then acc_set_binmode STDOUT_FILENO 1 w1 else (0, w1) in
        if negb (flags =? 0) && (r =? -1)
        then (inl (IOException (Some "<stdout>") (errno w2)),
              mkOutputFile b1 (bytes_written h), w2)
        else (inr true, mkOutputFile (set_fd STDOUT_FILENO b1) (bytes_written h), w2)
  end.
Proof.
  unfold OutputFile_openStdout, out_super, reset_for_open. run.
  destruct (FileBase_closex (out_base h) w) as [[[x|u] b] w0]; [reflexivity|].
  cbn [out_base bytes_written].
  destruct force; cbn [negb andb].
  - destruct (negb (flags =? 0)); cbn [andb].
    + destruct (acc_set_binmode _ _ w0) as [r w2]. destruct (r =? -1); reflexivity.
    + reflexivity.
  - destruct (acc_isatty STDOUT_FILENO w0) as [tty w1]. destruct tty; [reflexivity|].
    destruct (negb (flags =? 0)); cbn [andb].
    + destruct (acc_set_binmode _ _ w1) as [r w2]. destruct (r =? -1); reflexivity.
    + reflexivity.
Qed.

End StdoutProperties.

(** X9: openStdout.  When it returns true the handle is bound to
    descriptor 1 under the name "<stdout>" with an empty window at
    offset 0, and closing that handle, by closex or by the destructor,
    never calls the close primitive: the world stays as it is.  When it
    returns false it was not forced and the handle is not open; when it
    raises the handle is not open either.  With [force] it never
    returns false. *)
Theorem X9_openStdout :
  forall (K : Type) (OS : Posix K) flags force (h h' : OutputFile) (w w' : World K),
  (OutputFile_openStdout flags force h w = (inr true, h', w') ->
   _fd (out_base h') = STDOUT_FILENO
   /\ _name (out_base h') = Some "<stdout>"
   /\ _flags (out_base h') = flags
   /\ _offset (out_base h') = 0 /\ _length (out_base h') = 0
   /\ bytes_written h' = bytes_written h
   /\ (forall w2, FileBase_closex (out_base h') w2
                  = (inr tt, after_close (out_base h'), w2))
   /\ (forall uncaught w2,
          FileBase_dtor uncaught (out_base h') w2
          = (inr tt, after_close (out_base h'), w2)))
  /\ (OutputFile_openStdout flags force h w = (inr false, h', w') ->
      force = false /\ isOpen (out_base h') = false)
  /\ (forall x, OutputFile_openStdout flags force h w = (inl x, h', w') ->
                isOpen (out_base h') = false).
Proof.
  intros K OS flags force h h' w w'.
  assert (Ec : snd (fst (FileBase_closex (out_base h) w)) = after_close (out_base h)).
  { rewrite FileBase_closex_eq. destruct (owns_descriptor (out_base h)); [|reflexivity].
    destruct (sys_close _ w) as [r w2]. destruct (r =? -1); reflexivity. }
  rewrite OutputFile_openStdout_eq.
  destruct (FileBase_closex (out_base h) w) as [[[x|u] b] w0]; cbn in Ec; subst b.
  { split; [intros H; discriminate H|split; [intros H; discriminate H|]].
    intros y H. inversion H; subst. reflexivity. }
  destruct (if force then (false, w0) else acc_isatty STDOUT_FILENO w0)
    as [tty w1] eqn:Et.
  destruct (negb force && tty) eqn:Eb.
  { split; [intros H; discriminate H|split; [|intros y H; discriminate H]].
    intros H. inversion H; subst. split; [|reflexivity].
    destruct force; [discriminate Eb|reflexivity]. }
  cbv zeta.
  destruct (if negb (flags =? 0) then acc_set_binmode STDOUT_FILENO 1 w1 else (0, w1))
    as [r w2].
  destruct (negb (flags =? 0) && (r =? -1)).
  { split; [intros H; discriminate H|split; [intros H; discriminate H|]].
    intros y H. inversion H; subst. reflexivity. }
  split; [|split; [intros H; discriminate H|intros y H; discriminate H]].
  intros H. inversion H; subst. cbn [out_base bytes_written].
  repeat apply conj; try reflexivity.
  intros uncaught w3. unfold FileBase_dtor.
  destruct (uncaught =? 0).
  - rewrite FileBase_closex_eq. reflexivity.
  - run. rewrite FileBase_close_noexcept_eq. reflexivity.
Qed.

(** X9 on the process whose descriptor 1 is a pipe: openStdout binds the
    handle, and closing it leaves the pipe open. *)
Lemma X9_witness :
  OutputFile_openStdout 0 true OutputFile_closed Sample.pipe0
  = (inr true, snd (fst (OutputFile_openStdout 0 true OutputFile_closed Sample.pipe0)),
     Sample.pipe0)
  /\ FileBase_closex
       (out_base (snd (fst (OutputFile_openStdout 0 true OutputFile_closed
                              Sample.pipe0)))) Sample.pipe0
     = (inr tt,
        after_close (out_base (snd (fst (OutputFile_openStdout 0 true
                                           OutputFile_closed Sample.pipe0)))),
        Sample.pipe0).
Proof.
  assert (Hrun : OutputFile_openStdout 0 true OutputFile_closed Sample.pipe0
    = (inr true,
       snd (fst (OutputFile_openStdout 0 true OutputFile_closed Sample.pipe0)),
       Sample.pipe0)) by (vm_compute; reflexivity).
  refine (conj Hrun _).
  pose proof (proj1 (X9_openStdout Ram.disk Ram.posix 0 true OutputFile_closed _
                       Sample.pipe0 _) Hrun) as (_ & _ & _ & _ & _ & _ & C & _).
  exact (C Sample.pipe0).
Defined.

(** ** The bookkeeping of the stream-backed write handle *)

Section StreamBookkeeping.
Context `{CFG : Config} {S : Type} `{OST : OStream S}.

Lemma OutputStream_write_length (buf : option (list byte)) (blen : Z)
      (h h1 : OutputStream) (w w1 : World S) (r : exn + unit) :
  OutputStream_write buf blen h w = (r, h1, w1) ->
  _length (out_base h) <= _length (out_base h1)
  /\ (h1 = h \/ bytes_written h1 <= _length (out_base h1)).
Proof.
  unfold OutputStream_write. run. intros H.
  destruct (negb (isOpen (out_base h)) && negb (o_good (backend w)));
    [inversion H; subst; split; [lia|auto]|].
  destruct (blen =? 0); [inversion H; subst; split; [lia|auto]|].
  destruct (mem_size 1 blen) as [x|n]; [inversion H; subst; split; [lia|auto]|].
  cbn [of_result] in H. unfold ret, throw in H.
  destruct (raw_bytes buf (to_int n)) as [x|data];
    [inversion H; subst; split; [lia|auto]|].
  cbn [backend errno] in H.
  destruct (o_fail (o_write data (to_int n) (backend w)));
    [inversion H; subst; split; [lia|auto]|].
  inversion H; subst. clear H.
  cbn [set_bytes_written bytes_written out_base].
  destruct (_length (out_base h) <? to_off_t (bytes_written h + to_int n)) eqn:E.
  - apply Z.ltb_lt in E. cbn. split; [lia|right; lia].
  - apply Z.ltb_ge in E. cbn. split; [lia|right; lia].
Qed.

Lemma OutputStream_ctor_result (h : OutputStream) (w : World S) :
  fst (fst (OutputStream_ctor h w)) = inr tt
  /\ bytes_written (snd (fst (OutputStream_ctor h w)))
     = _length (out_base (snd (fst (OutputStream_ctor h w)))).
Proof.
  unfold OutputStream_ctor. run. cbn [backend errno].
  destruct (o_tellp (o_clear (backend w))) as [curr s1]. cbn [backend errno].
  destruct (negb (curr =? -1)); [|split; reflexivity].
  cbn [backend errno].
  destruct (negb (o_fail (o_seekp 0 ios_end s1))); [|split; reflexivity].
  cbn [backend errno].
  destruct (o_tellp (o_seekp 0 ios_end s1)) as [e s2]. cbn [backend errno].
  destruct (negb (e =? -1)); split; reflexivity.
Qed.

End StreamBookkeeping.

(** X10: the stream-backed write handle keeps its written count within
    the length it tracks ([bytes_written <= _length]).  The constructor
    never raises and establishes it with equality; write, rewrite, seek
    and unset_extent preserve it whatever their outcome. *)
Theorem X10_length_tracks_bytes_written :
  forall (CFG : Config) (S : Type) (OST : OStream S),
  (forall (h : OutputStream) (w : World S),
      fst (fst (OutputStream_ctor h w)) = inr tt
      /\ length_tracks (snd (fst (OutputStream_ctor h w))))
  /\ (forall buf blen (h : OutputStream) (w : World S),
      length_tracks h ->
      length_tracks (snd (fst (OutputStream_write buf blen h w))))
  /\ (forall buf len (h : OutputStream) (w : World S),
      UPX_RSIZE_MAX < 2 ^ 31 -> in_off_t (bytes_written h) ->
      length_tracks h ->
      length_tracks (snd (fst (OutputStream_rewrite buf len h w))))
  /\ (forall off whence (h : OutputStream) (w : World S),
      length_tracks h ->
      length_tracks (snd (fst (OutputStream_seek off whence h w))))
  /\ (forall (h : OutputStream) (w : World S),
      length_tracks h ->
      length_tracks (snd (fst (OutputStream_unset_extent h w)))).
Proof.
  intros CFG S OST. unfold length_tracks. repeat apply conj.
  - intros h w. destruct (OutputStream_ctor_result h w) as [A B].
    split; [exact A|]. rewrite B. lia.
  - intros buf blen h w Hinv.
    destruct (OutputStream_write buf blen h w) as [[r h1] w1] eqn:E.
    destruct (OutputStream_write_length buf blen h h1 w w1 r E) as [_ [-> | B]];
      cbn [fst snd]; assumption.
  - intros buf len h w Hmax Hb Hinv. unfold OutputStream_rewrite. run.
    destruct (OutputStream_write buf len h w) as [[r h1] w1] eqn:E.
    pose proof (OutputStream_write_handle buf len h h1 w w1 r E) as Hh.
    destruct (OutputStream_write_length buf len h h1 w w1 r E) as [L _].
    destruct r as [x|[]]; cbn [fst snd].
    + subst h1. exact Hinv.
    + cbn [bytes_written set_bytes_written out_base].
      destruct Hh as [[-> ->] | (n & Hn & Hbw)].
      * rewrite Z.sub_0_r, (to_off_t_id _ Hb). exact Hinv.
      * destruct (mem_size_1_unsigned len n Hn) as (-> & Hr).
        rewrite to_int_id in Hbw by (change (2 ^ 31) with 2147483648 in *; lia).
        rewrite Hbw, (to_off_t_restore _ _ _ Hb (to_uint64_congruent len)). lia.
  - intros off whence h w Hinv. rewrite OutputStream_seek_eq.
    destruct (negb _); [exact Hinv|].
    destruct (dir_of whence); [|exact Hinv]. cbv zeta.
    destruct (o_fail _); [exact Hinv|].
    destruct (o_tellp _) as [p s2]. destruct (p =? -1); [exact Hinv|].
    cbn [fst snd]. unfold seek_bookkeeping.
    destruct (whence =? SEEK_SET); [cbn; lia|].
    destruct (whence =? SEEK_END); [cbn; lia|exact Hinv].
  - intros h w Hinv. unfold OutputStream_unset_extent. run. cbn [backend errno].
    destruct (o_fail (o_seekp 0 ios_end (o_clear (backend w)))); [exact Hinv|].
    destruct (o_tellp _) as [e s2]. cbn [backend errno].
    destruct (e =? -1); [exact Hinv|]. cbn. lia.
Qed.

(** X10 on the write handle over the five-byte stream: the count and the
    length are 5, and 8 after three more bytes were written at the end. *)
Lemma X10_witness :
  length_tracks Sample.os_h
  /\ (let w := mkWorld 0 (Mem.set_pos 5 (Mem.zeros 5)) in
      let h := snd (fst (OutputStream_write (CFG := Sample.cfg)
                           (Some [x11; x22; x33]) 3 Sample.os_h w)) in
      bytes_written h = 8 /\ _length (out_base h) = 8 /\ length_tracks h).
Proof.
  assert (H0 : length_tracks Sample.os_h) by (vm_compute; intros H; discriminate H).
  refine (conj H0 _). cbv zeta. refine (conj eq_refl (conj eq_refl _)).
  exact (proj1 (proj2 (X10_length_tracks_bytes_written Sample.cfg Mem.stream
                         Mem.ostream))
           (Some [x11; x22; x33]) 3 Sample.os_h
           (mkWorld 0 (Mem.set_pos 5 (Mem.zeros 5))) H0).
Defined.

(** ** On a POSIX file system: the RAM disk *)

Lemma Ram_lookup_store {A B : Type} (eqb : A -> A -> bool) (k : A) (v : B)
      (l : list (A * B)) :
  eqb k k = true -> Ram.lookup eqb k (Ram.store eqb k v l) = Some v.
Proof.
  intros Hr. induction l as [|[k' v'] l IH]; cbn.
  - now rewrite Hr.
  - destruct (eqb k k') eqn:E; cbn.
    + now rewrite Hr.
    + now rewrite E.
Qed.

Lemma Ram_fresh_fd_ge (t : list (Z * Ram.ofd)) : 3 <= Ram.fresh_fd t.
Proof.
  unfold Ram.fresh_fd.
  assert (2 <= fold_right Z.max 2 (map fst t)) by (induction t; cbn; lia).
  lia.
Qed.

Section RamSeek.
Context `{CFG : Config}.

(** A position within the size limit passes the size check. *)
Lemma small_offset_valid (off : Z) :
  - UPX_RSIZE_MAX <= off <= UPX_RSIZE_MAX -> UPX_RSIZE_MAX < 2 ^ 63 ->
  mem_size_valid_bytes (magnitude off) = true.
Proof.
  intros Ho Hm. change (2 ^ 63) with 9223372036854775808 in Hm.
  unfold mem_size_valid_bytes, magnitude. apply Z.leb_le.
  destruct (0 <=? off) eqn:E.
  - apply Z.leb_le in E. rewrite to_uint64_id; [lia|].
    change (2 ^ 64) with 18446744073709551616. lia.
  - apply Z.leb_gt in E. rewrite to_off_t_id by off_lia.
    rewrite to_uint64_id; [lia|].
    change (2 ^ 64) with 18446744073709551616. lia.
Qed.

(** The real seek on the RAM disk to a position [target >= 0]. *)
Lemma Ram_real_seek (b : FileBase) (w : World Ram.disk) (o : Ram.ofd)
      (base target whence : Z) :
  Ram.lookup Z.eqb (_fd b) (Ram.fdtab (backend w)) = Some o ->
  (whence = SEEK_SET /\ base = 0 \/ whence = SEEK_CUR /\ base = Ram.ofd_pos o) ->
  0 <= _offset b -> _offset b <= base + target < 2 ^ 63 ->
  real_seek b target whence w
  = (inr (base + target - _offset b), b,
     mkWorld (errno w)
       (Ram.mkDisk (Ram.files (backend w))
          (Ram.store Z.eqb (_fd b) (Ram.mkOfd (Ram.ofd_file o) (base + target))
             (Ram.fdtab (backend w)))
          (Ram.room (backend w)) (Ram.perms (backend w)) (Ram.umask (backend w)))).
Proof.
  intros Hfd Hw Ho Ht. unfold real_seek. cbn [sys_lseek Ram.posix].
  unfold Ram.lseek. rewrite Hfd.
  assert (E : (if whence =? SEEK_SET then Some 0
               else if whence =? SEEK_CUR then Some (Ram.ofd_pos o)
               else if whence =? SEEK_END
                    then Some (Z.of_nat (List.length (Ram.contents (backend w) o)))
                    else None) = Some base).
  { destruct Hw as [[-> ->] | [-> ->]]; reflexivity. }
  rewrite E.
  replace (base + target <? 0) with false by (symmetry; apply Z.ltb_ge; lia).
  rewrite (to_off_t_id (base + target)) by off_lia.
  replace (base + target <? 0) with false by (symmetry; apply Z.ltb_ge; lia).
  rewrite to_off_t_id by off_lia. reflexivity.
Qed.

End RamSeek.

(** tell on the RAM disk. *)
Lemma Ram_tell (b : FileBase) (w : World Ram.disk) (o : Ram.ofd) :
  isOpen b = true ->
  Ram.lookup Z.eqb (_fd b) (Ram.fdtab (backend w)) = Some o ->
  0 <= _offset b -> _offset b <= Ram.ofd_pos o < 2 ^ 63 ->
  exists w', FileBase_tell b w = (inr (Ram.ofd_pos o - _offset b), b, w').
Proof.
  intros Hopen Hfd Ho Hp. unfold FileBase_tell. run. rewrite Hopen. cbn [negb].
  cbn [sys_lseek Ram.posix]. unfold Ram.lseek. rewrite Hfd.
  change (SEEK_CUR =? SEEK_SET) with false. change (SEEK_CUR =? SEEK_CUR) with true.
  cbv iota. rewrite Z.add_0_r.
  replace (Ram.ofd_pos o <? 0) with false by (symmetry; apply Z.ltb_ge; lia).
  rewrite (to_off_t_id (Ram.ofd_pos o)) by off_lia.
  replace (Ram.ofd_pos o <? 0) with false by (symmetry; apply Z.ltb_ge; lia).
  rewrite to_off_t_id by off_lia. eexists. reflexivity.
Qed.

(** X11: seek and tell agree on a POSIX file system.  For an open read
    handle with a window (offset, length) and every position
    [0 <= off <= length] within the size limit, a FROM_START seek to
    [off] returns [off] and a tell after it returns [off]; a FROM_END
    seek to [-off] returns [length - off] and a tell after it returns
    the same.  The handle is unchanged. *)
Theorem X11_seek_tell_round_trip :
  forall (CFG : Config) (h : InputFile) (w : World Ram.disk) (o : Ram.ofd) (off : Z),
  isOpen (in_base h) = true ->
  Ram.lookup Z.eqb (_fd (in_base h)) (Ram.fdtab (backend w)) = Some o ->
  no_overflow (_offset (in_base h)) (_length (in_base h)) ->
  0 <= off <= _length (in_base h) -> off <= UPX_RSIZE_MAX ->
  (exists w1 w2,
      InputFile_seek off SEEK_SET h w = (inr off, h, w1)
      /\ FileBase_tell (in_base h) w1 = (inr off, in_base h, w2))
  /\ (exists w1 w2,
         InputFile_seek (- off) SEEK_END h w
         = (inr (_length (in_base h) - off), h, w1)
         /\ FileBase_tell (in_base h) w1
            = (inr (_length (in_base h) - off), in_base h, w2)).
Proof.
  intros CFG h w o off Hopen Hfd Hwin Hoff Hlim.
  pose proof Hwin as (Ho & Hl & Hm & Hb).
  change (2 ^ 63) with 9223372036854775808 in Hb.
  assert (Hmax : UPX_RSIZE_MAX < 2 ^ 63) by off_lia.
  assert (V1 : mem_size_valid_bytes (magnitude off) = true)
    by (apply small_offset_valid; [lia|exact Hmax]).
  assert (V2 : mem_size_valid_bytes (magnitude (- off)) = true)
    by (apply small_offset_valid; [lia|exact Hmax]).
  assert (I1 : in_off_t off) by off_lia.
  assert (I2 : in_off_t (- off)) by off_lia.
  split.
  - destruct (FileBase_seek_rules off SEEK_SET (in_base h) w Hopen V1 I1 Hwin)
      as (_ & R & _).
    specialize (R eq_refl (proj1 Hoff)).
    rewrite (Ram_real_seek (in_base h) w o 0 (_offset (in_base h) + off) SEEK_SET
               Hfd (or_introl (conj eq_refl eq_refl)) Ho) in R by off_lia.
    replace (0 + (_offset (in_base h) + off) - _offset (in_base h)) with off in R
      by lia.
    match type of R with _ = (_, _, ?w1) => set (w1' := w1) in * end.
    destruct (Ram_tell (in_base h) w1'
                (Ram.mkOfd (Ram.ofd_file o) (0 + (_offset (in_base h) + off))) Hopen)
      as [w2 T].
    + apply Ram_lookup_store. apply Z.eqb_refl.
    + exact Ho.
    + cbn [Ram.ofd_pos]. off_lia.
    + cbn [Ram.ofd_pos] in T.
      replace (0 + (_offset (in_base h) + off) - _offset (in_base h)) with off in T
        by lia.
      exists w1', w2. split; [|exact T].
      rewrite InputFile_seek_eq, R.
      replace (_length (in_base h) <? off) with false
        by (symmetry; apply Z.ltb_ge; lia).
      destruct h; reflexivity.
  - destruct (FileBase_seek_rules (- off) SEEK_END (in_base h) w Hopen V2 I2 Hwin)
      as (_ & _ & _ & R & _).
    assert (Hle : - off <= 0) by lia.
    specialize (R eq_refl Hle).
    rewrite (Ram_real_seek (in_base h) w o 0
               (_offset (in_base h) + _length (in_base h) + - off) SEEK_SET
               Hfd (or_introl (conj eq_refl eq_refl)) Ho) in R by off_lia.
    replace (0 + (_offset (in_base h) + _length (in_base h) + - off)
             - _offset (in_base h)) with (_length (in_base h) - off) in R by lia.
    match type of R with _ = (_, _, ?w1) => set (w1' := w1) in * end.
    destruct (Ram_tell (in_base h) w1'
                (Ram.mkOfd (Ram.ofd_file o)
                   (0 + (_offset (in_base h) + _length (in_base h) + - off))) Hopen)
      as [w2 T].
    + apply Ram_lookup_store. apply Z.eqb_refl.
    + exact Ho.
    + cbn [Ram.ofd_pos]. off_lia.
    + cbn [Ram.ofd_pos] in T.
      replace (0 + (_offset (in_base h) + _length (in_base h) + - off)
               - _offset (in_base h)) with (_length (in_base h) - off) in T by lia.
      exists w1', w2. split; [|exact T].
      rewrite InputFile_seek_eq, R.
      replace (_length (in_base h) <? _length (in_base h) - off) with false
        by (symmetry; apply Z.ltb_ge; lia).
      destruct h; reflexivity.
Qed.

(** X11 on "five" with the window (offset 2, length 1): a FROM_END seek
    to 0 returns 1, as does the tell after it. *)
Lemma X11_witness :
  isOpen (in_base Sample.in_h21) = true
  /\ Ram.lookup Z.eqb (_fd (in_base Sample.in_h21)) (Ram.fdtab (backend Sample.in_w))
     = Some (Ram.mkOfd "five" 0)
  /\ no_overflow (H := Sample.cfg) (_offset (in_base Sample.in_h21))
                 (_length (in_base Sample.in_h21))
  /\ 0 <= 0 <= _length (in_base Sample.in_h21)
  /\ 0 <= UPX_RSIZE_MAX (Config := Sample.cfg)
  /\ exists w1 w2,
       InputFile_seek (CFG := Sample.cfg) (- 0) SEEK_END Sample.in_h21 Sample.in_w
       = (inr (_length (in_base Sample.in_h21) - 0), Sample.in_h21, w1)
       /\ FileBase_tell (in_base Sample.in_h21) w1
          = (inr (_length (in_base Sample.in_h21) - 0), in_base Sample.in_h21, w2).
Proof.
  assert (H1 : isOpen (in_base Sample.in_h21) = true) by reflexivity.
  assert (H2 : Ram.lookup Z.eqb (_fd (in_base Sample.in_h21))
                 (Ram.fdtab (backend Sample.in_w)) = Some (Ram.mkOfd "five" 0))
    by reflexivity.
  assert (H3 : no_overflow (H := Sample.cfg) (_offset (in_base Sample.in_h21))
                 (_length (in_base Sample.in_h21))) by by_eval.
  assert (H4 : 0 <= 0 <= _length (in_base Sample.in_h21)) by by_eval.
  assert (H5 : 0 <= UPX_RSIZE_MAX (Config := Sample.cfg)) by by_eval.
  refine (conj H1 (conj H2 (conj H3 (conj H4 (conj H5 _))))).
  exact (proj2 (X11_seek_tell_round_trip Sample.cfg Sample.in_h21 Sample.in_w
                  (Ram.mkOfd "five" 0) 0 H1 H2 H3 H4 H5)).
Defined.

Section RamFiles.
Context `{CFG : Config}.

(** A descriptor-backed read of [blen > 0] bytes that passes the checks
    is one call of the read primitive with errno cleared. *)
Lemma InputFile_read_eq {K : Type} `{OS : Posix K} (buf : option (list byte))
      (blen : Z) (h : InputFile) (w : World K) (space : list byte) :
  UPX_RSIZE_MAX < 2 ^ 31 -> isOpen (in_base h) = true ->
  0 < blen <= UPX_RSIZE_MAX -> raw_bytes buf blen = inr space ->
  InputFile_read buf blen h w =
  let '(r, w') := acc_safe_hread (_fd (in_base h)) blen (mkWorld 0 (backend w)) in
  if errno w' =? 0 then (inr (to_int (fst r), snd r), h, w')
  else (inl (IOException (Some "read error") (errno w')), h, w').
Proof.
  intros Hmax Hopen Hlen Hbuf. unfold InputFile_read. run. rewrite Hopen.
  replace (blen <? 0) with false by (symmetry; apply Z.ltb_ge; lia).
  cbn [negb orb]. rewrite (mem_size_1_ok blen Hlen Hmax).
  rewrite (to_int_id blen) by (change (2 ^ 31) with 2147483648 in *; lia).
  rewrite Hbuf.
  destruct (acc_safe_hread _ blen _) as [r w'].
  destruct (errno w' =? 0); reflexivity.
Qed.

(** Such an open of a file name of the directory, of a file that is
    absent or that the process may write, yields a fresh descriptor on
    the emptied file. *)
Lemma Ram_open_create (name : string) (mode : Z) (w : World Ram.disk) :
  Ram.plain name = true -> ram_may_write name (backend w) = true ->
  Ram.open (Some name) ram_create_flags mode w
  = (Ram.fresh_fd (Ram.fdtab (backend w)),
     mkWorld (errno w)
       (Ram.mkDisk (Ram.store String.eqb name [] (Ram.files (backend w)))
          ((Ram.fresh_fd (Ram.fdtab (backend w)), Ram.mkOfd name 0)
             :: Ram.fdtab (backend w))
          (Ram.room (backend w))
          (ram_perms_created name mode (backend w))
          (Ram.umask (backend w)))).
Proof.
  intros Hplain Hw. unfold Ram.open, ram_may_write, ram_perms_created in *.
  rewrite Hplain. cbn [negb].
  change (Ram.has Ram.O_CREAT ram_create_flags) with true.
  change (Ram.has Ram.O_EXCL ram_create_flags) with false.
  change (Ram.has Ram.O_TRUNC ram_create_flags) with true.
  change (Ram.wanted ram_create_flags) with Ram.S_IWUSR.
  destruct (Ram.lookup String.eqb name (Ram.files (backend w))); [|reflexivity].
  cbn [andb]. rewrite Hw. reflexivity.
Qed.

(** A read-only open of an existing file that the process may read. *)
Lemma Ram_open_existing (name : string) (data : list byte) (w : World Ram.disk) :
  Ram.plain name = true ->
  Ram.lookup String.eqb name (Ram.files (backend w)) = Some data ->
  Ram.has Ram.S_IRUSR (Ram.perm_of (backend w) name) = true ->
  Ram.open (Some name) Ram.O_RDONLY 0 w
  = (Ram.fresh_fd (Ram.fdtab (backend w)),
     mkWorld (errno w)
       (Ram.mkDisk (Ram.files (backend w))
          ((Ram.fresh_fd (Ram.fdtab (backend w)), Ram.mkOfd name 0)
             :: Ram.fdtab (backend w))
          (Ram.room (backend w)) (Ram.perms (backend w)) (Ram.umask (backend w)))).
Proof.
  intros Hplain H Hr. unfold Ram.open. rewrite Hplain, H. cbn [negb].
  change (Ram.has Ram.O_CREAT Ram.O_RDONLY) with false.
  change (Ram.has Ram.O_TRUNC Ram.O_RDONLY) with false.
  change (Ram.wanted Ram.O_RDONLY) with Ram.S_IRUSR.
  cbn [andb]. rewrite Hr. reflexivity.
Qed.

(** fstat of the descriptor at the head of the table. *)
Lemma Ram_fstat_head (fd : Z) (name : string) (pos : Z) (data : list byte)
      (e : Z) (fs : list (string * list byte)) (tab : list (Z * Ram.ofd)) (room : Z)
      (ps : list (string * Z)) (um : Z) :
  Ram.lookup String.eqb name fs = Some data ->
  Ram.fstat fd (mkWorld e (Ram.mkDisk fs ((fd, Ram.mkOfd name pos) :: tab) room ps um))
  = ((0, Z.of_nat (List.length data)),
     mkWorld e (Ram.mkDisk fs ((fd, Ram.mkOfd name pos) :: tab) room ps um)).
Proof.
  intros H. unfold Ram.fstat, Ram.contents. cbn [backend Ram.fdtab Ram.lookup Ram.files].
  rewrite Z.eqb_refl. cbn [Ram.ofd_file]. rewrite H. reflexivity.
Qed.

Lemma overwrite_empty (data : list byte) : Ram.overwrite [] 0 data = data.
Proof.
  unfold Ram.overwrite. cbn. rewrite skipn_nil. apply app_nil_r.
Qed.

End RamFiles.

Section RamRoundTrip.
Context `{CFG : Config}.

Lemma fresh_fd_not_negative (t : list (Z * Ram.ofd)) : (Ram.fresh_fd t <? 0) = false.
Proof. apply Z.ltb_ge. pose proof (Ram_fresh_fd_ge t). lia. Qed.

Lemma fresh_fd_owned (b : FileBase) (t : list (Z * Ram.ofd)) :
  _fd b = Ram.fresh_fd t -> owns_descriptor b = true /\ isOpen b = true.
Proof.
  intros E. pose proof (Ram_fresh_fd_ge t) as G. unfold owns_descriptor, isOpen.
  rewrite E.
  replace (0 <=? Ram.fresh_fd t) with true by (symmetry; apply Z.leb_le; lia).
  replace (Ram.fresh_fd t =? STDIN_FILENO) with false
    by (symmetry; apply Z.eqb_neq; unfold STDIN_FILENO; lia).
  replace (Ram.fresh_fd t =? STDOUT_FILENO) with false
    by (symmetry; apply Z.eqb_neq; unfold STDOUT_FILENO; lia).
  replace (Ram.fresh_fd t =? STDERR_FILENO) with false
    by (symmetry; apply Z.eqb_neq; unfold STDERR_FILENO; lia).
  split; reflexivity.
Qed.

(** Creating a file through the write handle. *)
Lemma Ram_sopen_create (name : string) (mode : Z) (w : World Ram.disk) :
  Ram.plain name = true -> ram_may_write name (backend w) = true ->
  OutputFile_sopen (Some name) ram_create_flags (-1) mode OutputFile_closed w
  = (inr tt,
     mkOutputFile
       (mkFileBase (Ram.fresh_fd (Ram.fdtab (backend w))) ram_create_flags (-1) mode
                   (Some name) 0 0 (mkStat 0)) 0,
     mkWorld (errno w)
       (Ram.mkDisk (Ram.store String.eqb name [] (Ram.files (backend w)))
          ((Ram.fresh_fd (Ram.fdtab (backend w)), Ram.mkOfd name 0)
             :: Ram.fdtab (backend w))
          (Ram.room (backend w))
          (ram_perms_created name mode (backend w))
          (Ram.umask (backend w)))).
Proof.
  intros Hplain Hmay.
  rewrite OutputFile_sopen_eq, FileBase_closex_eq.
  cbn [owns_descriptor out_base OutputFile_closed].
  change (owns_descriptor FileBase_closed) with false. cbv iota.
  rewrite FileBase_do_sopen_eq by reflexivity.
  cbn [reset_for_open after_close FileBase_closed _name _flags _mode _shflags st
       set_length set_offset set_mode set_shflags set_flags set_name
       sys_open sys_fstat Ram.posix].
  rewrite (Ram_open_create name mode w Hplain Hmay), fresh_fd_not_negative.
  rewrite (Ram_fstat_head _ name 0 [])
    by (apply Ram_lookup_store; apply String.eqb_refl).
  reflexivity.
Qed.

(** Opening an existing file through the read handle. *)
Lemma Ram_sopen_existing (name : string) (data : list byte) (w : World Ram.disk) :
  Ram.plain name = true ->
  Ram.lookup String.eqb name (Ram.files (backend w)) = Some data ->
  Ram.has Ram.S_IRUSR (Ram.perm_of (backend w) name) = true ->
  InputFile_sopen (Some name) Ram.O_RDONLY (-1) InputFile_closed w
  = (inr tt,
     mkInputFile
       (mkFileBase (Ram.fresh_fd (Ram.fdtab (backend w))) Ram.O_RDONLY (-1) 0
                   (Some name) 0 (Z.of_nat (List.length data))
                   (mkStat (Z.of_nat (List.length data))))
       (Z.of_nat (List.length data)),
     mkWorld (errno w)
       (Ram.mkDisk (Ram.files (backend w))
          ((Ram.fresh_fd (Ram.fdtab (backend w)), Ram.mkOfd name 0)
             :: Ram.fdtab (backend w))
          (Ram.room (backend w)) (Ram.perms (backend w)) (Ram.umask (backend w)))).
Proof.
  intros Hplain Hfile Hread. rewrite InputFile_sopen_eq, FileBase_closex_eq.
  cbn [in_base InputFile_closed].
  change (owns_descriptor FileBase_closed) with false. cbv iota.
  rewrite FileBase_do_sopen_eq by reflexivity.
  cbn [reset_for_open after_close FileBase_closed _name _flags _mode _shflags st
       set_length set_offset set_mode set_shflags set_flags set_name
       sys_open sys_fstat Ram.posix].
  rewrite (Ram_open_existing name data w Hplain Hfile Hread), fresh_fd_not_negative.
  rewrite (Ram_fstat_head _ name 0 data) by exact Hfile.
  reflexivity.
Qed.

End RamRoundTrip.

Section RamPrimitives.

Lemma Ram_hwrite_head (fd : Z) (name : string) (pos : Z) (old data : list byte)
      (e : Z) (fs : list (string * list byte)) (tab : list (Z * Ram.ofd)) (room : Z)
      (ps : list (string * Z)) (um : Z) :
  Ram.lookup String.eqb name fs = Some old ->
  Z.of_nat (List.length data) <= room ->
  Ram.hwrite fd data (Z.of_nat (List.length data))
    (mkWorld e (Ram.mkDisk fs ((fd, Ram.mkOfd name pos) :: tab) room ps um))
  = (Z.of_nat (List.length data),
     mkWorld e
       (Ram.mkDisk (Ram.store String.eqb name
                      (Ram.overwrite old (Z.to_nat pos) data) fs)
          ((fd, Ram.mkOfd name (pos + Z.of_nat (List.length data))) :: tab)
          (room - Z.of_nat (List.length data)) ps um)).
Proof.
  intros Hfile Hroom. unfold Ram.hwrite, Ram.contents.
  cbn [backend errno Ram.fdtab Ram.files Ram.room Ram.perms Ram.umask Ram.lookup
       Ram.store].
  rewrite Z.eqb_refl. cbn [Ram.ofd_file Ram.ofd_pos]. rewrite Hfile.
  replace (Z.max 0 (Z.min (Z.of_nat (List.length data)) room))
    with (Z.of_nat (List.length data)) by lia.
  rewrite Nat2Z.id, firstn_all, Z.ltb_irrefl. reflexivity.
Qed.

Lemma Ram_close_head (fd : Z) (o : Ram.ofd) (e : Z) (fs : list (string * list byte))
      (tab : list (Z * Ram.ofd)) (room : Z) (ps : list (string * Z)) (um : Z) :
  Ram.close fd (mkWorld e (Ram.mkDisk fs ((fd, o) :: tab) room ps um))
  = (0, mkWorld e (Ram.mkDisk fs tab room ps um)).
Proof.
  unfold Ram.close. cbn [backend errno Ram.fdtab Ram.files Ram.room Ram.perms
                         Ram.umask Ram.lookup Ram.remove].
  rewrite Z.eqb_refl. reflexivity.
Qed.

Lemma Ram_hread_head (fd : Z) (name : string) (data : list byte)
      (e : Z) (fs : list (string * list byte)) (tab : list (Z * Ram.ofd)) (room : Z)
      (ps : list (string * Z)) (um : Z) :
  Ram.lookup String.eqb name fs = Some data ->
  Ram.hread fd (Z.of_nat (List.length data))
    (mkWorld e (Ram.mkDisk fs ((fd, Ram.mkOfd name 0) :: tab) room ps um))
  = ((Z.of_nat (List.length data), data),
     mkWorld e
       (Ram.mkDisk fs ((fd, Ram.mkOfd name (0 + Z.of_nat (List.length data))) :: tab)
          room ps um)).
Proof.
  intros Hfile. unfold Ram.hread, Ram.contents.
  cbn [backend errno Ram.fdtab Ram.files Ram.room Ram.perms Ram.umask Ram.lookup
       Ram.store].
  rewrite Z.eqb_refl. cbn [Ram.ofd_file Ram.ofd_pos]. rewrite Hfile.
  change (Z.to_nat 0) with 0%nat. cbn [skipn].
  rewrite Nat2Z.id, firstn_all. reflexivity.
Qed.

End RamPrimitives.

(** X12: a round trip through a POSIX file system, for a file name of
    the directory.  When the file is absent or the process may write it,
    and the process may read it afterwards (the file that is there, or
    the one created with [mode] under the umask): creating (or
    truncating) the file through the write handle, writing a non-empty
    buffer within the size limit for which the disk has room, and closing
    leaves a file that holds exactly these bytes and leaves the
    descriptor table as it was; opening that file through the read
    handle then gives a handle whose length is the number of bytes
    written, and readx of that many bytes returns exactly the bytes. *)
Theorem X12_write_close_read_round_trip :
  forall (CFG : Config) (w : World Ram.disk) (name : string) (mode : Z)
         (data : list byte) (buf : option (list byte)) (space : list byte),
  Ram.plain name = true ->
  ram_may_write name (backend w) = true ->
  ram_may_read_back name mode (backend w) = true ->
  UPX_RSIZE_MAX < 2 ^ 31 ->
  0 < Z.of_nat (List.length data) <= UPX_RSIZE_MAX ->
  Z.of_nat (List.length data) <= Ram.room (backend w) ->
  raw_bytes (Some data) (Z.of_nat (List.length data)) = inr data ->
  raw_bytes buf (Z.of_nat (List.length data)) = inr space ->
  exists ho w1 hi w2,
    (OutputFile_sopen (Some name) ram_create_flags (-1) mode ;;
     OutputFile_write (Some data) (Z.of_nat (List.length data)) ;;
     out_super FileBase_closex) OutputFile_closed w
    = (inr tt, ho, w1)
    /\ bytes_written ho = Z.of_nat (List.length data)
    /\ isOpen (out_base ho) = false
    /\ Ram.fdtab (backend w1) = Ram.fdtab (backend w)
    /\ Ram.lookup String.eqb name (Ram.files (backend w1)) = Some data
    /\ (InputFile_sopen (Some name) Ram.O_RDONLY (-1) ;;
        InputFile_readx buf (Z.of_nat (List.length data))) InputFile_closed w1
       = (inr (Z.of_nat (List.length data), data), hi, w2)
    /\ _length (in_base hi) = Z.of_nat (List.length data).
Proof.
  intros CFG w name mode data buf space Hplain Hmay Hback Hmax Hlen Hroom Hsrc Hdst.
  set (len := Z.of_nat (List.length data)) in *.
  set (fd := Ram.fresh_fd (Ram.fdtab (backend w))).
  set (fs0 := Ram.store String.eqb name [] (Ram.files (backend w))).
  set (ps := ram_perms_created name mode (backend w)).
  set (um := Ram.umask (backend w)).
  assert (Hfs0 : Ram.lookup String.eqb name fs0 = Some [])
    by (apply Ram_lookup_store; apply String.eqb_refl).
  set (fs1 := Ram.store String.eqb name data fs0).
  assert (Hfs1 : Ram.lookup String.eqb name fs1 = Some data)
    by (apply Ram_lookup_store; apply String.eqb_refl).
  set (ho1 := mkOutputFile (mkFileBase fd ram_create_flags (-1) mode (Some name) 0 0
                              (mkStat 0)) 0).
  destruct (fresh_fd_owned (out_base ho1) (Ram.fdtab (backend w)) eq_refl)
    as [Hown Hopen].
  (* the write *)
  assert (Hwrite :
    OutputFile_write (Some data) len ho1
      (mkWorld (errno w)
         (Ram.mkDisk fs0 ((fd, Ram.mkOfd name 0) :: Ram.fdtab (backend w))
            (Ram.room (backend w)) ps um))
    = (inr tt, set_bytes_written len ho1,
       mkWorld 0
         (Ram.mkDisk fs1 ((fd, Ram.mkOfd name (0 + len)) :: Ram.fdtab (backend w))
            (Ram.room (backend w) - len) ps um))).
  { rewrite (OutputFile_write_eq (Some data) len ho1 _ data Hmax Hopen Hlen Hsrc).
    cbn [acc_safe_hwrite Ram.posix backend out_base ho1 _fd].
    unfold len. rewrite (Ram_hwrite_head fd name 0 [] data 0 fs0 _ _ ps um Hfs0 Hroom).
    fold len. rewrite Z.eqb_refl. change (Z.to_nat 0) with 0%nat.
    rewrite overwrite_empty. fold fs1. cbn [bytes_written ho1].
    rewrite to_off_t_id
      by (change (2 ^ 31) with 2147483648 in Hmax; off_lia).
    reflexivity. }
  (* the close *)
  assert (Hclose :
    out_super FileBase_closex (set_bytes_written len ho1)
      (mkWorld 0
         (Ram.mkDisk fs1 ((fd, Ram.mkOfd name (0 + len)) :: Ram.fdtab (backend w))
            (Ram.room (backend w) - len) ps um))
    = (inr tt, mkOutputFile (after_close (out_base ho1)) len,
       mkWorld 0 (Ram.mkDisk fs1 (Ram.fdtab (backend w)) (Ram.room (backend w) - len)
                    ps um))).
  { unfold out_super, super. cbn [out_base set_bytes_written bytes_written].
    rewrite FileBase_closex_eq, Hown. cbn [sys_close Ram.posix out_base ho1 _fd].
    rewrite Ram_close_head. reflexivity. }
  set (w1 := mkWorld 0 (Ram.mkDisk fs1 (Ram.fdtab (backend w))
                          (Ram.room (backend w) - len) ps um)).
  (* the process may read the file *)
  assert (Hread1 : Ram.has Ram.S_IRUSR (Ram.perm_of (backend w1) name) = true).
  { unfold Ram.perm_of. cbn [w1 backend Ram.perms]. unfold ps, ram_perms_created.
    unfold ram_may_read_back, Ram.perm_of in Hback.
    destruct (Ram.lookup String.eqb name (Ram.files (backend w))).
    - exact Hback.
    - rewrite Ram_lookup_store by apply String.eqb_refl. exact Hback. }
  set (hi1 := mkInputFile (mkFileBase fd Ram.O_RDONLY (-1) 0 (Some name) 0 len
                             (mkStat len)) len).
  destruct (fresh_fd_owned (in_base hi1) (Ram.fdtab (backend w)) eq_refl)
    as [_ Hopen'].
  (* the read *)
  assert (Hread :
    InputFile_readx buf len hi1
      (mkWorld 0
         (Ram.mkDisk fs1 ((fd, Ram.mkOfd name 0) :: Ram.fdtab (backend w))
            (Ram.room (backend w) - len) ps um))
    = (inr (len, data), hi1,
       mkWorld 0
         (Ram.mkDisk fs1 ((fd, Ram.mkOfd name (0 + len)) :: Ram.fdtab (backend w))
            (Ram.room (backend w) - len) ps um))).
  { rewrite InputFile_readx_eq.
    rewrite (InputFile_read_eq buf len hi1 _ space Hmax Hopen' Hlen Hdst).
    cbn [acc_safe_hread Ram.posix backend in_base hi1 _fd].
    unfold len. rewrite (Ram_hread_head fd name data 0 fs1 _ _ ps um Hfs1). fold len.
    cbn [errno fst snd Z.eqb].
    rewrite to_int_id by (change (2 ^ 31) with 2147483648 in *; lia).
    rewrite Z.eqb_refl. reflexivity. }
  exists (mkOutputFile (after_close (out_base ho1)) len), w1, hi1.
  eexists. repeat apply conj.
  - unfold bind at 1. rewrite (Ram_sopen_create name mode w Hplain Hmay).
    fold fd fs0 ps um ho1.
    unfold bind. rewrite Hwrite, Hclose. reflexivity.
  - reflexivity.
  - reflexivity.
  - reflexivity.
  - exact Hfs1.
  - unfold bind. rewrite (Ram_sopen_existing name data w1 Hplain Hfs1 Hread1).
    cbn [backend errno w1 Ram.fdtab Ram.files Ram.room Ram.perms Ram.umask].
    fold fd len hi1.
    rewrite Hread. reflexivity.
  - reflexivity.
Qed.

(** X12 on the sample disk: three bytes written to the new file "copy",
    created with the mode 0600, are there after the close and are read
    back. *)
Lemma X12_witness :
  Ram.plain "copy" = true
  /\ ram_may_write "copy" (backend Sample.disk0) = true
  /\ ram_may_read_back "copy" 384 (backend Sample.disk0) = true
  /\ UPX_RSIZE_MAX (Config := Sample.cfg) < 2 ^ 31
  /\ 0 < Z.of_nat (List.length [x01; x02; x03]) <= UPX_RSIZE_MAX (Config := Sample.cfg)
  /\ Z.of_nat (List.length [x01; x02; x03]) <= Ram.room (backend Sample.disk0)
  /\ exists ho w1 hi w2,
       (OutputFile_sopen (CFG := Sample.cfg) (Some "copy") ram_create_flags (-1) 384 ;;
        OutputFile_write (CFG := Sample.cfg) (Some [x01; x02; x03])
          (Z.of_nat (List.length [x01; x02; x03])) ;;
        out_super FileBase_closex) OutputFile_closed Sample.disk0
       = (inr tt, ho, w1)
       /\ bytes_written ho = Z.of_nat (List.length [x01; x02; x03])
       /\ isOpen (out_base ho) = false
       /\ Ram.fdtab (backend w1) = Ram.fdtab (backend Sample.disk0)
       /\ Ram.lookup String.eqb "copy" (Ram.files (backend w1)) = Some [x01; x02; x03]
       /\ (InputFile_sopen (CFG := Sample.cfg) (Some "copy") Ram.O_RDONLY (-1) ;;
           InputFile_readx (CFG := Sample.cfg) (Some [x00; x00; x00])
             (Z.of_nat (List.length [x01; x02; x03]))) InputFile_closed w1
          = (inr (Z.of_nat (List.length [x01; x02; x03]), [x01; x02; x03]), hi, w2)
       /\ _length (in_base hi) = Z.of_nat (List.length [x01; x02; x03]).
Proof.
  assert (Hp : Ram.plain "copy" = true) by reflexivity.
  assert (Hw : ram_may_write "copy" (backend Sample.disk0) = true) by reflexivity.
  assert (Hr : ram_may_read_back "copy" 384 (backend Sample.disk0) = true)
    by reflexivity.
  assert (H1 : UPX_RSIZE_MAX (Config := Sample.cfg) < 2 ^ 31) by by_eval.
  assert (H2 : 0 < Z.of_nat (List.length [x01; x02; x03])
               <= UPX_RSIZE_MAX (Config := Sample.cfg)) by by_eval.
  assert (H3 : Z.of_nat (List.length [x01; x02; x03])
               <= Ram.room (backend Sample.disk0)) by by_eval.
  refine (conj Hp (conj Hw (conj Hr (conj H1 (conj H2 (conj H3 _)))))).
  exact (X12_write_close_read_round_trip Sample.cfg Sample.disk0 "copy" 384
           [x01; x02; x03] (Some [x00; x00; x00]) [x00; x00; x00]
           Hp Hw Hr H1 H2 H3 eq_refl eq_refl).
Defined.

Section DumpProperties.
Context `{CFG : Config} {K : Type} `{OS : Posix K} `{OSM : PosixMore K}.

(** The destructor is closex outside unwinding and close_noexcept, its
    result dropped, during unwinding. *)
Lemma FileBase_dtor_eq (uncaught : Z) (h : FileBase) (w : World K) :
  FileBase_dtor uncaught h w =
  if owns_descriptor h
  then let '(r, w') := sys_close (_fd h) w in
       if (uncaught =? 0) && (r =? -1)
       then (inl (IOException (Some "close failed") (errno w')), after_close h, w')
       else (inr tt, after_close h, w')
  else (inr tt, after_close h, w).
Proof.
  unfold FileBase_dtor. destruct (uncaught =? 0).
  - rewrite FileBase_closex_eq. destruct (owns_descriptor h); [|reflexivity].
    destruct (sys_close (_fd h) w) as [r w']. reflexivity.
  - run. rewrite FileBase_close_noexcept_eq.
    destruct (owns_descriptor h); [|reflexivity].
    destruct (sys_close (_fd h) w) as [r w']. reflexivity.
Qed.

(** A body of dump that returns has closed its handle. *)
Lemma OutputFile_dump_body_closed (name : option string) (buf : option (list byte))
      (len flags : Z) (w w1 : World K) (f : OutputFile) (u : unit) :
  OutputFile_dump_body name buf len flags OutputFile_closed w = (inr u, f, w1) ->
  exists b, out_base f = after_close b.
Proof.
  unfold OutputFile_dump_body, OutputFile_open, out_super. run. intros H.
  destruct (OutputFile_sopen _ _ _ _ _ w) as [[[x|u0] f1] w0]; [inversion H|].
  destruct (raw_bytes buf len) as [x|data]; [inversion H|].
  destruct (OutputFile_write (Some data) len f1 w0) as [[[x|u1] f2] w2];
    [inversion H|].
  rewrite FileBase_closex_eq in H.
  destruct (owns_descriptor (out_base f2)).
  - destruct (sys_close _ w2) as [r w3]. destruct (r =? -1); inversion H.
    exists (out_base f2). reflexivity.
  - inversion H. exists (out_base f2). reflexivity.
Qed.

End DumpProperties.

(** X13: how dump ends.  When the body (open, write, closex) raises, the
    local handle is released by close_noexcept and dump raises exactly
    the exception of the body: a failing close during the unwinding is
    not reported.  When the body returns, the handle has been closed by
    closex, and the destructor touches nothing. *)
Theorem X13_dump_exceptions :
  forall (CFG : Config) (K : Type) (OS : Posix K) (OSM : PosixMore K)
         (uncaught : Z) (name : option string) (buf : option (list byte))
         (len flags : Z) (w : World K),
  0 <= uncaught ->
  match OutputFile_dump_body name buf len flags OutputFile_closed w with
  | (inl x, f, w1) =>
      OutputFile_dump uncaught name buf len flags w
      = (inl x, snd (FileBase_close_noexcept (out_base f) w1))
  | (inr _, f, w1) =>
      OutputFile_dump uncaught name buf len flags w = (inr tt, w1)
      /\ isOpen (out_base f) = false
  end.
Proof.
  intros CFG K OS OSM uncaught name buf len flags w Hu.
  unfold OutputFile_dump.
  destruct (OutputFile_dump_body name buf len flags OutputFile_closed w)
    as [[[x|u] f] w1] eqn:Hbody.
  - unfold out_super. run. rewrite FileBase_dtor_eq, FileBase_close_noexcept_eq.
    replace (uncaught + 1 =? 0) with false by (symmetry; apply Z.eqb_neq; lia).
    destruct (owns_descriptor (out_base f)); [|reflexivity].
    destruct (sys_close _ w1) as [r w2]. reflexivity.
  - destruct (OutputFile_dump_body_closed _ _ _ _ _ _ _ _ Hbody) as [b Hb].
    unfold out_super. run. rewrite FileBase_dtor_eq, Hb.
    split; reflexivity.
Qed.

(** X13 on the sample disk: writing to a name that cannot be opened (no
    name at all) raises the error of the open. *)
Lemma X13_witness :
  0 <= 0
  /\ OutputFile_dump (CFG := Sample.cfg) 0 None (Some [x01]) 1 (-1) Sample.disk0
     = (inl (IOException None Ram.EFAULT), mkWorld Ram.EFAULT (backend Sample.disk0)).
Proof.
  assert (H : 0 <= 0) by (intros E; discriminate E).
  refine (conj H _).
  exact (X13_dump_exceptions Sample.cfg Ram.disk Ram.posix ram_more 0 None
           (Some [x01]) 1 (-1) Sample.disk0 H).
Defined.

Section RamDescriptors.
Context `{CFG : Config}.

(** The open primitive fails and leaves the descriptor table alone, or
    puts a fresh descriptor at its head. *)
Lemma Ram_open_fdtab (name : option string) (flags mode : Z) (w : World Ram.disk) :
  (fst (Ram.open name flags mode w) = -1
   /\ Ram.fdtab (backend (snd (Ram.open name flags mode w))) = Ram.fdtab (backend w))
  \/ (fst (Ram.open name flags mode w) = Ram.fresh_fd (Ram.fdtab (backend w))
      /\ exists o,
           Ram.fdtab (backend (snd (Ram.open name flags mode w)))
           = (Ram.fresh_fd (Ram.fdtab (backend w)), o) :: Ram.fdtab (backend w)).
Proof.
  unfold Ram.open. destruct name as [n|]; [|left; split; reflexivity].
  destruct (negb (Ram.plain n)); [left; split; reflexivity|].
  destruct (Ram.lookup String.eqb n (Ram.files (backend w))).
  - destruct (Ram.has Ram.O_CREAT flags && Ram.has Ram.O_EXCL flags).
    + left. split; reflexivity.
    + destruct (negb (Ram.has (Ram.wanted flags) (Ram.perm_of (backend w) n))).
      * left. split; reflexivity.
      * right. split; [reflexivity|]. eexists. reflexivity.
  - destruct (Ram.has Ram.O_CREAT flags).
    + right. split; [reflexivity|]. eexists. reflexivity.
    + left. split; reflexivity.
Qed.

Lemma Ram_hwrite_fdtab (fd : Z) (data : list byte) (len : Z) (w : World Ram.disk)
      (o : Ram.ofd) (tab : list (Z * Ram.ofd)) :
  Ram.fdtab (backend w) = (fd, o) :: tab ->
  exists o', Ram.fdtab (backend (snd (Ram.hwrite fd data len w))) = (fd, o') :: tab.
Proof.
  intros H. unfold Ram.hwrite. rewrite H. cbn [Ram.lookup]. rewrite Z.eqb_refl.
  cbn [snd backend Ram.fdtab Ram.store]. rewrite Z.eqb_refl.
  eexists. reflexivity.
Qed.

Lemma Ram_close_fdtab (fd : Z) (w : World Ram.disk) (o : Ram.ofd)
      (tab : list (Z * Ram.ofd)) :
  Ram.fdtab (backend w) = (fd, o) :: tab ->
  Ram.fdtab (backend (snd (Ram.close fd w))) = tab.
Proof.
  intros H. unfold Ram.close. rewrite H. cbn [Ram.lookup]. rewrite Z.eqb_refl.
  cbn [snd backend Ram.fdtab Ram.remove]. rewrite Z.eqb_refl. reflexivity.
Qed.

(** The destructor of a handle whose descriptor heads the table removes
    it; that of a handle without a descriptor leaves the world alone. *)
Lemma Ram_dtor_fdtab (uncaught : Z) (b : FileBase) (w : World Ram.disk)
      (tab : list (Z * Ram.ofd)) :
  (owns_descriptor b = true /\ exists o, Ram.fdtab (backend w) = (_fd b, o) :: tab)
  \/ (owns_descriptor b = false /\ Ram.fdtab (backend w) = tab) ->
  Ram.fdtab (backend (snd (FileBase_dtor uncaught b w))) = tab.
Proof.
  intros [[Hown [o Ho]]|[Hown Ho]]; rewrite FileBase_dtor_eq, Hown.
  - pose proof (Ram_close_fdtab (_fd b) w o tab Ho) as Hc.
    cbn [sys_close Ram.posix]. destruct (Ram.close (_fd b) w) as [r w'].
    cbn [snd] in Hc. destruct ((uncaught =? 0) && (r =? -1)); exact Hc.
  - exact Ho.
Qed.

(** A write keeps the descriptor of the handle at the head of the table,
    whether it returns or raises. *)
Lemma Ram_write_fdtab (buf : option (list byte)) (len : Z) (h : OutputFile)
      (w : World Ram.disk) (o : Ram.ofd) (tab : list (Z * Ram.ofd)) :
  Ram.fdtab (backend w) = (_fd (out_base h), o) :: tab ->
  out_base (snd (fst (OutputFile_write buf len h w))) = out_base h
  /\ exists o',
       Ram.fdtab (backend (snd (OutputFile_write buf len h w)))
       = (_fd (out_base h), o') :: tab.
Proof.
  intros H. unfold OutputFile_write. run.
  destruct (negb (isOpen (out_base h)) || (len <? 0)); [split; eauto|].
  destruct (len =? 0); [split; eauto|].
  destruct (mem_size 1 len) as [x|n]; [split; eauto|].
  cbn [of_result]. unfold ret, throw.
  destruct (raw_bytes buf (to_int n)) as [x|data]; [split; eauto|].
  cbn [acc_safe_hwrite Ram.posix].
  destruct (Ram_hwrite_fdtab (_fd (out_base h)) data (to_int n)
              (mkWorld 0 (backend w)) o tab H) as [o' Ho'].
  destruct (Ram.hwrite _ data (to_int n) _) as [l w']. cbn [snd] in Ho'.
  destruct (negb (l =? to_int n)); split; eauto.
Qed.

(** An open through a closed write handle fails without a descriptor, or
    returns with the fresh descriptor at the head of the table. *)
Lemma Ram_sopen_fdtab (name : option string) (flags mode : Z) (w : World Ram.disk) :
  let '(r, f, w1) := OutputFile_sopen name flags (-1) mode OutputFile_closed w in
  (owns_descriptor (out_base f) = false
   /\ Ram.fdtab (backend w1) = Ram.fdtab (backend w)
   /\ exists x, r = inl x)
  \/ (owns_descriptor (out_base f) = true
      /\ exists o, Ram.fdtab (backend w1) = (_fd (out_base f), o) :: Ram.fdtab (backend w)).
Proof.
  rewrite OutputFile_sopen_eq, FileBase_closex_eq.
  cbn [out_base OutputFile_closed].
  change (owns_descriptor FileBase_closed) with false. cbv iota.
  rewrite FileBase_do_sopen_eq by reflexivity.
  cbn [reset_for_open after_close FileBase_closed _name _flags _mode _shflags st
       set_length set_offset set_mode set_shflags set_flags set_name
       sys_open sys_fstat Ram.posix].
  destruct (Ram_open_fdtab name flags mode w) as [[Hfd Htab]|[Hfd [o Htab]]];
    destruct (Ram.open name flags mode w) as [fd w1]; cbn [fst snd] in Hfd, Htab;
    subst fd.
  - change (-1 <? 0) with true. cbv iota. left.
    split; [reflexivity|]. split; [exact Htab|]. eexists. reflexivity.
  - rewrite fresh_fd_not_negative.
    unfold Ram.fstat. rewrite Htab. cbn [Ram.lookup]. rewrite Z.eqb_refl.
    cbn [fst snd]. change (0 =? 0) with true. cbv iota. right.
    split.
    + apply (fresh_fd_owned _ (Ram.fdtab (backend w))). reflexivity.
    + exists o. exact Htab.
Qed.

End RamDescriptors.

(** X14: dump never leaks a descriptor.  On a POSIX file system, whatever
    the name, the buffer, the length and the flags are, and whether dump
    returns or raises (the open is refused, the buffer is too short, the
    length is rejected, the disk is full, the close fails), the
    descriptor table after dump is the one before it. *)
Theorem X14_dump_releases_descriptor :
  forall (CFG : Config) (uncaught : Z) (name : option string)
         (buf : option (list byte)) (len flags : Z) (w : World Ram.disk),
  Ram.fdtab (backend (snd (OutputFile_dump uncaught name buf len flags w)))
  = Ram.fdtab (backend w).
Proof.
  intros CFG uncaught name buf len flags w.
  unfold OutputFile_dump, OutputFile_dump_body, OutputFile_open, out_super. run.
  match goal with
  | |- context [OutputFile_sopen name ?fl (-1) 384 OutputFile_closed w] =>
      pose proof (Ram_sopen_fdtab name fl 384 w) as Hopen;
      destruct (OutputFile_sopen name fl (-1) 384 OutputFile_closed w)
        as [[r f1] w1]
  end.
  destruct Hopen as [[Hown [Htab [x Hx]]]|[Hown [o Htab]]].
  - (* the open failed: the handle holds no descriptor *)
    subst r.
    pose proof (Ram_dtor_fdtab (uncaught + 1) (out_base f1) w1 _
                  (or_intror (conj Hown Htab))) as Hd.
    destruct (FileBase_dtor (uncaught + 1) (out_base f1) w1) as [[r2 b2] w2].
    exact Hd.
  - destruct r as [x|u].
    { pose proof (Ram_dtor_fdtab (uncaught + 1) (out_base f1) w1 _
                    (or_introl (conj Hown (ex_intro _ o Htab)))) as Hd.
      destruct (FileBase_dtor (uncaught + 1) (out_base f1) w1) as [[r2 b2] w2].
      exact Hd. }
    destruct (raw_bytes buf len) as [x|data].
    { cbn [of_result]. unfold throw.
      pose proof (Ram_dtor_fdtab (uncaught + 1) (out_base f1) w1 _
                    (or_introl (conj Hown (ex_intro _ o Htab)))) as Hd.
      destruct (FileBase_dtor (uncaught + 1) (out_base f1) w1) as [[r2 b2] w2].
      exact Hd. }
    cbn [of_result]. unfold ret.
    destruct (Ram_write_fdtab (Some data) len f1 w1 o _ Htab) as [Hb [o' Hw]].
    destruct (OutputFile_write (Some data) len f1 w1) as [[r f2] w2].
    cbn [fst snd] in Hb, Hw. rewrite <- Hb in Hw, Hown.
    destruct r as [x|u1].
    { pose proof (Ram_dtor_fdtab (uncaught + 1) (out_base f2) w2 _
                    (or_introl (conj Hown (ex_intro _ o' Hw)))) as Hd.
      destruct (FileBase_dtor (uncaught + 1) (out_base f2) w2) as [[r2 b2] w3].
      exact Hd. }
    (* closex, then the destructor on the closed handle *)
    rewrite FileBase_closex_eq, Hown. cbn [sys_close Ram.posix].
    pose proof (Ram_close_fdtab _ w2 o' _ Hw) as Hc.
    destruct (Ram.close (_fd (out_base f2)) w2) as [rc w3]. cbn [snd] in Hc.
    destruct (rc =? -1); cbn [out_base bytes_written];
      rewrite FileBase_dtor_eq; exact Hc.
Qed.

Section RamDump.
Context `{CFG : Config}.

Lemma Ram_lookup_store_other {B : Type} (k k' : string) (v : B)
      (l : list (string * B)) :
  k' <> k ->
  Ram.lookup String.eqb k' (Ram.store String.eqb k v l) = Ram.lookup String.eqb k' l.
Proof.
  intros Hne. apply String.eqb_neq in Hne.
  induction l as [|[k0 v0] l IH]; cbn.
  - now rewrite Hne.
  - destruct (String.eqb k k0) eqn:E; cbn.
    + apply String.eqb_eq in E. subst k0. now rewrite Hne.
    + now rewrite IH.
Qed.

(** Writing a whole buffer at the start of an empty file for which the
    disk has room. *)
Lemma Ram_write_fresh (h : OutputFile) (name : string) (data : list byte) (e : Z)
      (fs : list (string * list byte)) (tab : list (Z * Ram.ofd)) (room : Z)
      (ps : list (string * Z)) (um : Z) :
  UPX_RSIZE_MAX < 2 ^ 31 -> isOpen (out_base h) = true ->
  Z.of_nat (List.length data) <= UPX_RSIZE_MAX ->
  Z.of_nat (List.length data) <= room ->
  raw_bytes (Some data) (Z.of_nat (List.length data)) = inr data ->
  Ram.lookup String.eqb name fs = Some [] ->
  exists h' e' fs' o',
    OutputFile_write (Some data) (Z.of_nat (List.length data)) h
      (mkWorld e (Ram.mkDisk fs ((_fd (out_base h), Ram.mkOfd name 0) :: tab) room
                    ps um))
    = (inr tt, h',
       mkWorld e' (Ram.mkDisk fs' ((_fd (out_base h), o') :: tab)
                     (room - Z.of_nat (List.length data)) ps um))
    /\ out_base h' = out_base h
    /\ Ram.lookup String.eqb name fs' = Some data
    /\ (forall other, other <> name ->
          Ram.lookup String.eqb other fs' = Ram.lookup String.eqb other fs).
Proof.
  intros Hmax Hopen Hlen Hroom Hsrc Hfile.
  destruct (Z.eq_dec (Z.of_nat (List.length data)) 0) as [E0|E0].
  - (* nothing to write *)
    assert (data = []) by (destruct data; [reflexivity|discriminate E0]). subst data.
    exists h, e, fs, (Ram.mkOfd name 0).
    split; [|split; [reflexivity|split; [exact Hfile|reflexivity]]].
    unfold OutputFile_write. run. rewrite Hopen. cbn.
    rewrite Z.sub_0_r. reflexivity.
  - eexists _, _, _, _. split; [|split; [|split]].
    + rewrite (OutputFile_write_eq (Some data) _ h _ data Hmax Hopen) by (lia || exact Hsrc).
      cbn [acc_safe_hwrite Ram.posix backend].
      rewrite (Ram_hwrite_head _ name 0 [] data 0 fs tab room ps um Hfile Hroom).
      rewrite Z.eqb_refl. reflexivity.
    + reflexivity.
    + change (Z.to_nat 0) with 0%nat. rewrite overwrite_empty.
      apply Ram_lookup_store. apply String.eqb_refl.
    + intros other Hne. apply Ram_lookup_store_other. exact Hne.
Qed.

End RamDump.



(** ** dupFd *)

(** X16: dupFd on an open read handle never changes the handle, returns
    only a descriptor that is not negative (the one [dup] gave), and
    reports every other outcome as the IOError "dup" with the errno then
    current.  In a build without [dup] it always raises "dup" with
    ENOSYS and calls no primitive. *)
Theorem X16_dupFd :
  forall (K : Type) (OSM : PosixMore K) (h : InputFile) (w : World K),
  isOpen (in_base h) = true ->
  snd (fst (InputFile_dupFd h w)) = h
  /\ match fst (fst (InputFile_dupFd h w)) with
     | inr fd =>
         have_dup = true /\ 0 <= fd
         /\ (fd, snd (InputFile_dupFd h w)) = sys_dup (_fd (in_base h)) w
     | inl x => x = IOException (Some "dup") (errno (snd (InputFile_dupFd h w)))
     end
  /\ (have_dup = false ->
      InputFile_dupFd h w
      = (inl (IOException (Some "dup") ENOSYS), h, mkWorld ENOSYS (backend w))).
Proof.
  intros K OSM h w Hopen. unfold InputFile_dupFd. run. rewrite Hopen. cbn [negb].
  destruct have_dup.
  - destruct (sys_dup (_fd (in_base h)) w) as [r w1]. cbn [fst snd].
    destruct (r <? 0) eqn:E; cbn [fst snd].
    + repeat split. intros H; discriminate H.
    + apply Z.ltb_ge in E. repeat split; try assumption. intros H; discriminate H.
  - cbn. repeat split.
Qed.

(** X16 on the read handle on "five": the RAM disk is a build without
    [dup]. *)
Lemma X16_witness :
  isOpen (in_base Sample.in_h) = true
  /\ have_dup (K := Ram.disk) = false
  /\ InputFile_dupFd Sample.in_h Sample.in_w
     = (inl (IOException (Some "dup") ENOSYS), Sample.in_h,
        mkWorld ENOSYS (backend Sample.in_w)).
Proof.
  assert (H1 : isOpen (in_base Sample.in_h) = true) by reflexivity.
  assert (H2 : have_dup (K := Ram.disk) = false) by reflexivity.
  refine (conj H1 (conj H2 _)).
  exact (proj2 (proj2 (X16_dupFd Ram.disk ram_more Sample.in_h Sample.in_w H1)) H2).
Defined.

(** ** The window of a write handle *)

Section RamExtent.

(** set_extent on the RAM disk never raises and leaves the world alone:
    the fstat of its special case succeeds on an open descriptor. *)
Lemma Ram_set_extent (offset length : Z) (h : OutputFile) (w : World Ram.disk)
      (o : Ram.ofd) :
  Ram.lookup Z.eqb (_fd (out_base h)) (Ram.fdtab (backend w)) = Some o ->
  exists h',
    OutputFile_set_extent offset length h w = (inr tt, h', w)
    /\ _fd (out_base h') = _fd (out_base h)
    /\ bytes_written h' = 0
    /\ _offset (out_base h') = offset.
Proof.
  intros Hfd. unfold OutputFile_set_extent, FileBase_set_extent, out_super. run.
  destruct ((0 =? offset) && (4294967295 =? length)).
  - cbn [sys_fstat Ram.posix]. unfold Ram.fstat.
    match goal with
    | |- context [Ram.lookup Z.eqb (_fd ?b) _] =>
        change (_fd b) with (_fd (out_base h))
    end.
    rewrite Hfd. cbn [fst snd].
    change (0 =? 0) with true. cbn [negb]. eexists. repeat split.
  - eexists. repeat split.
Qed.

End RamExtent.

(** X17: unset_extent discards the window and makes the handle span the
    whole file.  On a POSIX file system, for an open write handle of a
    regular file (not stdout), set_extent with any window followed by
    unset_extent returns the size of the file; the handle then has
    offset 0, length and bytes_written equal to that size, the files are
    untouched, st_size() reports the same size, and the position is the
    end of the file: tell returns the size too. *)
Theorem X17_unset_extent_whole_file :
  forall (opt : options) (h : OutputFile) (w : World Ram.disk)
         (o : Ram.ofd) (offset length : Z),
  to_stdout opt = false ->
  isOpen (out_base h) = true ->
  Ram.lookup Z.eqb (_fd (out_base h)) (Ram.fdtab (backend w)) = Some o ->
  Z.of_nat (List.length (Ram.contents (backend w) o)) < 2 ^ 63 ->
  exists h' w',
    (OutputFile_set_extent offset length ;; OutputFile_unset_extent) h w
    = (inr (Z.of_nat (List.length (Ram.contents (backend w) o))), h', w')
    /\ _offset (out_base h') = 0
    /\ _length (out_base h') = Z.of_nat (List.length (Ram.contents (backend w) o))
    /\ bytes_written h' = Z.of_nat (List.length (Ram.contents (backend w) o))
    /\ Ram.files (backend w') = Ram.files (backend w)
    /\ OutputFile_st_size opt h' w'
       = (inr (Z.of_nat (List.length (Ram.contents (backend w) o))), h', w')
    /\ exists w'',
         FileBase_tell (out_base h') w'
         = (inr (Z.of_nat (List.length (Ram.contents (backend w) o))),
            out_base h', w'').
Proof.
  intros opt h w o offset length Hopt Hopen Hfd Hsize.
  set (size := Z.of_nat (List.length (Ram.contents (backend w) o))) in *.
  assert (Hsize0 : 0 <= size) by (unfold size; lia).
  destruct (Ram_set_extent offset length h w o Hfd) as [h1 [Hset [Hfd1 [Hbw1 Hoff1]]]].
  set (o' := Ram.mkOfd (Ram.ofd_file o) (size + 0)).
  set (w' := mkWorld (errno w)
               (Ram.mkDisk (Ram.files (backend w))
                  (Ram.store Z.eqb (_fd (out_base h)) o' (Ram.fdtab (backend w)))
                  (Ram.room (backend w)) (Ram.perms (backend w))
                  (Ram.umask (backend w)))).
  set (h' := mkOutputFile (set_length size (set_offset 0 (out_base h1))) size).
  assert (Hfd' : Ram.lookup Z.eqb (_fd (out_base h')) (Ram.fdtab (backend w')) = Some o').
  { cbn [h' out_base set_length set_offset _fd w' backend Ram.fdtab]. rewrite Hfd1.
    apply Ram_lookup_store. apply Z.eqb_refl. }
  assert (Hcont : Z.of_nat (List.length (Ram.contents (backend w') o')) = size)
    by reflexivity.
  assert (Hopen' : isOpen (out_base h') = true).
  { unfold isOpen in *. cbn [h' out_base set_length set_offset _fd]. rewrite Hfd1.
    exact Hopen. }
  exists h', w'. split; [|split; [|split; [|split; [|split; [|split]]]]].
  - unfold bind at 1. rewrite Hset.
    unfold OutputFile_unset_extent, out_super. run. rewrite Hfd1.
    cbn [sys_lseek Ram.posix]. unfold Ram.lseek. rewrite Hfd.
    change (SEEK_END =? SEEK_SET) with false. change (SEEK_END =? SEEK_CUR) with false.
    change (SEEK_END =? SEEK_END) with true. cbv iota. fold size.
    replace (size + 0 <? 0) with false by (symmetry; apply Z.ltb_ge; lia).
    rewrite (to_off_t_id (size + 0)) by off_lia.
    replace (size + 0 <? 0) with false by (symmetry; apply Z.ltb_ge; lia).
    cbn [out_base bytes_written set_bytes_written]. fold o' w'.
    rewrite Z.add_0_r. reflexivity.
  - reflexivity.
  - reflexivity.
  - reflexivity.
  - reflexivity.
  - unfold OutputFile_st_size. run. rewrite Hopt.
    cbn [sys_fstat Ram.posix]. unfold Ram.fstat. rewrite Hfd'. rewrite Hcont.
    reflexivity.
  - destruct (Ram_tell (out_base h') w' o' Hopen' Hfd') as [w'' Ht].
    + cbn [h' out_base set_length set_offset _offset]. lia.
    + cbn [h' out_base set_length set_offset _offset o' Ram.ofd_pos]. lia.
    + exists w''. rewrite Ht.
      cbn [h' out_base set_length set_offset _offset o' Ram.ofd_pos].
      replace (size + 0 - 0) with size by lia. reflexivity.
Qed.

(** X17 on the write handle on the new file "out". *)
Lemma X17_witness :
  to_stdout Sample.opt_file = false
  /\ isOpen (out_base Sample.out_h) = true
  /\ Ram.lookup Z.eqb (_fd (out_base Sample.out_h)) (Ram.fdtab (backend Sample.out_w))
     = Some (Ram.mkOfd "out" 0)
  /\ Z.of_nat (List.length (Ram.contents (backend Sample.out_w) (Ram.mkOfd "out" 0)))
     < 2 ^ 63
  /\ exists h' w',
       (OutputFile_set_extent 2 1 ;; OutputFile_unset_extent)
         Sample.out_h Sample.out_w
       = (inr (Z.of_nat (List.length (Ram.contents (backend Sample.out_w)
                                        (Ram.mkOfd "out" 0)))), h', w')
       /\ _offset (out_base h') = 0.
Proof.
  assert (H1 : to_stdout Sample.opt_file = false) by reflexivity.
  assert (H2 : isOpen (out_base Sample.out_h) = true) by reflexivity.
  assert (H3 : Ram.lookup Z.eqb (_fd (out_base Sample.out_h))
                 (Ram.fdtab (backend Sample.out_w)) = Some (Ram.mkOfd "out" 0))
    by reflexivity.
  assert (H4 : Z.of_nat (List.length (Ram.contents (backend Sample.out_w)
                                        (Ram.mkOfd "out" 0))) < 2 ^ 63)
    by reflexivity.
  refine (conj H1 (conj H2 (conj H3 (conj H4 _)))).
  destruct (X17_unset_extent_whole_file Sample.opt_file Sample.out_h
              Sample.out_w (Ram.mkOfd "out" 0) 2 1 H1 H2 H3 H4)
    as [h' [w' [E [Ho _]]]].
  exists h', w'. split; [exact E|exact Ho].
Defined.

(** ** The size of a stream *)

Section MemSize.

(** st_size of the write handle on a stream that has not failed. *)
Lemma Mem_OutputStream_st_size (s : Mem.stream) (e : Z) (h : OutputStream) :
  0 <= Mem.pos s <= Mem.size s -> Mem.size s < 2 ^ 63 -> Mem.fail s = false ->
  OutputStream_st_size h (mkWorld e s) = (inr (Mem.size s), h, mkWorld e s).
Proof.
  intros Hpos Hsize Hfail.
  assert (Hin : (0 <=? Mem.size s + 0) && (Mem.size s + 0 <=? Mem.size s) = true).
  { apply andb_true_iff. split; apply Z.leb_le; lia. }
  assert (Hback : (0 <=? Mem.pos s) && (Mem.pos s <=? Mem.size s) = true).
  { apply andb_true_iff. split; apply Z.leb_le; lia. }
  assert (Hcur : (Mem.pos s =? -1) = false) by (apply Z.eqb_neq; lia).
  assert (Hend : (Mem.size s + 0 =? -1) = false) by (apply Z.eqb_neq; lia).
  assert (Hoff : to_off_t (Mem.size s + 0) = Mem.size s).
  { rewrite Z.add_0_r. apply to_off_t_id. off_lia. }
  assert (Hsteps :
    Mem.tellp s = (Mem.pos s, s)
    /\ Mem.tellp (Mem.seekp 0 ios_end s)
       = (Mem.size s + 0, Mem.set_pos (Mem.size s + 0) s)
    /\ Mem.seekp_pos (Mem.pos s) (Mem.set_pos (Mem.size s + 0) s) = s).
  { destruct s as [sz bytes ps eb fb bb gc cp].
    unfold Mem.fail in Hfail.
    cbn [Mem.size Mem.pos Mem.failbit Mem.badbit] in Hfail, Hin, Hback.
    unfold Mem.tellp, Mem.seekp, Mem.seekp_pos, Mem.seek_to, Mem.base, Mem.set_pos,
      Mem.fail.
    cbn [Mem.size Mem.at_ Mem.pos Mem.eofbit Mem.failbit Mem.badbit Mem.gcount
         Mem.cap].
    rewrite Hfail, Hin.
    cbn [Mem.size Mem.at_ Mem.pos Mem.eofbit Mem.failbit Mem.badbit Mem.gcount
         Mem.cap].
    rewrite Hfail, Hback. repeat split. }
  destruct Hsteps as [T1 [T2 T3]].
  unfold OutputStream_st_size. run.
  cbn [backend errno o_tellp o_seekp o_seekp_pos Mem.ostream].
  rewrite T1. cbn [fst snd]. rewrite Hcur. cbv beta iota.
  cbn [backend errno]. rewrite T2. cbn [fst snd].
  rewrite Hend. cbv beta iota. cbn [backend errno].
  rewrite T3, Hoff. reflexivity.
Qed.

(** On a stream that has failed it falls back to bytes_written. *)
Lemma Mem_OutputStream_st_size_failed (s : Mem.stream) (e : Z) (h : OutputStream) :
  Mem.fail s = true ->
  OutputStream_st_size h (mkWorld e s) = (inr (bytes_written h), h, mkWorld e s).
Proof.
  intros Hfail. unfold OutputStream_st_size. run.
  cbn [backend errno o_tellp o_seekp o_seekp_pos Mem.ostream].
  unfold Mem.tellp. rewrite Hfail. reflexivity.
Qed.

End MemSize.

(** X18: st_size of the stream-backed handles, on a seekable stream whose
    position lies within its size.  The read handle reports the size of
    the stream, which is the length its constructor records, and puts
    the position back; as a side effect it clears the error state of the
    stream.  The write handle reports the size and leaves the stream
    exactly as it was; on a stream that has failed it cannot tell the
    position and falls back to bytes_written, without raising.  Neither
    changes the handle. *)
Theorem X18_stream_st_size :
  forall (s : Mem.stream) (e : Z),
  0 <= Mem.pos s <= Mem.size s -> Mem.size s < 2 ^ 63 ->
  (forall h : InputStream,
      InputStream_st_size h (mkWorld e s) = (inr (Mem.size s), h, mkWorld e (Mem.clear s))
      /\ _length (in_base (snd (fst (InputStream_ctor h (mkWorld e s))))) = Mem.size s
      /\ _length_orig (snd (fst (InputStream_ctor h (mkWorld e s)))) = Mem.size s)
  /\ (forall h : OutputStream,
         Mem.fail s = false ->
         OutputStream_st_size h (mkWorld e s) = (inr (Mem.size s), h, mkWorld e s))
  /\ (forall h : OutputStream,
         Mem.fail s = true ->
         OutputStream_st_size h (mkWorld e s) = (inr (bytes_written h), h, mkWorld e s)).
Proof.
  intros s e Hpos Hsize.
  assert (Hin : (0 <=? Mem.size s + 0) && (Mem.size s + 0 <=? Mem.size s) = true).
  { apply andb_true_iff. split; apply Z.leb_le; lia. }
  assert (Hback : (0 <=? Mem.pos s) && (Mem.pos s <=? Mem.size s) = true).
  { apply andb_true_iff. split; apply Z.leb_le; lia. }
  assert (Hcur : (Mem.pos s =? -1) = false) by (apply Z.eqb_neq; lia).
  assert (Hend : (Mem.size s + 0 =? -1) = false) by (apply Z.eqb_neq; lia).
  assert (Hoff : to_off_t (Mem.size s + 0) = Mem.size s).
  { rewrite Z.add_0_r. apply to_off_t_id. off_lia. }
  split; [|split].
  - intros h.
    assert (Hsteps :
      Mem.tellg (Mem.clear s) = (Mem.pos s, Mem.clear s)
      /\ Mem.tellg (Mem.seekg 0 ios_end (Mem.clear s))
         = (Mem.size s + 0, Mem.set_pos (Mem.size s + 0) (Mem.clear s))
      /\ Mem.seekg_pos (Mem.pos s) (Mem.set_pos (Mem.size s + 0) (Mem.clear s))
         = Mem.clear s).
    { unfold Mem.tellg, Mem.seekg, Mem.seekg_pos, Mem.seek_to, Mem.clear_eof,
        Mem.fail, Mem.good, Mem.base, Mem.clear, Mem.set_pos.
      cbn [Mem.size Mem.at_ Mem.pos Mem.eofbit Mem.failbit Mem.badbit Mem.gcount
           Mem.cap negb andb orb].
      rewrite Hin. cbn [Mem.size Mem.at_ Mem.pos Mem.eofbit Mem.failbit Mem.badbit
                        Mem.gcount Mem.cap negb andb orb].
      rewrite Hback. repeat split. }
    destruct Hsteps as [T1 [T2 T3]].
    split; [|split].
    + unfold InputStream_st_size. run.
      cbn [backend errno i_clear i_tellg i_seekg i_seekg_pos Mem.istream].
      rewrite T1. cbn [fst snd]. rewrite Hcur. cbv beta iota.
      cbn [backend errno]. rewrite T2. cbn [fst snd].
      rewrite Hend. cbv beta iota. cbn [backend errno].
      rewrite T3, Hoff. reflexivity.
    + unfold InputStream_ctor. run.
      cbn [backend errno i_clear i_tellg i_seekg i_seekg_pos Mem.istream].
      rewrite T1. cbn [fst snd]. rewrite Hcur. cbv beta iota.
      cbn [backend errno]. rewrite T2. cbn [fst snd].
      rewrite Hend. cbv beta iota. cbn [backend errno in_base _length _length_orig set_length snd fst].
      rewrite Hoff. reflexivity.
    + unfold InputStream_ctor. run.
      cbn [backend errno i_clear i_tellg i_seekg i_seekg_pos Mem.istream].
      rewrite T1. cbn [fst snd]. rewrite Hcur. cbv beta iota.
      cbn [backend errno]. rewrite T2. cbn [fst snd].
      rewrite Hend. cbv beta iota. cbn [backend errno in_base _length _length_orig set_length snd fst].
      rewrite Hoff. reflexivity.
  - intros h Hfail. exact (Mem_OutputStream_st_size s e h Hpos Hsize Hfail).
  - intros h Hfail. exact (Mem_OutputStream_st_size_failed s e h Hfail).
Qed.

(** X18 on the stream of five zero bytes. *)
Lemma X18_witness :
  0 <= Mem.pos (Mem.zeros 5) <= Mem.size (Mem.zeros 5)
  /\ Mem.size (Mem.zeros 5) < 2 ^ 63
  /\ Mem.fail (Mem.zeros 5) = false
  /\ InputStream_st_size Sample.is_h Sample.stream0
     = (inr 5, Sample.is_h, mkWorld 0 (Mem.clear (Mem.zeros 5)))
  /\ OutputStream_st_size Sample.os_h Sample.stream0
     = (inr 5, Sample.os_h, Sample.stream0).
Proof.
  assert (H1 : 0 <= Mem.pos (Mem.zeros 5) <= Mem.size (Mem.zeros 5)) by by_eval.
  assert (H2 : Mem.size (Mem.zeros 5) < 2 ^ 63) by reflexivity.
  assert (H3 : Mem.fail (Mem.zeros 5) = false) by reflexivity.
  refine (conj H1 (conj H2 (conj H3 (conj _ _)))).
  - exact (proj1 (proj1 (X18_stream_st_size (Mem.zeros 5) 0 H1 H2) Sample.is_h)).
  - exact (proj1 (proj2 (X18_stream_st_size (Mem.zeros 5) 0 H1 H2)) Sample.os_h H3).
Defined.

(** ** Removing and renaming files *)

Section DosDirectory.

Lemma Dos_lookup_erase (n : string) (d : Dos.dir) :
  Ram.lookup String.eqb n (Dos.erase n d) = None.
Proof.
  unfold Dos.erase. induction d as [|[k v] d IH]; cbn [filter fst]; [reflexivity|].
  destruct (String.eqb n k) eqn:E; cbn [negb Ram.lookup]; [exact IH|].
  rewrite E. exact IH.
Qed.

Lemma Dos_lookup_erase_other (n k : string) (d : Dos.dir) :
  k <> n ->
  Ram.lookup String.eqb k (Dos.erase n d) = Ram.lookup String.eqb k d.
Proof.
  intros Hne. unfold Dos.erase.
  induction d as [|[k0 v] d IH]; cbn [filter fst]; [reflexivity|].
  destruct (String.eqb n k0) eqn:E; cbn [negb Ram.lookup].
  - apply String.eqb_eq in E. subst k0.
    apply String.eqb_neq in Hne. rewrite Hne. exact IH.
  - rewrite IH. reflexivity.
Qed.

Lemma Dos_erase_store (n : string) (v : bool) (d : Dos.dir) :
  Dos.erase n (Ram.store String.eqb n v d) = Dos.erase n d.
Proof.
  unfold Dos.erase. induction d as [|[k v0] d IH]; cbn [Ram.store filter fst].
  - rewrite String.eqb_refl. reflexivity.
  - destruct (String.eqb n k) eqn:Ek; cbn [filter fst].
    + rewrite String.eqb_refl. reflexivity.
    + rewrite Ek. cbn [negb]. rewrite IH. reflexivity.
Qed.

(** unlink of an existing name, in the build with chmod. *)
Lemma Dos_unlink_existing (name : string) (d : Dos.dir) (e : Z) (attr : bool) :
  name_given (Some name) = true ->
  Ram.lookup String.eqb name d = Some attr ->
  exists e',
    FileBase_unlink (OSN := Dos.names true) (Some name) tt (mkWorld e d)
    = (inr tt, tt, mkWorld e' (Dos.erase name d)).
Proof.
  intros Hn Hl. unfold FileBase_unlink, FileBase_unlink_noexcept.
  run. rewrite Hn.
  cbn [sys_unlink sys_chmod have_chmod Dos.names Dos.unlink Dos.chmod backend errno].
  rewrite Hl. destruct attr.
  - cbn. eexists. reflexivity.
  - cbv beta iota. change (-1 =? 0) with false. cbn [andb negb backend errno].
    rewrite Hl. cbv beta iota. change (0 =? 0) with true.
    cbn [andb negb backend errno].
    rewrite Ram_lookup_store by apply String.eqb_refl.
    change (Ram.has Dos.S_IWUSR 438) with true. cbv beta iota.
    change (0 =? 0) with true. cbn [negb backend errno]. rewrite Dos_erase_store.
    eexists. reflexivity.
Qed.

Lemma Dos_chmod_existing (name : string) (mode : Z) (d : Dos.dir) (e : Z)
      (attr : bool) :
  name_given (Some name) = true ->
  Ram.lookup String.eqb name d = Some attr ->
  FileBase_chmod (OSN := Dos.names true) (Some name) mode tt (mkWorld e d)
  = (inr tt, tt, mkWorld e (Ram.store String.eqb name (Ram.has Dos.S_IWUSR mode) d)).
Proof.
  intros Hn Hl. unfold FileBase_chmod. run. rewrite Hn.
  cbn [sys_chmod have_chmod Dos.names Dos.chmod backend errno].
  rewrite Hl. reflexivity.
Qed.

End DosDirectory.



(** ** The window that stands for the whole file *)

(** X20: set_extent treats the window (0, 0xffffffff) as "the whole file"
    and replaces its length by the real size: on a POSIX file system the
    write handle takes the size from fstat, on a seekable stream that has
    not failed the stream-backed handle takes it from st_size(), in both
    cases without changing the world; on a failed stream the length
    becomes 0, the bytes_written that set_extent has just reset.  Every
    other window is stored as given, with no call at all.  bytes_written
    is 0 afterwards in every case. *)
Theorem X20_set_extent_whole_file :
  (forall (h : OutputFile) (w : World Ram.disk) (o : Ram.ofd),
      Ram.lookup Z.eqb (_fd (out_base h)) (Ram.fdtab (backend w)) = Some o ->
      Z.of_nat (List.length (Ram.contents (backend w) o)) < 2 ^ 63 ->
      OutputFile_set_extent 0 4294967295 h w
      = (inr tt,
         mkOutputFile
           (set_length (Z.of_nat (List.length (Ram.contents (backend w) o)))
              (set_st (mkStat (Z.of_nat (List.length (Ram.contents (backend w) o))))
                 (set_offset 0 (out_base h)))) 0,
         w))
  /\ (forall (h : OutputStream) (s : Mem.stream) (e : Z),
         0 <= Mem.pos s <= Mem.size s -> Mem.size s < 2 ^ 63 -> Mem.fail s = false ->
         OutputStream_set_extent 0 4294967295 h (mkWorld e s)
         = (inr tt,
            mkOutputFile
              (set_length (Mem.size s)
                 (set_st (mkStat (Mem.size s)) (set_offset 0 (out_base h)))) 0,
            mkWorld e s))
  /\ (forall (h : OutputStream) (s : Mem.stream) (e : Z),
         Mem.fail s = true ->
         OutputStream_set_extent 0 4294967295 h (mkWorld e s)
         = (inr tt,
            mkOutputFile
              (set_length 0 (set_st (mkStat 0) (set_offset 0 (out_base h)))) 0,
            mkWorld e s))
  /\ (forall (K : Type) (OS : Posix K) (S : Type) (OST : OStream S)
             (h : OutputFile) (w : World K) (ws : World S) (offset length : Z),
         (0 =? offset) && (4294967295 =? length) = false ->
         OutputFile_set_extent offset length h w
         = (inr tt, mkOutputFile (set_length length (set_offset offset (out_base h))) 0,
            w)
         /\ OutputStream_set_extent offset length h ws
            = (inr tt,
               mkOutputFile (set_length length (set_offset offset (out_base h))) 0,
               ws)).
Proof.
  split; [|split; [|split]].
  - intros h w o Hfd Hsize.
    unfold OutputFile_set_extent, FileBase_set_extent, out_super. run.
    change ((0 =? 0) && (4294967295 =? 4294967295)) with true. cbv iota.
    cbn [sys_fstat Ram.posix]. unfold Ram.fstat.
    match goal with
    | |- context [Ram.lookup Z.eqb (_fd ?b) _] =>
        change (_fd b) with (_fd (out_base h))
    end.
    rewrite Hfd. cbn [fst snd]. change (0 =? 0) with true. cbn [negb].
    rewrite Z.sub_0_r, to_off_t_id by off_lia. reflexivity.
  - intros h s e Hpos Hsize Hfail.
    unfold OutputStream_set_extent. unfold bind.
    change ((0 =? 0) && (4294967295 =? 4294967295)) with true. cbv iota.
    unfold update at 1 2. rewrite Mem_OutputStream_st_size by assumption.
    unfold update, set_out_length, set_bytes_written.
    rewrite Z.sub_0_r, to_off_t_id by off_lia. reflexivity.
  - intros h s e Hfail.
    unfold OutputStream_set_extent. unfold bind.
    change ((0 =? 0) && (4294967295 =? 4294967295)) with true. cbv iota.
    unfold update at 1 2. rewrite Mem_OutputStream_st_size_failed by assumption.
    unfold update, set_out_length, set_bytes_written. reflexivity.
  - intros K OS S OST h w ws offset length Hwin. split.
    + unfold OutputFile_set_extent, FileBase_set_extent, out_super. run.
      rewrite Hwin. reflexivity.
    + unfold OutputStream_set_extent. run. rewrite Hwin. reflexivity.
Qed.

(** X20 on the new file "out" (empty) and on the stream of five zero
    bytes. *)
Lemma X20_witness :
  Ram.lookup Z.eqb (_fd (out_base Sample.out_h)) (Ram.fdtab (backend Sample.out_w))
  = Some (Ram.mkOfd "out" 0)
  /\ 0 <= Mem.pos (Mem.zeros 5) <= Mem.size (Mem.zeros 5)
  /\ _length (out_base (snd (fst (OutputFile_set_extent 0 4294967295 Sample.out_h
                                    Sample.out_w)))) = 0
  /\ _length (out_base (snd (fst (OutputStream_set_extent 0 4294967295 Sample.os_h
                                    Sample.stream0)))) = 5.
Proof.
  assert (H1 : Ram.lookup Z.eqb (_fd (out_base Sample.out_h))
                 (Ram.fdtab (backend Sample.out_w)) = Some (Ram.mkOfd "out" 0))
    by reflexivity.
  assert (H2 : Z.of_nat (List.length (Ram.contents (backend Sample.out_w)
                                        (Ram.mkOfd "out" 0))) < 2 ^ 63)
    by reflexivity.
  assert (H3 : 0 <= Mem.pos (Mem.zeros 5) <= Mem.size (Mem.zeros 5)) by by_eval.
  assert (H4 : Mem.size (Mem.zeros 5) < 2 ^ 63) by reflexivity.
  assert (H5 : Mem.fail (Mem.zeros 5) = false) by reflexivity.
  refine (conj H1 (conj H3 (conj _ _))).
  - rewrite (proj1 X20_set_extent_whole_file Sample.out_h Sample.out_w
               (Ram.mkOfd "out" 0) H1 H2).
    reflexivity.
  - change Sample.stream0 with (mkWorld 0 (Mem.zeros 5)).
    rewrite (proj1 (proj2 X20_set_extent_whole_file) Sample.os_h (Mem.zeros 5) 0
               H3 H4 H5).
    reflexivity.
Defined.
